(** * FinEdge: persistence, aggregation and token layers

  A shallow embedding of the FinEdge personal-finance service:
  - [FileStorageService] (src/utils/fileStorage.js): one JSON container file
    per collection, every operation a read-modify-write cycle;
  - [UserService] and [TransactionService] (file backend);
  - [MongoDBService.find] with the pagination middleware;
  - the summary aggregation and its month scoping;
  - [JWTService], the hand-written signed-token scheme, over a [Platform]
    that stands for [crypto], [Buffer] and [JSON]; [Host.platform] is the
    one of Node.js, built from [Base64], [SHA256] and [JSONText].

  JavaScript values are modelled dynamically: an object is a finite map from
  property names to values, a property that reads [undefined] is an absent
  key.  Numbers are IEEE-754 binary64 floats, as in the language. *)

From Stdlib Require Import ZArith Floats List Lia Bool Ascii DecimalPos Sorted.
From stdpp Require Import base option list gmap strings pretty.

#[local] Open Scope Z_scope.
#[local] Set Warnings "-register-all".

(** ** JavaScript values *)

Module JS.

Inductive value :=
  | VNull
  | VBool (b : bool)
  | VNum (x : float)
  | VStr (s : string)
  | VArr (l : list value)
  | VObj (o : gmap string value).

(** A plain object: own enumerable properties, by name. *)
Abbreviation obj := (gmap string value).

(** [o[k]] where [undefined] is [None]. *)
Definition get (o : obj) (k : string) : option value := o !! k.

(** ToBoolean. *)
Definition truthy (v : value) : bool :=
  match v with
  | VNull => false
  | VBool b => b
  | VNum x => negb (PrimFloat.eqb x 0%float || PrimFloat.is_nan x)
  | VStr s => negb (String.eqb s "")
  | VArr _ | VObj _ => true
  end.

(** ToBoolean of a possibly undefined value. *)
Definition truthy_opt (v : option value) : bool :=
  match v with Some v => truthy v | None => false end.

(** [v === s] for a string [s]. *)
Definition is_str (v : option value) (s : string) : bool :=
  match v with Some (VStr t) => String.eqb t s | _ => false end.

(** Object spread [{...a, ...b}]: the properties of [b] win. *)
Definition spread (a b : obj) : obj := b ∪ a.

(** The own properties copied by [...v] inside an object literal: those of
    an object; [undefined], [null], booleans and numbers contribute none. *)
Definition spread_props (v : option value) : obj :=
  match v with
  | Some (VObj o) => o
  | _ => ∅
  end.

(** A property initialiser [k: e] where [e] may evaluate to [undefined]:
    such a property is dropped by JSON serialisation, so it is not kept. *)
Definition set_opt (k : string) (v : option value) (o : obj) : obj :=
  match v with Some v => <[k := v]> o | None => o end.

(** The text of a string-valued property, empty for anything else. *)
Definition text_of (v : option value) : string :=
  match v with Some (VStr s) => s | _ => "" end.

(** [const { k, ...rest } = o]: [rest]. *)
Definition omit (k : string) (o : obj) : obj := delete k o.

(** *** Exceptions (src/utils/errors.js and the built-in ones) *)

Inductive exn :=
  | Error (message : string)
  | TypeError (message : string)
  | SyntaxError (message : string)
  | ValidationError (message : string) (errors : list string)
  | NotFoundError (resource : string)
  | AuthenticationError (message : string)
  | AuthorizationError (message : string)
  | ConflictError (message : string)
  | DatabaseError (message : string) (originalError : exn).

(** [error.name]. *)
Definition name (e : exn) : string :=
  match e with
  | Error _ => "Error"
  | TypeError _ => "TypeError"
  | SyntaxError _ => "SyntaxError"
  | ValidationError _ _ => "ValidationError"
  | NotFoundError _ => "NotFoundError"
  | AuthenticationError _ => "AuthenticationError"
  | AuthorizationError _ => "AuthorizationError"
  | ConflictError _ => "ConflictError"
  | DatabaseError _ _ => "DatabaseError"
  end.

(** [error.message]. *)
Definition message (e : exn) : string :=
  match e with
  | Error m | TypeError m | SyntaxError m | ValidationError m _
  | AuthenticationError m | AuthorizationError m | ConflictError m
  | DatabaseError m _ => m
  | NotFoundError r => r +:+ " not found"
  end.

(** [error.statusCode] as the [AppError] subclasses set it; the built-in
    errors carry none. *)
Definition statusCode (e : exn) : option Z :=
  match e with
  | Error _ | TypeError _ | SyntaxError _ => None
  | ValidationError _ _ => Some 400
  | NotFoundError _ => Some 404
  | AuthenticationError _ => Some 401
  | AuthorizationError _ => Some 403
  | ConflictError _ => Some 409
  | DatabaseError _ _ => Some 500
  end.

(** The error kinds of the specification's taxonomy, as the error classes
    realise them. *)
Inductive kind :=
  | ValidationFailed | NotFound | Conflict | Unauthorized | StorageUnavailable
  | Unclassified.

Definition kind_of (e : exn) : kind :=
  match e with
  | ValidationError _ _ => ValidationFailed
  | NotFoundError _ => NotFound
  | ConflictError _ => Conflict
  | AuthenticationError _ | AuthorizationError _ => Unauthorized
  | DatabaseError _ _ => StorageUnavailable
  | Error _ | TypeError _ | SyntaxError _ => Unclassified
  end.

End JS.

Export JS.

(** ** The process environment: files, clock and random source *)

(** What the runtime supplies and the repository does not define. *)
Class Runtime := {
  (** [Date.prototype.toISOString] of the instant [ms]. *)
  toISOString : Z → string;
  (** [String.prototype.toLowerCase]. *)
  toLowerCase : string → string;
  (** [String.prototype.trim]. *)
  trim : string → string;
  (** [new Date(v).getTime()]: [None] is [NaN], an invalid date. *)
  parseDate : value → option Z;
  (** The offset of the server's local time from UTC, in milliseconds (a zone
      with one fixed offset; no daylight saving). *)
  LocalTZA : Z;
}.

(** src/config/config.js, the part the core reads. *)
Record Config := {
usersFile : string;
transactionsFile : string;
jwtSecret : string;
maxAmount : float;
}.

(** The defaults of src/config/config.js (no environment override). *)
Definition default_config : Config := {|
usersFile := "data/users.json";
transactionsFile := "data/transactions.json";
jwtSecret := "your-super-secret-jwt-key-change-in-production";
maxAmount := 1000000%float;
|}.

(** The world a request runs in.  A container file holds a JSON array of
  records; [files] maps a path to the array it parses to, and a path that is
  not bound is a file that does not exist.  [clock] lists the instants
  (milliseconds since the epoch) that successive readings of the system time
  return, [random] the strings that successive evaluations of
  [Math.random().toString(36).substr(2, 9)] return.  The file system itself
  is assumed to work: [mkdir], [readFile] and [writeFile] raise no I/O
  error other than a missing file. *)
Record world := World {
files : gmap string (list obj);
clock : nat → Z;
ticks : nat;
random : nat → string;
draws : nat;
}.

(** An asynchronous operation run to completion: it returns or throws, and
  leaves a world behind either way. *)
Definition M (A : Type) : Type := world → (exn + A) * world.

#[global] Instance M_ret : MRet M := λ A (a : A) w, (inr a, w).
#[global] Instance M_bind : MBind M := λ A B (f : A → M B) (m : M A) w,
match m w with
| (inr a, w') => f a w'
| (inl e, w') => (inl e, w')
end.

Definition throw {A} (e : exn) : M A := λ w, (inl e, w).

(** [try { m } catch (error) { h error }]. *)
Definition try_catch {A} (m : M A) (h : exn → M A) : M A := λ w,
match m w with
| (inr a, w') => (inr a, w')
| (inl e, w') => h e w'
end.

(** The world after one more reading of the clock, one more draw of the
    random source, and after [filePath] was overwritten with [data]. *)
Definition tick (w : world) : world :=
  World (files w) (clock w) (S (ticks w)) (random w) (draws w).
Definition draw (w : world) : world :=
  World (files w) (clock w) (ticks w) (random w) (S (draws w)).
Definition with_file (filePath : string) (data : list obj) (w : world) : world :=
  World (<[filePath := data]> (files w)) (clock w) (ticks w) (random w) (draws w).

(** [Date.now()], and the instant of [new Date()]. *)
Definition Date_now : M Z := λ w, (inr (clock w (ticks w)), tick w).

(** [Math.random().toString(36).substr(2, 9)]. *)
Definition random_suffix : M string := λ w, (inr (random w (draws w)), draw w).

Definition fs_read (filePath : string) : M (option (list obj)) := λ w,
  (inr (files w !! filePath), w).

Definition fs_write (filePath : string) (data : list obj) : M unit := λ w,
  (inr tt, with_file filePath data w).

(** The array a container file holds, the empty one when it does not exist. *)
Definition content (w : world) (filePath : string) : list obj :=
  default [] (files w !! filePath).

(** The outcome and the final world of running [m]. *)
Definition outcome {A} (r : (exn + A) * world) : exn + A := r.1.
Definition after {A} (r : (exn + A) * world) : world := r.2.

(** ** FileStorageService (src/utils/fileStorage.js) *)

Module FileStorageService.
Section ops.
Context `{Runtime}.

(** [data.findIndex(p)]: [None] is the [-1] of the source. *)
Fixpoint findIndex {A} (p : A → bool) (data : list A) : option nat :=
  match data with
  | [] => None
  | item :: rest => if p item then Some 0%nat else S <$> findIndex p rest
  end.

(** [data.find(p)]. *)
Fixpoint find {A} (p : A → bool) (data : list A) : option A :=
  match data with
  | [] => None
  | item :: rest => if p item then Some item else find p rest
  end.

(** [item.id === id]. *)
Definition has_id (id : string) (item : obj) : bool := is_str (item !! "id") id.

Definition readFile (filePath : string) : M (list obj) :=
  try_catch
    (data ← fs_read filePath;
     (* ENOENT: the file does not exist, an empty array *)
     mret (default [] data))
    (λ error, throw (DatabaseError ("Failed to read file: " +:+ filePath) error)).

Definition writeFile (filePath : string) (data : list obj) : M unit :=
  try_catch
    (fs_write filePath data)
    (λ error, throw (DatabaseError ("Failed to write file: " +:+ filePath) error)).

Definition appendToFile (filePath : string) (item : obj) : M obj :=
  try_catch
    (data ← readFile filePath;
     let data := data ++ [item] in
     _ ← writeFile filePath data;
     mret item)
    (λ error, throw (DatabaseError ("Failed to append to file: " +:+ filePath) error)).

Definition updateInFile (filePath id : string) (updateData : obj) : M obj :=
  try_catch
    (data ← readFile filePath;
     match findIndex (has_id id) data with
     | None => throw (Error "Item not found")
     | Some index =>
         now ← Date_now;
         let item :=
           <["updatedAt" := VStr (toISOString now)]>
             (spread (default ∅ (data !! index)) updateData) in
         let data := <[index := item]> data in
         _ ← writeFile filePath data;
         mret (default ∅ (data !! index))
     end)
    (λ error, throw (DatabaseError ("Failed to update item in file: " +:+ filePath) error)).

(** [{ success: true, id }]. *)
Definition deleted (id : string) : obj :=
  <["success" := VBool true]> (<["id" := VStr id]> ∅).

Definition deleteFromFile (filePath id : string) : M obj :=
  try_catch
    (data ← readFile filePath;
     let filteredData := List.filter (λ item, negb (has_id id item)) data in
     if (length filteredData =? length data)%nat
     then throw (Error "Item not found")
     else
       _ ← writeFile filePath filteredData;
       mret (deleted id))
    (λ error, throw (DatabaseError ("Failed to delete from file: " +:+ filePath) error)).

Definition findInFile (filePath : string) (predicate : obj → bool) : M (list obj) :=
  try_catch
    (data ← readFile filePath;
     mret (List.filter predicate data))
    (λ error, throw (DatabaseError ("Failed to find in file: " +:+ filePath) error)).

Definition findByIdInFile (filePath id : string) : M (option obj) :=
  try_catch
    (data ← readFile filePath;
     mret (find (has_id id) data))
    (λ error, throw (DatabaseError ("Failed to find by ID in file: " +:+ filePath) error)).

Definition clearFile (filePath : string) : M unit :=
  try_catch
    (writeFile filePath [])
    (λ error, throw (DatabaseError ("Failed to clear file: " +:+ filePath) error)).

End ops.
End FileStorageService.

(** ** UserService, file backend (src/services/UserService.js) *)

Module UserService.
Section ops.
Context `{Runtime} (config : Config).

Import FileStorageService.

(** [email.toLowerCase()] on a value that may be anything. *)
Definition lower (email : option value) : M string :=
  match email with
  | Some (VStr s) => mret (toLowerCase s)
  | None => throw (TypeError "Cannot read properties of undefined (reading 'toLowerCase')")
  | Some VNull => throw (TypeError "Cannot read properties of null (reading 'toLowerCase')")
  | Some _ => throw (TypeError "email.toLowerCase is not a function")
  end.

(** [users.find(u => u.email === email.toLowerCase()) || null]: the callback,
    and with it [email.toLowerCase()], runs only when there is a user to
    look at. *)
Definition getUserByEmail (email : option value) : M (option obj) :=
  try_catch
    (users ← readFile (usersFile config);
     match users with
     | [] => mret None
     | _ :: _ =>
         e ← lower email;
         mret (find (λ u, is_str (u !! "email") e) users)
     end)
    (λ error, throw error).

(** The preferences a user gets when the caller supplies none. *)
Definition default_preferences : value :=
  VObj (<["currency" := VStr "USD"]> (<["theme" := VStr "light"]>
       (<["notifications" := VBool true]> (<["language" := VStr "en"]> ∅)))).

Definition createUser (userData : obj) : M obj :=
  try_catch
    ((* Check if user already exists *)
     existingUser ← getUserByEmail (userData !! "email");
     match existingUser with
     | Some _ =>
         throw (ConflictError
                  ("User with email " +:+ text_of (userData !! "email") +:+ " already exists"))
     | None =>
         now ← Date_now;
         suffix ← random_suffix;
         email ← lower (userData !! "email");
         createdAt ← Date_now;
         updatedAt ← Date_now;
         let user : obj :=
           <["id" := VStr ("user_" +:+ pretty now +:+ "_" +:+ suffix)]> $
           <["email" := VStr email]> $
           set_opt "password" (userData !! "password") $ (* TODO: Hash in production *)
           set_opt "firstName" (userData !! "firstName") $
           set_opt "lastName" (userData !! "lastName") $
           <["preferences" :=
               if truthy_opt (userData !! "preferences")
               then default VNull (userData !! "preferences")
               else default_preferences]> $
           <["createdAt" := VStr (toISOString createdAt)]> $
           <["updatedAt" := VStr (toISOString updatedAt)]> ∅ in
         _ ← appendToFile (usersFile config) user;
         (* Return user without password *)
         mret (omit "password" user)
     end)
    (λ error, throw error).

Definition getUserById (id : string) : M obj :=
  try_catch
    (user ← findByIdInFile (usersFile config) id;
     match user with
     | None => throw (NotFoundError "User")
     | Some user => mret (omit "password" user)
     end)
    (λ error, throw error).

Definition updatePreferences (userId : string) (preferences : option value) : M obj :=
  try_catch
    (user ← getUserById userId;
     updated ← updateInFile (usersFile config) userId
                 {[ "preferences" :=
                      VObj (spread (spread_props (user !! "preferences"))
                                   (spread_props preferences)) ]};
     mret (omit "password" updated))
    (λ error, throw error).

Definition deleteUser (userId : string) : M obj :=
  try_catch
    ((* Verify user exists *)
     _ ← getUserById userId;
     (* Delete user *)
     _ ← deleteFromFile (usersFile config) userId;
     mret (deleted userId))
    (λ error, throw error).


End ops.
End UserService.

(** ** TransactionService, file backend (src/services/TransactionService.js) *)

Module TransactionService.
Section ops.
Context `{Runtime} (config : Config).

Import FileStorageService.

Definition createTransaction (transactionData : obj) : M obj :=
  try_catch
    (now ← Date_now;
     suffix ← random_suffix;
     date ← (if truthy_opt (transactionData !! "date")
             then mret (default VNull (transactionData !! "date"))
             else (t ← Date_now; mret (VStr (toISOString t))));
     createdAt ← Date_now;
     updatedAt ← Date_now;
     let transaction : obj :=
       <["id" := VStr ("txn_" +:+ pretty now +:+ "_" +:+ suffix)]> $
       set_opt "userId" (transactionData !! "userId") $
       set_opt "type" (transactionData !! "type") $ (* 'income' or 'expense' *)
       set_opt "category" (transactionData !! "category") $
       set_opt "amount" (transactionData !! "amount") $
       <["description" :=
           if truthy_opt (transactionData !! "description")
           then default VNull (transactionData !! "description")
           else VStr ""]> $
       <["date" := date]> $
       <["createdAt" := VStr (toISOString createdAt)]> $
       <["updatedAt" := VStr (toISOString updatedAt)]> ∅ in
     _ ← appendToFile (transactionsFile config) transaction;
     mret transaction)
    (λ error, throw error).

Definition getTransactionById (id : string) : M obj :=
  try_catch
    (transaction ← findByIdInFile (transactionsFile config) id;
     match transaction with
     | None => throw (NotFoundError "Transaction")
     | Some transaction => mret transaction
     end)
    (λ error, throw error).

Definition updateTransaction (id : string) (updateData : obj) : M obj :=
  try_catch
    ((* Verify transaction exists *)
     _ ← getTransactionById id;
     updateInFile (transactionsFile config) id updateData)
    (λ error, throw error).

Definition deleteTransaction (id : string) : M obj :=
  try_catch
    ((* Verify transaction exists *)
     _ ← getTransactionById id;
     _ ← deleteFromFile (transactionsFile config) id;
     mret (deleted id))
    (λ error, throw error).

End ops.
End TransactionService.

(** ** Validation middleware (src/middleware/validation.js) *)

Module Validation.
Section ops.
Context `{Runtime}.

(** What a middleware does with a request: it answers it, or attaches data
    to it and calls [next()]. *)
Inductive result (A : Type) :=
  | Respond (status : Z) (message : string) (errors : list string)
  | Next (attached : A).
#[global] Arguments Respond {A}.
#[global] Arguments Next {A}.

(** The double quote character, and a quoted word. *)
Definition dq : string := String (Ascii.ascii_of_nat 34) EmptyString.
Definition quoted (s : string) : string := dq +:+ s +:+ dq.

Definition type_errors (type : option value) : list string :=
  if negb (truthy_opt type) then ["Transaction type is required"]
  else if is_str type "income" || is_str type "expense" then []
  else ["Type must be either " +:+ quoted "income" +:+ " or " +:+ quoted "expense"].

(** [!category || category.trim() === '']: the messages it earns, or the
    message of the [TypeError] that [category.trim()] throws on a truthy value
    that is no string. *)
Definition category_errors (category : option value) : string + list string :=
  if negb (truthy_opt category) then inr ["Category is required"]
  else match category with
       | Some (VStr s) =>
           inr (if String.eqb (trim s) "" then ["Category is required"] else [])
       | _ => inl "category.trim is not a function"
       end.

(** [!amount], then [typeof amount !== 'number' || amount <= 0], then
    [amount > 1000000]. *)
Definition amount_errors (amount : option value) : list string :=
  if negb (truthy_opt amount) then ["Amount is required"]
  else match amount with
       | Some (VNum x) =>
           if (x <=? 0)%float then ["Amount must be a positive number"]
           else if (1000000 <? x)%float then ["Amount exceeds maximum limit"]
           else []
       | _ => ["Amount must be a positive number"]
       end.

(** [date && isNaN(new Date(date).getTime())]. *)
Definition date_errors (date : option value) : list string :=
  match date with
  | Some d =>
      if truthy d && negb (bool_decide (is_Some (parseDate d)))
      then ["Invalid date format"] else []
  | None => []
  end.

(** [description && typeof description !== 'string']. *)
Definition description_errors (description : option value) : list string :=
  match description with
  | Some (VStr _) => []
  | _ => if truthy_opt description then ["Description must be a string"] else []
  end.

(** [description?.trim() || '']: on a value that is neither a string nor
    nullish, [trim] is not a function. *)
Definition description_text (description : option value) : string + string :=
  match description with
  | None | Some VNull => inr ""
  | Some (VStr s) => inr (trim s)
  | Some _ => inl "description?.trim is not a function"
  end.

(** The 400 answer of the [catch] clause. *)
Definition validation_error {A} (message : string) : result A :=
  Respond 400 "Validation error" [message].

Definition validateTransaction (body : obj) : M (result obj) :=
  let userId := body !! "userId" in
  let type := body !! "type" in
  let category := body !! "category" in
  let amount := body !! "amount" in
  let description := body !! "description" in
  let date := body !! "date" in
  match category_errors category with
  | inl thrown => mret (validation_error thrown)
  | inr category_errs =>
      let errors :=
        (if truthy_opt userId then [] else ["User ID is required"]) ++
        type_errors type ++ category_errs ++ amount_errors amount ++
        date_errors date ++ description_errors description in
      match errors with
      | _ :: _ => mret (Respond 400 "Validation failed" errors)
      | [] =>
          match description_text description with
          | inl thrown => mret (validation_error thrown)
          | inr description =>
              (* date ? new Date(date) : new Date() *)
              t ← (match date with
                    | Some d =>
                        if truthy d then mret (default 0 (parseDate d)) else Date_now
                    | None => Date_now
                    end);
              mret (Next (
                set_opt "userId" userId $
                set_opt "type" type $
                <["category" := VStr (trim (text_of category))]> $
                set_opt "amount" amount $
                <["description" := VStr description]> $
                <["date" := VStr (toISOString t)]> ∅))
          end
      end
  end.

(** A character of the class [[a-zA-Z0-9-]]. *)
Definition id_char (c : Ascii.ascii) : bool :=
  let n := Ascii.nat_of_ascii c in
  ((97 <=? n) && (n <=? 122) || (65 <=? n) && (n <=? 90) ||
   (48 <=? n) && (n <=? 57) || (n =? 45))%nat.

Fixpoint every (p : Ascii.ascii → bool) (s : string) : bool :=
  match s with
  | EmptyString => true
  | String c s' => p c && every p s'
  end.

(** [/^[a-zA-Z0-9-]+$/.test(id)]: one character of the class or more, and
    nothing else. *)
Definition id_format (id : string) : bool :=
  negb (String.eqb id "") && every id_char id.

(** [validateId] on the [:id] segment of the path, a string: [Next] is the
    call of [next()]. *)
Definition validateId (id : string) : result unit :=
  if negb (truthy (VStr id)) || negb (id_format id)
  then Respond 400 "Invalid ID format" []
  else Next tt.

End ops.
End Validation.

(** ** Library functions of the language, on ASCII text *)

Module Lib.

(** ASCII white space. *)
Definition is_space (c : Ascii.ascii) : bool :=
  let n := Ascii.N_of_ascii c in ((n =? 32) || ((9 <=? n) && (n <=? 13)))%N.

Fixpoint trim_start (s : string) : string :=
  match s with
  | String c s' => if is_space c then trim_start s' else s
  | EmptyString => EmptyString
  end.

(** The value of a digit in a radix up to 36. *)
Definition digit_value (c : Ascii.ascii) : option Z :=
  let n := Z.of_N (Ascii.N_of_ascii c) in
  if (48 <=? n) && (n <=? 57) then Some (n - 48)
  else if (97 <=? n) && (n <=? 122) then Some (n - 87)
  else if (65 <=? n) && (n <=? 90) then Some (n - 55)
  else None.

(** The number read from the longest prefix of digits, [acc] so far. *)
Fixpoint digits (radix : Z) (s : string) (acc : option Z) : option Z :=
  match s with
  | String c s' =>
      match digit_value c with
      | Some d => if d <? radix then digits radix s' (Some (default 0 acc * radix + d)) else acc
      | None => acc
      end
  | EmptyString => acc
  end.

(** [parseInt(s)]: [None] is [NaN].  The integers that occur (page numbers,
    years) are far below 2^53, where a binary64 number is the integer itself. *)
Definition parseInt (s : string) : option Z :=
  let s := trim_start s in
  let '(negative, s) :=
    match s with
    | String "-"%char s' => (true, s')
    | String "+"%char s' => (false, s')
    | _ => (false, s)
    end in
  let '(radix, s) :=
    match s with
    | String "0"%char (String "x"%char s')
    | String "0"%char (String "X"%char s') => (16, s')
    | _ => (10, s)
    end in
  (λ n, if negative then - n else n) <$> digits radix s None.

(** [s.split(sep)] for a one-character separator: never empty. *)
Fixpoint split (sep : Ascii.ascii) (s : string) : list string :=
  match s with
  | EmptyString => [EmptyString]
  | String c s' =>
      if Ascii.eqb c sep then EmptyString :: split sep s'
      else match split sep s' with
           | first :: rest => String c first :: rest
           | [] => [String c EmptyString]
           end
  end.

(** No character of [s] is [sep]. *)
Fixpoint free_of (sep : Ascii.ascii) (s : string) : bool :=
  match s with
  | EmptyString => true
  | String c s' => negb (Ascii.eqb c sep) && free_of sep s'
  end.

(** A number that is an integer, or the outcome of a division by zero. *)
Inductive number :=
  | Int (n : Z)
  | Infinity
  | NaN.

(** [Math.ceil(a / b)] on integers. *)
Definition ceil_div (a b : Z) : number :=
  if b =? 0 then (if a =? 0 then NaN else if 0 <? a then Infinity else Infinity)
  else Int (- ((- a) / b)).

End Lib.

(** ** Pagination middleware (src/middleware/validation.js) *)

Module Pagination.
Section ops.
Context `{Runtime}.



(** [parseInt(v) || fallback], [v] defaulting to [fallback] itself. *)
Definition int_or (v : option string) (fallback : Z) : Z :=
  match v with
  | None => fallback
  | Some s =>
      match Lib.parseInt s with
      | Some 0 | None => fallback
      | Some n => n
      end
  end.


End ops.
End Pagination.

(** ** MongoDBService.find (src/utils/mongoDBService.js) *)

Module MongoDBService.
Section find.
Context {D : Type}.

(** The database as the wrapper sees it: what [MongoDBConnection.getInstance]
    gives, and the documents of the model's collection in stored order. *)
Record Mongo := {
  connection : exn + unit;
  documents : list D;
}.

(** The order documents get when none is requested: [{ createdAt: -1 }]. *)
Context (createdAt_desc : D → D → bool).

(** A query is the predicate it denotes, a sort specification the strict
    order it denotes ([before a b]: [a] must precede [b]), a projection or a
    population the map on documents it denotes. *)
Record Options := {
  opt_skip : option Z;
  opt_limit : option Z;
  opt_sort : option (D → D → bool);
  opt_select : option (D → D);
  opt_populate : list (D → D);
}.

Record Page := {
  data : list D;
  total : Z;
  skip : Z;
  limit : Z;
  pages : Lib.number;
}.

(** The cursor's [sort]: documents that the order does not separate keep
    their stored order. *)
Fixpoint insert_by (before : D → D → bool) (x : D) (sorted : list D) : list D :=
  match sorted with
  | [] => [x]
  | y :: rest => if before y x then y :: insert_by before x rest else x :: y :: rest
  end.

Definition sort_by (before : D → D → bool) (docs : list D) : list D :=
  foldr (insert_by before) [] docs.

(** The cursor's [limit(n)]: zero is no limit, a negative number its
    absolute value. *)
Definition take_limit (n : Z) (docs : list D) : list D :=
  if n =? 0 then docs else take (Z.to_nat (Z.abs n)) docs.

Definition ensureConnection (db : Mongo) : exn + unit :=
  match connection db with
  | inr _ => inr tt
  | inl error => inl (DatabaseError "Database connection failed" error)
  end.

(** What [select] and [populate] make of a document of the result. *)
Definition shape (options : Options) (doc : D) : D :=
  foldl (λ doc populate, populate doc)
        (from_option (λ select, select doc) doc (opt_select options))
        (opt_populate options).

Definition find (db : Mongo) (query : D → bool) (options : Options) : exn + Page :=
  let wrap error := DatabaseError "Failed to find documents" error in
  match ensureConnection db with
  | inl error => inl (wrap error)
  | inr _ =>
      let skip := default 0 (opt_skip options) in
      let limit := default 10 (opt_limit options) in
      let sort := default createdAt_desc (opt_sort options) in
      let matching := List.filter query (documents db) in
      let total := Z.of_nat (length matching) in
      if skip <? 0 then inl (wrap (Error "Skip value must be non-negative"))
      else
        let data := take_limit limit (drop (Z.to_nat skip) (sort_by sort matching)) in
        inr {| data := shape options <$> data;
               total := total;
               skip := skip;
               limit := limit;
               pages := Lib.ceil_div total limit |}
  end.

End find.
End MongoDBService.

(** ** JWTService (src/services/JWTService.js) *)

Module JSON.

(** A JSON document.  The numbers of a token are epoch seconds: integers far
    below 2^53, on which the arithmetic and the comparisons of binary64 are
    those of the integers.  An object lists its members in insertion order. *)
Inductive json :=
  | JNull
  | JBool (b : bool)
  | JNum (n : Z)
  | JStr (s : string)
  | JArr (items : list json)
  | JObj (members : list (string * json)).

(** [o[k]]. *)
Fixpoint member (k : string) (members : list (string * json)) : option json :=
  match members with
  | [] => None
  | (k', v) :: rest => if String.eqb k' k then Some v else member k rest
  end.

(** [o[k] = v]: an existing member keeps its place, a new one goes last. *)
Fixpoint set_member (k : string) (v : json) (members : list (string * json))
    : list (string * json) :=
  match members with
  | [] => [(k, v)]
  | (k', v') :: rest =>
      if String.eqb k' k then (k', v) :: rest else (k', v') :: set_member k v rest
  end.

(** A string or an integer. *)
Definition scalar (v : json) : bool :=
  match v with JStr _ | JNum _ => true | _ => false end.

(** The members of a flat object: distinct names, scalar values. *)
Definition flat (members : list (string * json)) : Prop :=
  NoDup members.*1 ∧ ∀ k v, (k, v) ∈ members → scalar v = true.

End JSON.

Export JSON.

(** What [crypto], [Buffer] and [JSON] supply to the token service; and, as
    [PlatformLaws], what the service relies on: base64 text has no dot in
    it, decoding undoes encoding, and parsing undoes the serialisation of a
    flat object. *)
Class Platform := {
  (** [crypto.createHmac('sha256', key).update(data).digest('base64')] *)
  hmac_sha256_base64 : string → string → string;
  (** [Buffer.from(text).toString('base64')] *)
  to_base64 : string → string;
  (** [Buffer.from(text, 'base64').toString()] *)
  from_base64 : string → string;
  JSON_stringify : json → string;
  (** [JSON.parse]: the document, or the message of the [SyntaxError]. *)
  JSON_parse : string → string + json;
  (** [v < n] for a [v] that is a string, an array or an object. *)
  coerced_less : json → Z → bool;
}.

Class PlatformLaws `{Platform} : Prop := {
  hmac_no_dot : ∀ key data, Lib.free_of "." (hmac_sha256_base64 key data) = true;
  to_base64_no_dot : ∀ text, Lib.free_of "." (to_base64 text) = true;
  from_to_base64 : ∀ text, from_base64 (to_base64 text) = text;
  JSON_parse_stringify :
    ∀ members, flat members → JSON_parse (JSON_stringify (JObj members)) = inr (JObj members);
}.

Module JWTService.
Section ops.
Context `{Platform} (config : Config).

(** The lifetime of a token, in seconds: 7 days. *)
Definition lifetime : Z := 7 * 24 * 60 * 60.

(** [Math.floor(Date.now() / 1000)]. *)
Definition seconds : M Z := now ← Date_now; mret (now / 1000).

Definition sign (headerEncoded bodyEncoded : string) : string :=
  hmac_sha256_base64 (jwtSecret config) (headerEncoded +:+ "." +:+ bodyEncoded).

(** [payload] is the list of the members of the payload object. *)
Definition generateToken (payload : list (string * json)) : M string :=
  let header := JObj [("alg", JStr "HS256"); ("typ", JStr "JWT")] in
  iat ← seconds;
  exp ← seconds;
  let body :=
    JObj (set_member "exp" (JNum (exp + lifetime))
            (set_member "iat" (JNum iat) payload)) in
  let headerEncoded := to_base64 (JSON_stringify header) in
  let bodyEncoded := to_base64 (JSON_stringify body) in
  let signature := sign headerEncoded bodyEncoded in
  mret (headerEncoded +:+ "." +:+ bodyEncoded +:+ "." +:+ signature).

(** The body of the token that [generateToken] issues in [w]. *)
Definition issued_body (payload : list (string * json)) (w : world)
    : list (string * json) :=
  set_member "exp" (JNum (clock w (S (ticks w)) / 1000 + lifetime))
    (set_member "iat" (JNum (clock w (ticks w) / 1000)) payload).

(** [body.exp < now] once both are evaluated. *)
Definition less (exp : option json) (now : Z) : bool :=
  match exp with
  | None => false
  | Some (JNum e) => e <? now
  | Some JNull => 0 <? now
  | Some (JBool b) => (if b then 1 else 0) <? now
  | Some v => coerced_less v now
  end.

(** [body.exp]: a property read, which throws on [null]. *)
Definition exp_of (body : json) : M (option json) :=
  match body with
  | JNull => throw (TypeError "Cannot read properties of null (reading 'exp')")
  | JObj members => mret (member "exp" members)
  | _ => mret None
  end.

(** [JSON.parse(Buffer.from(bodyEncoded, 'base64').toString())]. *)
Definition decode_body (bodyEncoded : string) : M json :=
  match JSON_parse (from_base64 bodyEncoded) with
  | inr body => mret body
  | inl message => throw (SyntaxError message)
  end.

Definition verifyToken (token : string) : M json :=
  try_catch
    (match Lib.split "." token with
     | [headerEncoded; bodyEncoded; signature] =>
         (* Verify signature *)
         let expectedSignature := sign headerEncoded bodyEncoded in
         if negb (String.eqb signature expectedSignature)
         then throw (Error "Invalid signature")
         else
           (* Decode and parse body *)
           body ← decode_body bodyEncoded;
           (* Check expiration *)
           exp ← exp_of body;
           now ← seconds;
           if less exp now then throw (Error "Token expired") else mret body
     | _ => throw (Error "Invalid token format")
     end)
    (λ error, throw (Error ("Token verification failed: " +:+ message error))).

Definition decodeToken (token : string) : M json :=
  try_catch
    (match Lib.split "." token with
     | [_; bodyEncoded; _] => decode_body bodyEncoded
     | _ => throw (Error "Invalid token format")
     end)
    (λ error, throw (Error ("Token decode failed: " +:+ message error))).

Definition createSessionToken (userId email : string) : M string :=
  generateToken [("sub", JStr userId); ("email", JStr email); ("type", JStr "session")].

(** [decoded.k] as a member of a payload, absent when it is [undefined]. *)
Definition claim (k : string) (decoded : json) : list (string * json) :=
  match decoded with
  | JObj members => from_option (λ v, [(k, v)]) [] (member k members)
  | _ => []
  end.

Definition refreshToken (oldToken : string) : M string :=
  try_catch
    (decoded ← verifyToken oldToken;
     generateToken (claim "sub" decoded ++ claim "email" decoded ++ claim "type" decoded))
    (λ error, throw (Error ("Token refresh failed: " +:+ message error))).

(** The kinds of failure that the specification gives to verification. *)
Inductive failure := InvalidFormat | InvalidSignature | Expired.

(** The kind of a failure of [verifyToken], read off the message it was
    wrapped with. *)
Definition failure_of (error : exn) : option failure :=
  match error with
  | Error m =>
      if String.eqb m "Token verification failed: Invalid token format" then Some InvalidFormat
      else if String.eqb m "Token verification failed: Invalid signature" then Some InvalidSignature
      else if String.eqb m "Token verification failed: Token expired" then Some Expired
      else None
  | _ => None
  end.

End ops.
End JWTService.

(** ** Authentication middleware (src/middleware/auth.js) *)

Module Auth.
Section ops.
Context `{Platform} (config : Config).

Import JWTService.

(** [req.user]: each property is [undefined] when the payload has none. *)
Record User := {
  user_id : option json;
  user_email : option json;
  user_type : option json;
}.

(** [s.startsWith(prefix)] and [s.slice(n)]. *)
Fixpoint startsWith (prefix s : string) : bool :=
  match prefix, s with
  | EmptyString, _ => true
  | String c prefix', String c' s' => Ascii.eqb c c' && startsWith prefix' s'
  | String _ _, EmptyString => false
  end.

Fixpoint slice (n : nat) (s : string) : string :=
  match n, s with
  | S n', String _ s' => slice n' s'
  | _, _ => s
  end.

(** [decoded.k]: [undefined] on what is no object, a [TypeError] on [null]. *)
Definition property (k : string) (decoded : json) : M (option json) :=
  match decoded with
  | JNull => throw (TypeError ("Cannot read properties of null (reading '" +:+ k +:+ "')"))
  | JObj members => mret (member k members)
  | _ => mret None
  end.

(** The user that a token stands for: the body of both [try] blocks. *)
Definition user_of (token : string) : M User :=
  decoded ← verifyToken config token;
  id ← property "sub" decoded;
  email ← property "email" decoded;
  type ← property "type" decoded;
  mret {| user_id := id; user_email := email; user_type := type |}.

(** [authenticate] on the [Authorization] header of the request: a return is
    the call [next()] with [req.user] set, a throw the call [next(error)]. *)
Definition authenticate (authorization : option string) : M User :=
  try_catch
    (match authorization with
     | Some authHeader =>
         if negb (truthy (VStr authHeader)) || negb (startsWith "Bearer " authHeader)
         then throw (AuthenticationError "Authorization token required")
         else
           let token := slice 7 authHeader in (* Remove 'Bearer ' *)
           try_catch (user_of token)
                     (λ error, throw (AuthenticationError (message error)))
     | None => throw (AuthenticationError "Authorization token required")
     end)
    (λ error, throw error).

(** [optionalAuth]: [next()] is called with [req.user] set or not. *)
Definition optionalAuth (authorization : option string) : M (option User) :=
  try_catch
    (match authorization with
     | Some authHeader =>
         if truthy (VStr authHeader) && startsWith "Bearer " authHeader
         then
           let token := slice 7 authHeader in
           try_catch (user ← user_of token; mret (Some user))
                     (λ error, mret None)
         else mret None
     | None => mret None
     end)
    (λ error, throw error).

End ops.
End Auth.

(** ** The global error handler (src/middleware/errorHandler.js) *)

Module ErrorHandler.

(** The answer: the status and, of the JSON body, the message and the list
    of errors when there is one. *)
Record Response := {
  status : Z;
  body_message : string;
  body_errors : option (list string);
}.

(** [err.code] and [err.status]: the errors of src/utils/errors.js and the
    built-in ones set neither. *)
Definition code (err : exn) : option Z := None.
Definition status_of (err : exn) : option Z := None.

(** [err.errors]. *)
Definition errors_of (err : exn) : option (list string) :=
  match err with
  | ValidationError _ errors => Some errors
  | _ => None
  end.

(** An empty message is falsy. *)
Definition message_or (err : exn) (fallback : string) : string :=
  if String.eqb (message err) "" then fallback else message err.

Definition errorHandler (err : exn) : Response :=
  (* Handle validation errors *)
  if String.eqb (name err) "ValidationError"
  then {| status := 400; body_message := "Validation error";
          body_errors := Some (default [message err] (errors_of err)) |}
  (* Handle duplicate key errors *)
  else if bool_decide (code err = Some 11000)
  then {| status := 409; body_message := "Resource already exists"; body_errors := None |}
  (* Handle JWT errors *)
  else if String.eqb (name err) "JsonWebTokenError"
  then {| status := 401; body_message := "Invalid token"; body_errors := None |}
  else if String.eqb (name err) "TokenExpiredError"
  then {| status := 401; body_message := "Token expired"; body_errors := None |}
  (* Handle not found errors *)
  else if bool_decide (status_of err = Some 404)
  then {| status := 404; body_message := message_or err "Resource not found";
          body_errors := None |}
  (* Handle authentication errors *)
  else if bool_decide (status_of err = Some 401)
  then {| status := 401; body_message := message_or err "Unauthorized";
          body_errors := None |}
  (* Default error response *)
  else
    let statusCode :=
      match status_of err, statusCode err with
      | Some s, _ => if s =? 0 then default 500 (statusCode err) else s
      | None, Some s => s
      | None, None => 500
      end in
    {| status := statusCode; body_message := message_or err "Internal server error";
       body_errors := None |}.

End ErrorHandler.

(** ** Calendar arithmetic of [Date] (ECMAScript, Gregorian proleptic) *)

Module Calendar.

Definition msPerDay : Z := 86400000.

(** [Day(t)] and [TimeWithinDay(t)]. *)
Definition Day (t : Z) : Z := t / msPerDay.
Definition TimeWithinDay (t : Z) : Z := t mod msPerDay.

(** The number of the day on which month [m] (1..12) day [d] of year [y]
    falls, counted from 1970-01-01. *)
Definition days_from_civil (y m d : Z) : Z :=
  let y := if m <=? 2 then y - 1 else y in
  let era := y / 400 in
  let yoe := y - era * 400 in
  let doy := (153 * (if m >? 2 then m - 3 else m + 9) + 2) / 5 + d - 1 in
  let doe := yoe * 365 + yoe / 4 - yoe / 100 + doy in
  era * 146097 + doe - 719468.

(** The civil date (year, month 1..12, day 1..31) of day number [z]. *)
Definition civil_from_days (z : Z) : Z * Z * Z :=
  let z := z + 719468 in
  let era := z / 146097 in
  let doe := z - era * 146097 in
  let yoe := (doe - doe / 1460 + doe / 36524 - doe / 146096) / 365 in
  let y := yoe + era * 400 in
  let doy := doe - (365 * yoe + yoe / 4 - yoe / 100) in
  let mp := (5 * doy + 2) / 153 in
  let d := doy - (153 * mp + 2) / 5 + 1 in
  let m := if mp <? 10 then mp + 3 else mp - 9 in
  (if m <=? 2 then y + 1 else y, m, d).

(** [YearFromTime], [MonthFromTime] (0 = January) and [DateFromTime]. *)
Definition YearFromTime (t : Z) : Z := (civil_from_days (Day t)).1.1.
Definition MonthFromTime (t : Z) : Z := (civil_from_days (Day t)).1.2 - 1.
Definition DateFromTime (t : Z) : Z := (civil_from_days (Day t)).2.

(** [MakeDay(year, month, date)]: [month] is 0-based and may lie outside
    0..11, [date] may lie outside the month; both carry over. *)
Definition MakeDay (year month date : Z) : Z :=
  let ym := year + month / 12 in
  let mn := month mod 12 in
  days_from_civil ym (mn + 1) 1 + date - 1.

Definition MakeTime (hour min sec ms : Z) : Z :=
  hour * 3600000 + min * 60000 + sec * 1000 + ms.

Definition MakeDate (day time : Z) : Z := day * msPerDay + time.

(** Decimal digits of a natural number, padded with zeros to [width]. *)
Definition pad (width : nat) (n : Z) : string :=
  let s := pretty (Z.to_N n) in
  String.concat "" (replicate (width - String.length s) "0") +:+ s.

(** [Date.prototype.toISOString]: the UTC fields of the instant, the year
    with four digits, or six and a sign outside 0..9999. *)
Definition toISOString (t : Z) : string :=
  let y := YearFromTime t in
  let w := TimeWithinDay t in
  (if (0 <=? y) && (y <=? 9999) then pad 4 y
   else (if y <? 0 then "-" else "+") +:+ pad 6 (Z.abs y))
  +:+ "-" +:+ pad 2 (MonthFromTime t + 1)
  +:+ "-" +:+ pad 2 (DateFromTime t)
  +:+ "T" +:+ pad 2 (w / 3600000)
  +:+ ":" +:+ pad 2 (w / 60000 mod 60)
  +:+ ":" +:+ pad 2 (w / 1000 mod 60)
  +:+ "." +:+ pad 3 (w mod 1000)
  +:+ "Z".

(** The number of the first day of month [i], counted from January 1970. *)
Definition month_start (i : Z) : Z := MakeDay 1970 i 1.

(** Each day of month [i] has that month's year and month. *)
Definition month_has_its_days (i : Z) : bool :=
  forallb (λ d, let '(y, m, _) := civil_from_days d in
                (y =? 1970 + i / 12) && (m =? i mod 12 + 1))
          (seqZ (month_start i) (month_start (i + 1) - month_start i)).

End Calendar.

(** ** Numbers: [toFixed(2)] and [parseFloat] *)

Module Number.

#[local] Open Scope float_scope.

(** The float of an integer below 2^53, which it represents exactly. *)
Definition of_Z (n : Z) : float := PrimFloat.of_uint63 (Uint63.of_Z n).

(** For a finite [a >= 0], the integer [n] for which [n / 100 - a] is as
    close to zero as possible, the larger one when there are two
    (Number.prototype.toFixed, step 8): [a] is [m * 2^e] exactly. *)
Definition hundredths (a : float) : Z :=
  match Prim2SF a with
  | S754_finite _ m e =>
      if (0 <=? e)%Z then (Z.pos m * 2 ^ e * 100)%Z
      else ((2 * (Z.pos m * 100) + 2 ^ (- e)) / (2 * 2 ^ (- e)))%Z
  | _ => 0%Z
  end.

(** [parseFloat(x.toFixed(2))].  [toFixed] prints [NaN] and the numbers from
    1e21 on as [String(x)] does, which [parseFloat] reads back as [x]; below,
    it prints the digits of [hundredths |x|] with a point before the last two
    and the sign of [x], and [parseFloat] reads the double nearest to that
    decimal: the quotient by 100 when the integer is below 2^53 (an exact
    double), and [x] itself above, where doubles are further apart than
    0.015 and the decimal is within 0.005 of [x]. *)
Definition round2 (x : float) : float :=
  if PrimFloat.is_nan x then x
  else if 1e21 <=? PrimFloat.abs x then x
  else
    let n := hundredths (PrimFloat.abs x) in
    if (n <? 2 ^ 53)%Z
    then let q := of_Z n / 100 in if x <? 0 then - q else q
    else x.

(** [v || 0] for a number that may be missing. *)
Definition or_zero (v : option float) : float :=
  match v with
  | Some x => if (x =? 0) || PrimFloat.is_nan x then 0 else x
  | None => 0
  end.

End Number.

(** ** Summaries (TransactionService.getSummary, both backends) *)

Module Txn.

(** A transaction as [createTransaction] stores it, read back: the type and
    the category are strings, the amount is a number, and [date] is the
    instant that [new Date(t.date)] denotes. *)
Record Transaction := {
  id : string;
  userId : string;
  type : string;
  category : string;
  amount : float;
  description : string;
  date : Z;
}.

End Txn.

Module TransactionSummary.
Section ops.
Context `{Runtime}.

Import Txn.
#[local] Open Scope float_scope.

Record Filters := {
  f_type : option string;
  f_category : option string;
  f_startDate : option Z;
  f_endDate : option Z;
}.

Definition no_filters : Filters :=
  {| f_type := None; f_category := None; f_startDate := None; f_endDate := None |}.

(** A filter on a string applies when the string is given and not empty. *)
Definition keeps (wanted : option string) (actual : string) : bool :=
  match wanted with
  | Some s => String.eqb s "" || String.eqb actual s
  | None => true
  end.

(** [transactions.sort((a, b) => new Date(b.date) - new Date(a.date))]: the
    sort is stable. *)
Definition newer (a b : Transaction) : bool := (date b <? date a)%Z.

Definition getUserTransactions (stored : list Transaction) (user : string)
    (filters : Filters) : list Transaction :=
  let transactions := List.filter (λ t, String.eqb (userId t) user) stored in
  let transactions := List.filter (λ t, keeps (f_type filters) (type t)) transactions in
  let transactions := List.filter (λ t, keeps (f_category filters) (category t)) transactions in
  let transactions :=
    List.filter (λ t, from_option (λ start, start <=? date t)%Z true (f_startDate filters))
                transactions in
  let transactions :=
    List.filter (λ t, from_option (λ end_, date t <=? end_)%Z true (f_endDate filters))
                transactions in
  MongoDBService.sort_by newer transactions.

(** [date.getFullYear()] and [date.getMonth()], in the server's local time. *)
Definition getFullYear (t : Z) : Z := Calendar.YearFromTime (t + LocalTZA).
Definition getMonth (t : Z) : Z := Calendar.MonthFromTime (t + LocalTZA).

(** [const [year, monthNum] = month.split('-')], each read by [parseInt]. *)
Definition year_and_month (month : string) : option Z * option Z :=
  let parts := Lib.split "-" month in
  (parts !! 0%nat ≫= Lib.parseInt, parts !! 1%nat ≫= Lib.parseInt).

(** The filter of the file backend: the year and the month of the date are
    those of [month]. *)
Definition in_month (month : string) (t : Transaction) : bool :=
  let '(year, monthNum) := year_and_month month in
  match year, monthNum with
  | Some y, Some m =>
      (getFullYear (date t) =? y)%Z && (getMonth (date t) =? m - 1)%Z
  | _, _ => false
  end.

(** The running totals of the [forEach] loop. *)
Record Totals := {
  totalIncome : float;
  totalExpense : float;
  incomeByCategory : gmap string float;
  expenseByCategory : gmap string float;
}.

Definition add_to (byCategory : gmap string float) (t : Transaction) : gmap string float :=
  <[category t := Number.or_zero (byCategory !! category t) + amount t]> byCategory.

Definition accumulate (totals : Totals) (t : Transaction) : Totals :=
  if String.eqb (type t) "income"
  then {| totalIncome := totalIncome totals + amount t;
          totalExpense := totalExpense totals;
          incomeByCategory := add_to (incomeByCategory totals) t;
          expenseByCategory := expenseByCategory totals |}
  else {| totalIncome := totalIncome totals;
          totalExpense := totalExpense totals + amount t;
          incomeByCategory := incomeByCategory totals;
          expenseByCategory := add_to (expenseByCategory totals) t |}.

Record Summary := {
  s_totalIncome : float;
  s_totalExpense : float;
  netSavings : float;
  savingsPercentage : float;
  s_incomeByCategory : gmap string float;
  s_expenseByCategory : gmap string float;
  transactionCount : nat;
  period : string;
}.

(** The aggregation itself, on the records a summary is made of. *)
Definition summarize (filtered : list Transaction) (period : string) : Summary :=
  let totals :=
    foldl accumulate
          {| totalIncome := 0; totalExpense := 0;
             incomeByCategory := ∅; expenseByCategory := ∅ |}
          filtered in
  let netSavings := totalIncome totals - totalExpense totals in
  let savingsPercentage :=
    if 0 <? totalIncome totals then netSavings / totalIncome totals * 100 else 0 in
  {| s_totalIncome := totalIncome totals;
     s_totalExpense := totalExpense totals;
     netSavings := netSavings;
     savingsPercentage := Number.round2 savingsPercentage;
     s_incomeByCategory := incomeByCategory totals;
     s_expenseByCategory := expenseByCategory totals;
     transactionCount := length filtered;
     period := period |}.

(** The sum of the amounts of [records], added up in their order from 0, as
    [reduce((sum, t) => sum + t.amount, 0)] does. *)
Definition total_of (records : list Transaction) : float :=
  foldl (λ sum t, sum + amount t) 0 records.


(** Every record is an income or an expense: the kinds are closed. *)
Definition closed_kinds (records : list Transaction) : Prop :=
  ∀ t, t ∈ records → type t = "income" ∨ type t = "expense".

(** A month argument counts when it is given and not empty. *)
Definition given (month : option string) : option string :=
  match month with
  | Some s => if String.eqb s "" then None else Some s
  | None => None
  end.

(** [TransactionService.getSummary] of the file backend, on the content of
    the transactions file. *)
Definition getSummary (stored : list Transaction) (user : string)
    (month : option string) : Summary :=
  let transactions := getUserTransactions stored user no_filters in
  let filtered :=
    match given month with
    | Some m => List.filter (in_month m) transactions
    | None => transactions
    end in
  summarize filtered (default "all-time" (given month)).

(** [TransactionService.getCategorySummary] of the file backend. *)
Record CategorySummary := {
  c_category : string;
  totalAmount : float;
  c_transactionCount : nat;
  incomeCount : nat;
  expenseCount : nat;
  average : float;
}.

Definition getCategorySummary (stored : list Transaction) (user category : string)
    (filters : Filters) : CategorySummary :=
  let transactions :=
    getUserTransactions stored user
      {| f_type := None; f_category := Some category;
         f_startDate := None; f_endDate := None |} in
  let filtered := transactions in
  let filtered :=
    match f_startDate filters with
    | Some start => List.filter (λ t, start <=? date t)%Z filtered
    | None => filtered
    end in
  let filtered :=
    match f_endDate filters with
    | Some end_ => List.filter (λ t, date t <=? end_)%Z filtered
    | None => filtered
    end in
  let totalAmount := foldl (λ sum t, sum + amount t) 0 filtered in
  let incomeCount := length (List.filter (λ t, String.eqb (type t) "income") filtered) in
  let expenseCount := length (List.filter (λ t, String.eqb (type t) "expense") filtered) in
  let average :=
    if (0 <? length filtered)%nat
    then totalAmount / Number.of_Z (Z.of_nat (length filtered)) else 0 in
  {| c_category := category;
     totalAmount := totalAmount;
     c_transactionCount := length filtered;
     incomeCount := incomeCount;
     expenseCount := expenseCount;
     average := Number.round2 average |}.

(** *** The document backend (src/services/TransactionServiceMongo.js) *)

(** [new Date(year, month, date, hours, minutes, seconds)]: the instant of
    that local time, on the day that [MakeDay] finds; a year from 0 to 99
    counts from 1900. *)
Definition new_Date (year month date hours minutes seconds : Z) : Z :=
  let year := if (0 <=? year)%Z && (year <=? 99)%Z then (1900 + year)%Z else year in
  (Calendar.MakeDate (Calendar.MakeDay year month date)
                     (Calendar.MakeTime hours minutes seconds 0) - LocalTZA)%Z.










(** The conditions of [getUserTransactions] on one record. *)
Definition wanted (user : string) (filters : Filters) (t : Transaction) : bool :=
  String.eqb (userId t) user &&
  (keeps (f_type filters) (type t) &&
   (keeps (f_category filters) (category t) &&
    (from_option (λ start, start <=? date t)%Z true (f_startDate filters) &&
     from_option (λ end_, date t <=? end_)%Z true (f_endDate filters)))).

(** Newest first: no record is followed by a newer one. *)
Definition newest_first_order (a b : Transaction) : Prop := (date b ≤ date a)%Z.

(** A salary of 100 received at noon, local time, on 31 January 2024. *)
Definition january_salary : Transaction :=
  {| id := "txn_31"; userId := "user_1"; type := "income"; category := "Salary";
     amount := 100; description := "January"; date := new_Date 2024 0 31 12 0 0 |}.

End ops.
End TransactionSummary.

(** ** A concrete runtime to evaluate the model on *)

Module Node.

(** Case folding of the ASCII letters; the other characters are kept. *)
Definition lower_ascii (c : Ascii.ascii) : Ascii.ascii :=
  let n := Ascii.N_of_ascii c in
  if ((65 <=? n) && (n <=? 90))%N then Ascii.ascii_of_N (n + 32) else c.

Fixpoint lower (s : string) : string :=
  match s with
  | EmptyString => EmptyString
  | String c s => String (lower_ascii c) (lower s)
  end.

Definition trim_both (s : string) : string :=
  String.rev (Lib.trim_start (String.rev (Lib.trim_start s))).

(** Dates are read from numbers only (the instant itself); every other value
    is an invalid date in this runtime. *)
Definition date_of (v : value) : option Z :=
  match v with
  | VNum x =>
      match Prim2SF x with
      | S754_zero _ => Some 0
      | S754_finite neg m e =>
          let n := if (0 <=? e) then Z.pos m * 2 ^ e else Z.pos m / 2 ^ (- e) in
          Some (if neg then - n else n)
      | _ => None
      end
  | _ => None
  end.

#[export] Instance runtime : Runtime := {|
  toISOString := Calendar.toISOString;
  toLowerCase := lower;
  trim := trim_both;
  parseDate := date_of;
  LocalTZA := 0;
|}.

(** A world with no files, whose clock starts at [t0] and advances by one
    millisecond a reading, and whose random source repeats [suffix]. *)
Definition boot (t0 : Z) (suffix : string) : world :=
  World ∅ (λ n, t0 + Z.of_nat n) 0 (λ _, suffix) 0.

End Node.

(** ** Base64, as [Buffer] encodes and decodes it *)

Module Base64.

(** Six bits, the most significant first. *)
Inductive sextet := Sextet (b5 b4 b3 b2 b1 b0 : bool).

Definition index (x : sextet) : nat :=
  let 'Sextet b5 b4 b3 b2 b1 b0 := x in
  (32 * Nat.b2n b5 + 16 * Nat.b2n b4 + 8 * Nat.b2n b3 +
   4 * Nat.b2n b2 + 2 * Nat.b2n b1 + Nat.b2n b0)%nat.

Definition of_index (n : nat) : sextet :=
  Sextet (Nat.testbit n 5) (Nat.testbit n 4) (Nat.testbit n 3)
         (Nat.testbit n 2) (Nat.testbit n 1) (Nat.testbit n 0).

Definition alphabet : string :=
  "ABCDEFGHIJKLMNOPQRSTUVWXYZabcdefghijklmnopqrstuvwxyz0123456789+/".

Definition char_of (x : sextet) : ascii :=
  default "="%char (String.get (index x) alphabet).

(** The sextet a character stands for; the decoder also reads the URL-safe
    [-] and [_]. *)
Definition sextet_of (c : ascii) : option sextet :=
  let n := nat_of_ascii c in
  if (65 <=? n)%nat && (n <=? 90)%nat then Some (of_index (n - 65))
  else if (97 <=? n)%nat && (n <=? 122)%nat then Some (of_index (n - 71))
  else if (48 <=? n)%nat && (n <=? 57)%nat then Some (of_index (n + 4))
  else if (n =? 43)%nat || (n =? 45)%nat then Some (of_index 62)
  else if (n =? 47)%nat || (n =? 95)%nat then Some (of_index 63)
  else None.

(** The sextets of a text, three bytes making four; the last group of one
    or two bytes makes two or three, filled with zero bits. *)
Fixpoint sextets_of (text : string) : list sextet :=
  match text with
  | String (Ascii a0 a1 a2 a3 a4 a5 a6 a7)
      (String (Ascii b0 b1 b2 b3 b4 b5 b6 b7)
         (String (Ascii c0 c1 c2 c3 c4 c5 c6 c7) rest)) =>
      Sextet a7 a6 a5 a4 a3 a2 :: Sextet a1 a0 b7 b6 b5 b4 ::
      Sextet b3 b2 b1 b0 c7 c6 :: Sextet c5 c4 c3 c2 c1 c0 :: sextets_of rest
  | String (Ascii a0 a1 a2 a3 a4 a5 a6 a7)
      (String (Ascii b0 b1 b2 b3 b4 b5 b6 b7) EmptyString) =>
      [Sextet a7 a6 a5 a4 a3 a2; Sextet a1 a0 b7 b6 b5 b4;
       Sextet b3 b2 b1 b0 false false]
  | String (Ascii a0 a1 a2 a3 a4 a5 a6 a7) EmptyString =>
      [Sextet a7 a6 a5 a4 a3 a2; Sextet a1 a0 false false false false]
  | EmptyString => []
  end.

(** The characters of a list of sextets, padded with [=] to a multiple of
    four. *)
Fixpoint chars_of (sextets : list sextet) : string :=
  match sextets with
  | s1 :: s2 :: s3 :: s4 :: rest =>
      String (char_of s1) (String (char_of s2) (String (char_of s3)
        (String (char_of s4) (chars_of rest))))
  | [s1; s2; s3] =>
      String (char_of s1) (String (char_of s2) (String (char_of s3) "="))
  | [s1; s2] => String (char_of s1) (String (char_of s2) "==")
  | [s1] => String (char_of s1) "==="
  | [] => EmptyString
  end.

(** [Buffer.from(text).toString('base64')], [text] being the bytes. *)
Definition encode (text : string) : string := chars_of (sextets_of text).

(** The sextets of an encoded text: what is no base64 character is skipped,
    and the first [=] ends the text. *)
Fixpoint sextets_in (encoded : string) : list sextet :=
  match encoded with
  | EmptyString => []
  | String c rest =>
      if Ascii.eqb c "=" then []
      else match sextet_of c with
           | Some x => x :: sextets_in rest
           | None => sextets_in rest
           end
  end.

(** The bytes of a list of sextets, four making three; a last group of two
    or three makes one or two, and a single sextet makes none. *)
Fixpoint bytes_of (sextets : list sextet) : string :=
  match sextets with
  | Sextet a7 a6 a5 a4 a3 a2 :: Sextet a1 a0 b7 b6 b5 b4 ::
    Sextet b3 b2 b1 b0 c7 c6 :: Sextet c5 c4 c3 c2 c1 c0 :: rest =>
      String (Ascii a0 a1 a2 a3 a4 a5 a6 a7)
        (String (Ascii b0 b1 b2 b3 b4 b5 b6 b7)
           (String (Ascii c0 c1 c2 c3 c4 c5 c6 c7) (bytes_of rest)))
  | [Sextet a7 a6 a5 a4 a3 a2; Sextet a1 a0 b7 b6 b5 b4; Sextet b3 b2 b1 b0 _ _] =>
      String (Ascii a0 a1 a2 a3 a4 a5 a6 a7)
        (String (Ascii b0 b1 b2 b3 b4 b5 b6 b7) EmptyString)
  | [Sextet a7 a6 a5 a4 a3 a2; Sextet a1 a0 _ _ _ _] =>
      String (Ascii a0 a1 a2 a3 a4 a5 a6 a7) EmptyString
  | _ => EmptyString
  end.

(** [Buffer.from(encoded, 'base64').toString()], for bytes that are text. *)
Definition decode (encoded : string) : string := bytes_of (sextets_in encoded).

End Base64.

(** ** SHA-256 and HMAC (FIPS 180-4, RFC 2104), as [crypto] computes them *)

Module SHA256.

(** Words are integers below 2^32. *)
Definition w32 (x : Z) : Z := x mod 2 ^ 32.
Definition add32 (x y : Z) : Z := w32 (x + y).
Definition rotr (n x : Z) : Z := Z.lor (Z.shiftr x n) (w32 (Z.shiftl x (32 - n))).
Definition not32 (x : Z) : Z := Z.lxor x 0xffffffff.

Definition Ch (x y z : Z) : Z := Z.lxor (Z.land x y) (Z.land (not32 x) z).
Definition Maj (x y z : Z) : Z :=
  Z.lxor (Z.lxor (Z.land x y) (Z.land x z)) (Z.land y z).
Definition Sigma0 (x : Z) : Z := Z.lxor (Z.lxor (rotr 2 x) (rotr 13 x)) (rotr 22 x).
Definition Sigma1 (x : Z) : Z := Z.lxor (Z.lxor (rotr 6 x) (rotr 11 x)) (rotr 25 x).
Definition sigma0 (x : Z) : Z := Z.lxor (Z.lxor (rotr 7 x) (rotr 18 x)) (Z.shiftr x 3).
Definition sigma1 (x : Z) : Z := Z.lxor (Z.lxor (rotr 17 x) (rotr 19 x)) (Z.shiftr x 10).

(** The primes up to 311: the first sixty-four. *)
Definition is_prime (p : Z) : bool :=
  forallb (λ d, negb (p mod Z.of_nat d =? 0)) (seq 2 (Z.to_nat p - 2)).

Definition primes : list Z :=
  Eval vm_compute in List.filter is_prime (Z.of_nat <$> seq 2 310).

(** The integer part of the [k]-th root of [n], for a root below 2^36. *)
Definition root (k n : Z) : Z :=
  foldl (λ r i, let r' := r + 2 ^ (35 - Z.of_nat i) in if r' ^ k <=? n then r' else r)
        0 (seq 0 36).

(** The round constants: the first thirty-two bits of the fractional parts of
    the cube roots of the primes. *)
Definition K : list Z :=
  Eval vm_compute in (λ p, w32 (root 3 (p * 2 ^ 96))) <$> primes.

(** The initial hash value: the same of the square roots of the first eight
    primes. *)
Definition H0 : list Z :=
  Eval vm_compute in (λ p, w32 (root 2 (p * 2 ^ 64))) <$> take 8 primes.

(** The message followed by the bit 1, zeros, and its length in bits on 64
    bits, a multiple of 64 bytes in all. *)
Definition pad (message : list Z) : list Z :=
  let len := Z.of_nat (length message) in
  let zeros := Z.to_nat ((55 - len) mod 64) in
  let bits := len * 8 in
  message ++ [0x80] ++ replicate zeros 0 ++
  ((λ i, Z.shiftr bits (8 * (7 - Z.of_nat i)) mod 256) <$> seq 0 8).

(** Big-endian words of a list of bytes. *)
Fixpoint words (bytes : list Z) : list Z :=
  match bytes with
  | a :: b :: c :: d :: rest => (((a * 256 + b) * 256 + c) * 256 + d) :: words rest
  | _ => []
  end.

(** The message schedule: [done] holds the words so far, the latest first. *)
Fixpoint schedule (n : nat) (done : list Z) : list Z :=
  match n with
  | O => reverse done
  | S n' =>
      let w i := default 0 (done !! i) in
      schedule n' (add32 (add32 (sigma1 (w 1%nat)) (w 6%nat))
                         (add32 (sigma0 (w 14%nat)) (w 15%nat)) :: done)
  end.

Definition round (state : list Z) (kw : Z * Z) : list Z :=
  match state with
  | [a; b; c; d; e; f; g; h] =>
      let t1 := add32 (add32 (add32 h (Sigma1 e)) (add32 (Ch e f g) kw.1)) kw.2 in
      let t2 := add32 (Sigma0 a) (Maj a b c) in
      [add32 t1 t2; a; b; c; add32 d t1; e; f; g]
  | _ => state
  end.

Definition compress (state : list Z) (block : list Z) : list Z :=
  let w := schedule 48 (reverse (words block)) in
  zip_with add32 state (foldl round state (zip K w)).

Fixpoint blocks (n : nat) (bytes : list Z) : list (list Z) :=
  match n with
  | O => []
  | S n' => take 64 bytes :: blocks n' (drop 64 bytes)
  end.

(** The digest: 32 bytes. *)
Definition hash (message : list Z) : list Z :=
  let padded := pad message in
  let state := foldl compress H0 (blocks (length padded / 64) padded) in
  w ← state; (λ i, Z.shiftr w (8 * (3 - Z.of_nat i)) mod 256) <$> seq 0 4.

Definition bytes_of_string (s : string) : list Z :=
  (λ c, Z.of_nat (nat_of_ascii c)) <$> String.list_ascii_of_string s.

Definition string_of_bytes (bytes : list Z) : string :=
  String.string_of_list_ascii ((λ b, ascii_of_nat (Z.to_nat b)) <$> bytes).

(** HMAC with SHA-256: a key longer than a block is hashed first. *)
Definition hmac (key message : list Z) : list Z :=
  let key := if (64 <? length key)%nat then hash key else key in
  let key := key ++ replicate (64 - length key) 0 in
  hash ((Z.lxor 0x5c <$> key) ++ hash ((Z.lxor 0x36 <$> key) ++ message)).

(** Lower-case hexadecimal of a list of bytes. *)
Definition hex (bytes : list Z) : string :=
  let digit (n : Z) : ascii :=
    default "?"%char (String.get (Z.to_nat n) "0123456789abcdef") in
  String.string_of_list_ascii (b ← bytes; [digit (b / 16); digit (b mod 16)]).

End SHA256.

(** ** JSON text, as [JSON.stringify] writes it and [JSON.parse] reads it *)

Module JSONText.

Definition quote : ascii := ascii_of_nat 34.
Definition backslash : ascii := ascii_of_nat 92.

(** The outcome of reading: the message of the [SyntaxError], or what was
    read and the text after it. *)
Definition reading (A : Type) : Type := string + (A * string).

Definition and_then {A B} (r : reading A) (k : A → string → reading B) : reading B :=
  match r with
  | inr (a, rest) => k a rest
  | inl message => inl message
  end.

Definition unexpected_end : string := "Unexpected end of JSON input".
Definition unexpected_token : string := "Unexpected token in JSON".

(** *** Writing *)

Definition hex_digit (n : nat) : ascii :=
  default "0"%char (String.get n "0123456789abcdef").

(** The text of one character of a string: the quote, the backslash and the
    control characters are escaped. *)
Definition escape (c : ascii) : string :=
  let n := nat_of_ascii c in
  if (n =? 34)%nat then String backslash (String quote EmptyString)
  else if (n =? 92)%nat then String backslash (String backslash EmptyString)
  else if (n =? 8)%nat then String backslash "b"
  else if (n =? 9)%nat then String backslash "t"
  else if (n =? 10)%nat then String backslash "n"
  else if (n =? 12)%nat then String backslash "f"
  else if (n =? 13)%nat then String backslash "r"
  else if (n <? 32)%nat
  then String backslash
         (String "u" (String "0" (String "0"
            (String (hex_digit (n / 16)) (String (hex_digit (n mod 16)) EmptyString)))))
  else String c EmptyString.

Fixpoint escape_all (s : string) : string :=
  match s with
  | EmptyString => EmptyString
  | String c s' => escape c +:+ escape_all s'
  end.

Definition write_string (s : string) : string :=
  String quote (escape_all s +:+ String quote EmptyString).

Fixpoint write_digits (d : Decimal.uint) : string :=
  match d with
  | Decimal.Nil => EmptyString
  | Decimal.D0 d => String "0" (write_digits d)
  | Decimal.D1 d => String "1" (write_digits d)
  | Decimal.D2 d => String "2" (write_digits d)
  | Decimal.D3 d => String "3" (write_digits d)
  | Decimal.D4 d => String "4" (write_digits d)
  | Decimal.D5 d => String "5" (write_digits d)
  | Decimal.D6 d => String "6" (write_digits d)
  | Decimal.D7 d => String "7" (write_digits d)
  | Decimal.D8 d => String "8" (write_digits d)
  | Decimal.D9 d => String "9" (write_digits d)
  end.

Definition write_int (n : Z) : string :=
  match n with
  | Z0 => "0"
  | Zpos p => write_digits (Pos.to_uint p)
  | Zneg p => String "-" (write_digits (Pos.to_uint p))
  end.

(** [texts.join(',')]. *)
Fixpoint join (texts : list string) : string :=
  match texts with
  | [] => EmptyString
  | [text] => text
  | text :: rest => text +:+ "," +:+ join rest
  end.

Definition write_member (write : json → string) (m : string * json) : string :=
  write_string m.1 +:+ ":" +:+ write m.2.

(** [JSON.stringify], without indentation. *)
Fixpoint write (v : json) : string :=
  match v with
  | JNull => "null"
  | JBool true => "true"
  | JBool false => "false"
  | JNum n => write_int n
  | JStr s => write_string s
  | JArr items => "[" +:+ join (write <$> items) +:+ "]"
  | JObj members =>
      "{" +:+ join (write_member write <$> members) +:+ "}"
  end.

(** *** Reading *)

Definition is_space (c : ascii) : bool :=
  let n := nat_of_ascii c in
  (n =? 32)%nat || (n =? 9)%nat || (n =? 10)%nat || (n =? 13)%nat.

Fixpoint skip_space (s : string) : string :=
  match s with
  | String c s' => if is_space c then skip_space s' else s
  | EmptyString => EmptyString
  end.

Definition hex_value (c : ascii) : option nat :=
  let n := nat_of_ascii c in
  if (48 <=? n)%nat && (n <=? 57)%nat then Some (n - 48)%nat
  else if (97 <=? n)%nat && (n <=? 102)%nat then Some (n - 87)%nat
  else if (65 <=? n)%nat && (n <=? 70)%nat then Some (n - 55)%nat
  else None.

(** The UTF-8 bytes of a code point of the basic plane. *)
Definition utf8 (code : nat) : string :=
  if (code <? 128)%nat then String (ascii_of_nat code) EmptyString
  else if (code <? 2048)%nat
  then String (ascii_of_nat (192 + code / 64))
         (String (ascii_of_nat (128 + code mod 64)) EmptyString)
  else String (ascii_of_nat (224 + code / 4096))
         (String (ascii_of_nat (128 + code / 64 mod 64))
            (String (ascii_of_nat (128 + code mod 64)) EmptyString)).

(** The text of a string, after its opening quote, up to its closing one. *)
Fixpoint read_string (s : string) : reading string :=
  match s with
  | EmptyString => inl unexpected_end
  | String c s' =>
      let n := nat_of_ascii c in
      if (n =? 34)%nat then inr (EmptyString, s')
      else if (n =? 92)%nat then
        match s' with
        | EmptyString => inl unexpected_end
        | String e s'' =>
            let m := nat_of_ascii e in
            let one (c' : ascii) : reading string :=
              and_then (read_string s'') (λ text rest, inr (String c' text, rest)) in
            if (m =? 34)%nat then one quote
            else if (m =? 92)%nat then one backslash
            else if (m =? 47)%nat then one "/"%char
            else if (m =? 98)%nat then one (ascii_of_nat 8)
            else if (m =? 102)%nat then one (ascii_of_nat 12)
            else if (m =? 110)%nat then one (ascii_of_nat 10)
            else if (m =? 114)%nat then one (ascii_of_nat 13)
            else if (m =? 116)%nat then one (ascii_of_nat 9)
            else if (m =? 117)%nat then
              match s'' with
              | String h1 (String h2 (String h3 (String h4 s3))) =>
                  match hex_value h1, hex_value h2, hex_value h3, hex_value h4 with
                  | Some a, Some b, Some c, Some d =>
                      and_then (read_string s3)
                        (λ text rest,
                           inr (utf8 (((a * 16 + b) * 16 + c) * 16 + d) +:+ text, rest))
                  | _, _, _, _ => inl unexpected_token
                  end
              | _ => inl unexpected_end
              end
            else inl unexpected_token
        end
      else if (n <? 32)%nat then inl unexpected_token
      else and_then (read_string s') (λ text rest, inr (String c text, rest))
  end.

Definition digit_of (c : ascii) : option (Decimal.uint → Decimal.uint) :=
  let n := nat_of_ascii c in
  if (n =? 48)%nat then Some Decimal.D0
  else if (n =? 49)%nat then Some Decimal.D1
  else if (n =? 50)%nat then Some Decimal.D2
  else if (n =? 51)%nat then Some Decimal.D3
  else if (n =? 52)%nat then Some Decimal.D4
  else if (n =? 53)%nat then Some Decimal.D5
  else if (n =? 54)%nat then Some Decimal.D6
  else if (n =? 55)%nat then Some Decimal.D7
  else if (n =? 56)%nat then Some Decimal.D8
  else if (n =? 57)%nat then Some Decimal.D9
  else None.

(** The longest prefix of digits, and the text after it. *)
Fixpoint read_digits (s : string) : Decimal.uint * string :=
  match s with
  | EmptyString => (Decimal.Nil, EmptyString)
  | String c s' =>
      match digit_of c with
      | Some digit => let '(d, rest) := read_digits s' in (digit d, rest)
      | None => (Decimal.Nil, s)
      end
  end.

(** A fraction or an exponent follows: the number is no integer. *)
Definition continues (rest : string) : bool :=
  match rest with
  | String c _ => Ascii.eqb c "." || Ascii.eqb c "e" || Ascii.eqb c "E"
  | EmptyString => false
  end.

Definition read_sign (s : string) : bool * string :=
  match s with
  | String "-"%char s' => (true, s')
  | _ => (false, s)
  end.

(** An integer; the numbers with a fraction or an exponent are not read. *)
Definition read_int (s : string) : reading json :=
  let '(negative, s) := read_sign s in
  match read_digits s with
  | (Decimal.Nil, EmptyString) => inl unexpected_end
  | (Decimal.Nil, _) => inl unexpected_token
  | (d, rest) =>
      if continues rest then inl unexpected_token
      else inr (JNum (if negative then - Z.of_uint d else Z.of_uint d), rest)
  end.

(** A literal name. *)
Fixpoint read_word (word s : string) : option string :=
  match word, s with
  | EmptyString, _ => Some s
  | String c word', String c' s' => if Ascii.eqb c c' then read_word word' s' else None
  | _, EmptyString => None
  end.

(** The members of an object after its brace, [n] at most, by the reader of
    values given. *)
Fixpoint read_members (value : string → reading json) (n : nat) (s : string)
    (members : list (string * json)) : reading (list (string * json)) :=
  match n with
  | O => inl unexpected_end
  | S n' =>
      match skip_space s with
      | EmptyString => inl unexpected_end
      | String c s1 =>
          if negb (Ascii.eqb c quote) then inl unexpected_token
          else
            and_then (read_string s1) (λ k s2,
            match skip_space s2 with
            | EmptyString => inl unexpected_end
            | String c s3 =>
                if negb (Ascii.eqb c ":") then inl unexpected_token
                else
                  and_then (value s3) (λ v s4,
                  let members := set_member k v members in
                  match skip_space s4 with
                  | EmptyString => inl unexpected_end
                  | String c s5 =>
                      if Ascii.eqb c "," then read_members value n' s5 members
                      else if Ascii.eqb c "}" then inr (members, s5)
                      else inl unexpected_token
                  end)
            end)
      end
  end.

(** The items of an array after its bracket. *)
Fixpoint read_items (value : string → reading json) (n : nat) (s : string)
    (items : list json) : reading (list json) :=
  match n with
  | O => inl unexpected_end
  | S n' =>
      and_then (value s) (λ v s1,
      match skip_space s1 with
      | EmptyString => inl unexpected_end
      | String c s2 =>
          if Ascii.eqb c "," then read_items value n' s2 (items ++ [v])
          else if Ascii.eqb c "]" then inr (items ++ [v], s2)
          else inl unexpected_token
      end)
  end.

(** A value, nested [depth] deep at most. *)
Fixpoint read_value (depth : nat) (s : string) : reading json :=
  match depth with
  | O => inl unexpected_end
  | S depth' =>
      match skip_space s with
      | EmptyString => inl unexpected_end
      | String c s' =>
          if Ascii.eqb c quote then
            and_then (read_string s') (λ text rest, inr (JStr text, rest))
          else if Ascii.eqb c "{" then
            match skip_space s' with
            | String "}"%char rest => inr (JObj [], rest)
            | _ =>
                and_then (read_members (read_value depth') (String.length s') s' [])
                         (λ members rest, inr (JObj members, rest))
            end
          else if Ascii.eqb c "[" then
            match skip_space s' with
            | String "]"%char rest => inr (JArr [], rest)
            | _ =>
                and_then (read_items (read_value depth') (String.length s') s' [])
                         (λ items rest, inr (JArr items, rest))
            end
          else if Ascii.eqb c "t" then
            from_option (λ rest, inr (JBool true, rest)) (inl unexpected_token)
                        (read_word "rue" s')
          else if Ascii.eqb c "f" then
            from_option (λ rest, inr (JBool false, rest)) (inl unexpected_token)
                        (read_word "alse" s')
          else if Ascii.eqb c "n" then
            from_option (λ rest, inr (JNull, rest)) (inl unexpected_token)
                        (read_word "ull" s')
          else read_int (String c s')
      end
  end.

(** [JSON.parse]: one value and nothing after it. *)
Definition read (s : string) : string + json :=
  match read_value (S (String.length s)) s with
  | inl message => inl message
  | inr (v, rest) =>
      match skip_space rest with
      | EmptyString => inr v
      | _ => inl unexpected_token
      end
  end.

(** What follows the value of a member in the text of an object. *)
Definition ends_member (tail : string) : Prop :=
  ∃ c rest, tail = String c rest ∧ (c = ","%char ∨ c = "}"%char).

(** The first character of an integer. *)
Definition numeric (c : ascii) : bool :=
  match digit_of c with Some _ => true | None => Ascii.eqb c "-" end.

Definition put (members : list (string * json)) (m : string * json)
    : list (string * json) :=
  set_member m.1 m.2 members.

End JSONText.

(** ** The platform of the token service on Node.js *)

Module Host.

(** [Number(text)] of a text that is blank or a decimal integer; any other
    text counts as [NaN] here. *)
Definition to_number (text : string) : option Z :=
  match JSONText.skip_space text with
  | EmptyString => Some 0
  | s =>
      match JSONText.read_int s with
      | inr (JNum n, rest) =>
          match JSONText.skip_space rest with EmptyString => Some n | _ => None end
      | _ => None
      end
  end.

(** [v < n] after the conversion of [v] to a number: an empty array is [0],
    an array of one item is that item, an object is [NaN]. *)
Definition coerced (v : json) (n : Z) : bool :=
  let less text := from_option (λ k, k <? n) false (to_number text) in
  match v with
  | JStr text => less text
  | JArr [] => 0 <? n
  | JArr [JNum k] => k <? n
  | JArr [JStr text] => less text
  | _ => false
  end.

(** [crypto.createHmac('sha256', key).update(data).digest('base64')]. *)
Definition hmac_base64 (key data : string) : string :=
  Base64.encode
    (SHA256.string_of_bytes
       (SHA256.hmac (SHA256.bytes_of_string key) (SHA256.bytes_of_string data))).

#[export] Instance platform : Platform := {|
  hmac_sha256_base64 := hmac_base64;
  to_base64 := Base64.encode;
  from_base64 := Base64.decode;
  JSON_stringify := JSONText.write;
  JSON_parse := JSONText.read;
  coerced_less := coerced;
|}.

End Host.

(** ** Sample data *)

Module Samples.

#[local] Existing Instance Node.runtime.

(** A stored transaction, and a world whose transactions file holds it. *)
Definition lunch : obj :=
  <["id" := VStr "txn_1"]> (<["userId" := VStr "user_1"]> (<["type" := VStr "expense"]>
  (<["category" := VStr "Food"]> (<["amount" := VNum 50]>
  (<["description" := VStr "Lunch"]> ∅))))).

(** What the validation middleware attaches to a create request with that
    body. *)
Definition lunch_validated : obj :=
  match outcome (Validation.validateTransaction lunch (Node.boot 1700000000000 "k3j9x0q1z")) with
  | inr (Validation.Next attached) => attached
  | _ => ∅
  end.

Definition lunch_world : world :=
  with_file "data/transactions.json" [lunch] (Node.boot 1700000000000 "k3j9x0q1z").

(** The registration of the test suite, the same with another casing of the
    email, and a freshly booted server. *)
Definition john : obj :=
  <["email" := VStr "Test@Example.com"]> (<["password" := VStr "password123"]>
  (<["firstName" := VStr "John"]> (<["lastName" := VStr "Doe"]> ∅))).

Definition john_shouting : obj := <["email" := VStr "TEST@EXAMPLE.COM"]> john.

Definition fresh : world := Node.boot 1700000000000 "k3j9x0q1z".

(** What [createUser] returns for [john] on the fresh server, and the world
    it leaves. *)
Definition john_created : obj :=
  match outcome (UserService.createUser default_config john fresh) with
  | inr u => u
  | inl _ => ∅
  end.

Definition john_world : world :=
  after (UserService.createUser default_config john fresh).

(** Twenty-five documents, each standing for its creation time, behind a
    reachable connection; the request [?page=2&limit=10]. *)
Definition ledger : MongoDBService.Mongo (D := nat) :=
  {| MongoDBService.connection := inr tt; MongoDBService.documents := seq 1 25 |}.

Definition newest_first (a b : nat) : bool := (b <? a)%nat.


(** The transactions of the aggregation example: an income of 100 and
    expenses of 30 and 20. *)
Definition entry (type : string) (amount : float) : Txn.Transaction :=
  {| Txn.id := "txn"; Txn.userId := "user_1"; Txn.type := type;
     Txn.category := "General"; Txn.amount := amount; Txn.description := "";
     Txn.date := 1700000000000 |}.

Definition books : list Txn.Transaction :=
  [entry "income" 100; entry "expense" 30; entry "expense" 20].

(** The claims of a session, the token issued for them on the fresh
    server, and the world that issuing leaves. *)
Definition session : list (string * json) :=
  [("sub", JStr "user123"); ("email", JStr "test@example.com"); ("type", JStr "session")].

Definition issued : string :=
  "eyJhbGciOiJIUzI1NiIsInR5cCI6IkpXVCJ9" +:+ "." +:+
  "eyJzdWIiOiJ1c2VyMTIzIiwiZW1haWwiOiJ0ZXN0QGV4YW1wbGUuY29tIiwidHlwZSI6InNlc3Npb24iLCJpYXQiOjE3MDAwMDAwMDAsImV4cCI6MTcwMDYwNDgwMH0="
  +:+ "." +:+ "qRiK8krlBkvw7WcGHfNn2gp+xRfWVCw5KFCcIbAAnxU=".

Definition issued_world : world := tick (tick fresh).

(** The server eight days later. *)
Definition later : world := Node.boot 1700691200000 "k3j9x0q1z".


Definition signed_null : string :=
  "e30=" +:+ "." +:+ "bnVsbA==" +:+ "." +:+ "Fjwz70P30UOnflLMcnXjyBfzk36nPrUIgU5d3d9MmYE=".

(** The record of [john] in the users file, and his preferences. *)
Definition john_stored : obj := default ∅ (head (content john_world "data/users.json")).

Definition john_id : string := "user_1700000000000_k3j9x0q1z".


(** What [createTransaction] returns for the lunch on the fresh server, and
    the world it leaves. *)
Definition lunch_created : obj :=
  match outcome (TransactionService.createTransaction default_config lunch fresh) with
  | inr t => t
  | inl _ => ∅
  end.

Definition lunch_created_world : world :=
  after (TransactionService.createTransaction default_config lunch fresh).

(** A transaction of another user. *)
Definition rent : Txn.Transaction :=
  {| Txn.id := "txn"; Txn.userId := "user_2"; Txn.type := "expense";
     Txn.category := "Rent"; Txn.amount := 900; Txn.description := "";
     Txn.date := 1700000000000 |}.

(** A database that cannot be reached. *)
Definition unreachable : MongoDBService.Mongo (D := nat) :=
  {| MongoDBService.connection := inl (Error "connect ECONNREFUSED");
     MongoDBService.documents := [] |}.

End Samples.

(** * Properties *)

Import Samples.

(** ** Running operations *)

Section running.
Context {A B : Type}.

Lemma bind_inr (m : M A) (k : A → M B) (w w' : world) (b : B) :
  (m ≫= k) w = (inr b, w') ↔ ∃ a w1, m w = (inr a, w1) ∧ k a w1 = (inr b, w').
Proof.
  unfold mbind, M_bind. destruct (m w) as [[e|a] w1]; split.
  - intros [=].
  - intros (? & ? & [=] & _).
  - intros Hk. by exists a, w1.
  - by intros (? & ? & [= <- <-] & Hk).
Qed.

Lemma bind_inl (m : M A) (k : A → M B) (w w' : world) (e : exn) :
  (m ≫= k) w = (inl e, w') ↔
  m w = (inl e, w') ∨ ∃ a w1, m w = (inr a, w1) ∧ k a w1 = (inl e, w').
Proof.
  unfold mbind, M_bind. destruct (m w) as [[e0|a] w1]; split.
  - intros [= <- <-]. by left.
  - intros [[= <- <-]|(? & ? & [=] & _)]. done.
  - intros Hk. right. by exists a, w1.
  - intros [[=]|(? & ? & [= <- <-] & Hk)]. done.
Qed.

(** [catch (error) { throw error; }] changes nothing. *)
Lemma try_catch_rethrow (m : M A) (w : world) :
  try_catch m (λ error, throw error) w = m w.
Proof. unfold try_catch, throw. by destruct (m w) as [[e|a] w1]. Qed.

(** A handler that throws leaves the returns alone. *)
Lemma try_catch_inr (m : M A) (wrap : exn → exn) (w w' : world) (a : A) :
  try_catch m (λ error, throw (wrap error)) w = (inr a, w') ↔ m w = (inr a, w').
Proof. unfold try_catch, throw. by destruct (m w) as [[e|a0] w1]. Qed.

Lemma try_catch_inl (m : M A) (wrap : exn → exn) (w w' : world) (e : exn) :
  try_catch m (λ error, throw (wrap error)) w = (inl e, w') ↔
  ∃ e0, m w = (inl e0, w') ∧ e = wrap e0.
Proof.
  unfold try_catch, throw. destruct (m w) as [[e0|a0] w1]; split.
  - intros [= <- <-]. by exists e0.
  - by intros (? & [= <- <-] & ->).
  - intros [=].
  - intros (? & [=] & _).
Qed.

End running.

Lemma content_with_file (filePath filePath' : string) (data : list obj) (w : world) :
  content (with_file filePath data w) filePath' =
  if decide (filePath = filePath') then data else content w filePath'.
Proof.
  unfold content, with_file; simpl. destruct (decide (filePath = filePath')) as [->|].
  - by rewrite lookup_insert_eq.
  - by rewrite lookup_insert_ne.
Qed.

Lemma content_tick (w : world) (filePath : string) :
  content (tick w) filePath = content w filePath.
Proof. done. Qed.

Lemma content_draw (w : world) (filePath : string) :
  content (draw w) filePath = content w filePath.
Proof. done. Qed.

Section file_storage_props.
Context `{Runtime}.

Import FileStorageService.



Lemma find_Some {A} (p : A → bool) (data : list A) (item : A) :
  find p data = Some item → item ∈ data ∧ p item = true.
Proof.
  induction data as [|x data IH]; simpl; [done|].
  destruct (p x) eqn:Hp.
  - intros [= <-]. split; [left|done].
  - intros Hf. destruct (IH Hf). split; [by right|done].
Qed.

Lemma find_None {A} (p : A → bool) (data : list A) :
  find p data = None ↔ ∀ item, item ∈ data → p item = false.
Proof.
  induction data as [|x data IH]; simpl.
  - split; [|done]. intros _ item Hin. by apply elem_of_nil in Hin.
  - destruct (p x) eqn:Hp.
    + split; [done|]. intros Hall. rewrite Hall in Hp; [done|]. left.
    + rewrite IH. split.
      * intros Hall item Hin. apply elem_of_cons in Hin as [->|Hin]; auto.
      * intros Hall item Hin. apply Hall. by right.
Qed.

End file_storage_props.


Section file_storage_runs.
Context `{Runtime}.

Import FileStorageService.

Lemma readFile_run (filePath : string) (w : world) :
  readFile filePath w = (inr (content w filePath), w).
Proof. done. Qed.

Lemma writeFile_run (filePath : string) (data : list obj) (w : world) :
  writeFile filePath data w = (inr tt, with_file filePath data w).
Proof. done. Qed.

Lemma appendToFile_run (filePath : string) (item : obj) (w : world) :
  appendToFile filePath item w =
  (inr item, with_file filePath (content w filePath ++ [item]) w).
Proof. done. Qed.

Lemma findByIdInFile_run (filePath id : string) (w : world) :
  findByIdInFile filePath id w = (inr (find (has_id id) (content w filePath)), w).
Proof. done. Qed.

Lemma findInFile_run (filePath : string) (predicate : obj → bool) (w : world) :
  findInFile filePath predicate w = (inr (List.filter predicate (content w filePath)), w).
Proof. done. Qed.


End file_storage_runs.

(** ** FileStorageService.updateInFile *)

Section updateInFile_props.
Context `{Runtime}.

Import FileStorageService.




End updateInFile_props.

Section updateInFile_examples.
#[local] Existing Instance Node.runtime.



End updateInFile_examples.

(** ** UserService *)

Section user_service_props.
Context `{Runtime} (config : Config).

Import FileStorageService UserService.

Lemma lower_inr (email : option value) (w w' : world) (e : string) :
  lower email w = (inr e, w') ↔ ∃ s, email = Some (VStr s) ∧ e = toLowerCase s ∧ w' = w.
Proof.
  unfold lower, throw, mret, M_ret.
  destruct email as [[| | |s| |]|]; split; intros Hx; try discriminate Hx.
  all: try (by destruct Hx as (? & [=] & _)).
  - injection Hx as <- <-. by exists s.
  - by destruct Hx as (? & [= <-] & -> & ->).
Qed.

(** [getUserByEmail], run: the first stored user whose email is the
    lower-cased argument. *)
Lemma getUserByEmail_inr (email : option value) (w w' : world) (found : option obj) :
  getUserByEmail config email w = (inr found, w') →
  w' = w ∧
  (content w (usersFile config) = [] ∧ found = None ∨
   ∃ s, email = Some (VStr s) ∧
        found = find (λ u, is_str (u !! "email") (toLowerCase s))
                     (content w (usersFile config))).
Proof.
  unfold getUserByEmail. rewrite try_catch_rethrow.
  intros (users & w1 & Hread & Hrest)%bind_inr.
  rewrite readFile_run in Hread. injection Hread as <- <-.
  destruct (content w (usersFile config)) as [|u0 users] eqn:Hc.
  - injection Hrest as <- <-. split; [done|]. by left.
  - apply bind_inr in Hrest as (e & w2 & (s & -> & -> & ->)%lower_inr & Hret).
    injection Hret as <- <-. split; [done|]. right. by exists s.
Qed.

(** What a successful [createUser] did: no stored user had the lower-cased
    email, and one record was appended, of which the caller gets all but the
    password. *)
Lemma createUser_inr (userData : obj) (w w' : world) (u : obj) :
  createUser config userData w = (inr u, w') →
  ∃ (email : string) (user : obj),
    userData !! "email" = Some (VStr email) ∧
    (∀ r, r ∈ content w (usersFile config) →
          is_str (r !! "email") (toLowerCase email) = false) ∧
    content w' (usersFile config) = content w (usersFile config) ++ [user] ∧
    user !! "email" = Some (VStr (toLowerCase email)) ∧
    user !! "password" = userData !! "password" ∧
    u = omit "password" user.
Proof.
  unfold createUser. rewrite try_catch_rethrow.
  intros (existing & w1 & [-> Hfound]%getUserByEmail_inr & Hrest)%bind_inr.
  destruct existing as [?|]; [discriminate Hrest|].
  apply bind_inr in Hrest as (now & w2 & [= <- <-] & Hrest).
  apply bind_inr in Hrest as (suffix & w3 & [= <- <-] & Hrest).
  apply bind_inr in Hrest as (e & w4 & (email & Hemail & -> & ->)%lower_inr & Hrest).
  apply bind_inr in Hrest as (createdAt & w5 & [= <- <-] & Hrest).
  apply bind_inr in Hrest as (updatedAt & w6 & [= <- <-] & Hrest).
  apply bind_inr in Hrest as (? & w7 & Happend & Hret).
  rewrite appendToFile_run in Happend. injection Happend as <- <-.
  injection Hret as <- <-.
  eexists email, _. split_and!; [done| | | | |reflexivity].
  - destruct Hfound as [[Hnil _]|(s & Hs & Hnone)].
    + rewrite Hnil. intros r Hr. by apply elem_of_nil in Hr.
    + rewrite Hemail in Hs. injection Hs as <-. by apply find_None.
  - by rewrite content_with_file, decide_True.
  - rewrite lookup_insert_ne by done. by rewrite lookup_insert_eq.
  - rewrite !lookup_insert_ne by done.
    destruct (userData !! "password"), (userData !! "firstName"),
      (userData !! "lastName"); simpl;
      by rewrite ?lookup_insert_eq, ?lookup_insert_ne by done.
Qed.







Lemma getUserByEmail_run (email : string) (w : world) :
  content w (usersFile config) ≠ [] →
  getUserByEmail config (Some (VStr email)) w =
  (inr (find (λ u, is_str (u !! "email") (toLowerCase email))
             (content w (usersFile config))), w).
Proof.
  intros Hne. unfold getUserByEmail. rewrite try_catch_rethrow.
  unfold mbind, M_bind. rewrite readFile_run.
  by destruct (content w (usersFile config)).
Qed.

Lemma filter_none {A} (p : A → bool) (l : list A) :
  (∀ x, x ∈ l → p x = false) → List.filter p l = [].
Proof.
  induction l as [|x l IH]; intros Hall; [done|]. simpl.
  rewrite (Hall x) by left. apply IH. intros y Hy. apply Hall. by right.
Qed.

(** The number of stored users whose email is [email]. *)
Lemma users_with_email_app (email : string) (users : list obj) (user : obj) :
  (∀ r, r ∈ users → is_str (r !! "email") email = false) →
  is_str (user !! "email") email = true →
  List.filter (λ r, is_str (r !! "email") email) (users ++ [user]) = [user].
Proof.
  intros Hnone Hone. rewrite List.filter_app, filter_none by done.
  simpl. by rewrite Hone.
Qed.

Lemma is_str_refl (s : string) : is_str (Some (VStr s)) s = true.
Proof. simpl. apply String.eqb_refl. Qed.

(** C5: after a successful [createUser], a [createUser] whose email differs
    from the first at most in letter case fails with a [ConflictError] and
    writes nothing; the users file then holds exactly one record with that
    lower-cased email.  The second call may run at any later time, as long as
    the users file is what the first call left. *)
Theorem second_createUser_conflicts
    (userData1 userData2 : obj) (email1 email2 : string)
    (w w1 w2 : world) (u1 : obj) :
  userData1 !! "email" = Some (VStr email1) →
  userData2 !! "email" = Some (VStr email2) →
  toLowerCase email1 = toLowerCase email2 →
  createUser config userData1 w = (inr u1, w1) →
  content w2 (usersFile config) = content w1 (usersFile config) →
  ∃ e, createUser config userData2 w2 = (inl e, w2) ∧
       e = ConflictError ("User with email " +:+ email2 +:+ " already exists") ∧
       kind_of e = Conflict ∧
       length (List.filter (λ r, is_str (r !! "email") (toLowerCase email1))
                           (content w2 (usersFile config))) = 1%nat.
Proof.
  intros He1 He2 Hcase (email & user & He & Hnone & Hc & Hue & _ & _)%createUser_inr Hw2.
  rewrite He1 in He. injection He as <-.
  assert (is_str (user !! "email") (toLowerCase email1) = true) as Huser
    by (rewrite Hue; apply is_str_refl).
  eexists. split_and!; [|reflexivity|reflexivity|].
  - unfold createUser. rewrite try_catch_rethrow. unfold mbind, M_bind.
    rewrite He2, getUserByEmail_run.
    + destruct (find _ _) as [found|] eqn:Hfind; [done|].
      exfalso. rewrite find_None in Hfind.
      rewrite <- Hcase, Hw2, Hc in Hfind.
      rewrite Hfind in Huser; [done|]. apply elem_of_app. right. left.
    + rewrite Hw2, Hc. by destruct (content w (usersFile config)).
  - by rewrite Hw2, Hc, users_with_email_app.
Qed.

End user_service_props.

Section user_service_examples.
#[local] Existing Instance Node.runtime.

Import UserService.

Lemma john_is_created :
  createUser default_config john fresh = (inr john_created, john_world).
Proof. reflexivity. Qed.

(** C5 on the registration of the test suite, repeated in capitals. *)
Lemma second_createUser_conflicts_witness :
  ∃ e, createUser default_config john_shouting john_world = (inl e, john_world) ∧
       e = ConflictError "User with email TEST@EXAMPLE.COM already exists" ∧
       kind_of e = Conflict ∧
       length (List.filter (λ r, is_str (r !! "email") "test@example.com")
                           (content john_world "data/users.json")) = 1%nat.
Proof.
  exact (second_createUser_conflicts default_config john john_shouting
           "Test@Example.com" "TEST@EXAMPLE.COM" fresh john_world john_world
           john_created eq_refl eq_refl eq_refl john_is_created eq_refl).
Defined.


(** C4 on the code: the record [createUser] writes to the users file carries
    the caller's password as it was supplied. *)
Theorem createUser_stores_raw_password :
  ∃ user, content john_world "data/users.json" = [user] ∧
          john !! "password" = Some (VStr "password123") ∧
          user !! "password" = Some (VStr "password123").
Proof. eexists. split; [reflexivity|]. split; vm_compute; reflexivity. Qed.

End user_service_examples.

(** ** Pagination and MongoDBService.find *)

Section find_props.
Context `{Runtime} {D : Type} (createdAt_desc : D → D → bool).

Import Pagination MongoDBService.






End find_props.

Section find_examples.
#[local] Existing Instance Node.runtime.

Import Pagination MongoDBService.


End find_examples.

(** ** Summaries *)

Section summary_props.
Context `{Runtime}.

Import Txn TransactionSummary.
#[local] Open Scope float_scope.

Lemma total_of_from (records : list Transaction) (start : float) :
  foldl (λ sum t, sum + amount t) start records =
  foldl PrimFloat.add start (amount <$> records).
Proof. revert start. induction records as [|t records IH]; intros start; simpl; [done|]. apply IH. Qed.




(** What "rounded to two decimals" is: the integer [hundredths] finds for
    [a = m * 2^e] is [100 * a] itself when that is an integer, and otherwise
    the integer nearest to [100 * a], the larger one of two. *)
Lemma hundredths_nearest (a : float) (s : bool) (m : positive) (e : Z) :
  Prim2SF a = S754_finite s m e →
  let n := Number.hundredths a in
  (0 ≤ e → n = Z.pos m * 2 ^ e * 100)%Z ∧
  (e < 0 → let d := 2 ^ (- e) in
           2 * d * n - d ≤ 2 * (Z.pos m * 100) < 2 * d * n + d)%Z.
Proof.
  intros Ha n. unfold n, Number.hundredths. rewrite Ha. split.
  - intros He. destruct (0 <=? e)%Z eqn:Hle; [done|lia].
  - intros He. cbv zeta. destruct (0 <=? e)%Z eqn:Hle; [lia|].
    set (d := (2 ^ (- e))%Z). assert (0 < d)%Z as Hd by (apply Z.pow_pos_nonneg; lia).
    pose proof (Z.div_mod (2 * (Z.pos m * 100) + d) (2 * d) ltac:(lia)) as Hdm.
    pose proof (Z.mod_pos_bound (2 * (Z.pos m * 100) + d) (2 * d) ltac:(lia)) as Hm.
    lia.
Qed.

(** [getSummary] of the file backend is [summarize] on the user's
    transactions, newest first, of the month when one is asked for. *)
Lemma getSummary_summarizes (stored : list Transaction) (user : string)
    (month : option string) :
  getSummary stored user month =
  summarize
    (match given month with
     | Some m => List.filter (in_month m) (getUserTransactions stored user no_filters)
     | None => getUserTransactions stored user no_filters
     end)
    (default "all-time" (given month)).
Proof. done. Qed.

End summary_props.

Section summary_examples.
#[local] Existing Instance Node.runtime.

Import Txn TransactionSummary.
#[local] Open Scope float_scope.


End summary_examples.

(** ** The month of a summary *)

Section month_props.
Context `{Runtime}.

Import Txn TransactionSummary.
#[local] Open Scope float_scope.




End month_props.

(** ** The bounds of an amount *)

Section amount_props.
Context `{Runtime} (config : Config).

Import FileStorageService TransactionService.

Lemma getTransactionById_run (id : string) (w : world) :
  getTransactionById config id w =
  match find (has_id id) (content w (transactionsFile config)) with
  | Some transaction => (inr transaction, w)
  | None => (inl (NotFoundError "Transaction"), w)
  end.
Proof.
  unfold getTransactionById. rewrite try_catch_rethrow.
  unfold mbind, M_bind. rewrite findByIdInFile_run. by destruct (find _ _).
Qed.

(** [updateTransaction] checks that the id exists and nothing else: the
    update data go to [updateInFile] as they are. *)
Lemma updateTransaction_run (id : string) (updateData : obj) (w : world) :
  updateTransaction config id updateData w =
  match find (has_id id) (content w (transactionsFile config)) with
  | Some _ => updateInFile (transactionsFile config) id updateData w
  | None => (inl (NotFoundError "Transaction"), w)
  end.
Proof.
  unfold updateTransaction. rewrite try_catch_rethrow.
  unfold mbind, M_bind. rewrite getTransactionById_run. by destruct (find _ _).
Qed.

End amount_props.

Section amount_examples.
#[local] Existing Instance Node.runtime.

Import FileStorageService TransactionService Validation.

(** C6 on the code: an update that sets the amount of a stored transaction
    to -5 is accepted, and the record written back carries -5; the same
    amount in the body of a create request is refused by the validation
    middleware. *)
Theorem updateTransaction_accepts_negative_amount :
  ∃ merged w',
    updateTransaction default_config "txn_1" {[ "amount" := VNum (-5) ]} lunch_world =
      (inr merged, w') ∧
    merged !! "amount" = Some (VNum (-5)) ∧
    content w' "data/transactions.json" = [merged] ∧
    outcome (validateTransaction (<["amount" := VNum (-5)]> lunch) fresh) =
      inr (Respond 400 "Validation failed" ["Amount must be a positive number"]).
Proof.
  eexists _, _. split; [reflexivity|]. split; [vm_compute; reflexivity|].
  split; [reflexivity|]. vm_compute. reflexivity.
Qed.

End amount_examples.

(** ** Text and JSON members *)

Section text_props.

Lemma split_free (sep : Ascii.ascii) (s : string) :
  Lib.free_of sep s = true → Lib.split sep s = [s].
Proof.
  induction s as [|c s IH]; simpl; [done|].
  destruct (Ascii.eqb c sep); simpl; [done|]. intros Hs. by rewrite IH.
Qed.

Lemma split_app (sep : Ascii.ascii) (s rest : string) :
  Lib.free_of sep s = true →
  Lib.split sep (s +:+ String sep rest) = s :: Lib.split sep rest.
Proof.
  induction s as [|c s IH]; simpl.
  - by rewrite Ascii.eqb_refl.
  - destruct (Ascii.eqb c sep); simpl; [done|]. intros Hs. by rewrite IH.
Qed.

(** Three segments without a dot, joined by dots, split into themselves. *)
Lemma split_three (a b c : string) :
  Lib.free_of "." a = true → Lib.free_of "." b = true → Lib.free_of "." c = true →
  Lib.split "." (a +:+ "." +:+ b +:+ "." +:+ c) = [a; b; c].
Proof.
  intros Ha Hb Hc.
  change (a +:+ "." +:+ b +:+ "." +:+ c)
    with (a +:+ String "." (b +:+ String "." c)).
  by rewrite !split_app, split_free.
Qed.

Lemma member_set_member (k k' : string) (v : json) (members : list (string * json)) :
  member k' (set_member k v members) =
  if String.eqb k k' then Some v else member k' members.
Proof.
  induction members as [|[k0 v0] members IH]; simpl.
  - by destruct (String.eqb k k').
  - destruct (String.eqb k0 k) eqn:Hk0; simpl.
    + apply String.eqb_eq in Hk0 as ->. by destruct (String.eqb k k').
    + rewrite IH.
      destruct (String.eqb k0 k') eqn:Hk0', (String.eqb k k') eqn:Hk'; try done.
      apply String.eqb_eq in Hk0' as ->. apply String.eqb_eq in Hk' as ->.
      by rewrite String.eqb_refl in Hk0.
Qed.

Lemma set_member_keys (k : string) (v : json) (members : list (string * json)) :
  (set_member k v members).*1 =
  if bool_decide (k ∈ members.*1) then members.*1 else members.*1 ++ [k].
Proof.
  induction members as [|[k0 v0] members IH]; [done|].
  cbn [set_member]. destruct (String.eqb k0 k) eqn:Hk0; rewrite !fmap_cons; cbn [fst].
  - apply String.eqb_eq in Hk0 as ->. rewrite bool_decide_true; [done|left].
  - apply String.eqb_neq in Hk0. rewrite IH.
    destruct (bool_decide (k ∈ members.*1)) eqn:Hin.
    + apply bool_decide_eq_true in Hin. rewrite bool_decide_true; [done|by right].
    + apply bool_decide_eq_false in Hin. rewrite bool_decide_false; [done|].
      intros [->|?]%elem_of_cons; done.
Qed.

Lemma set_member_elem (k : string) (v : json) (members : list (string * json))
    (k' : string) (v' : json) :
  (k', v') ∈ set_member k v members → (k', v') ∈ members ∨ (k', v') = (k, v).
Proof.
  induction members as [|[k0 v0] members IH]; simpl.
  - intros ->%list_elem_of_singleton. by right.
  - destruct (String.eqb k0 k) eqn:Hk0.
    + apply String.eqb_eq in Hk0 as ->.
      intros [->|Hin]%elem_of_cons; [by right|]. left. by right.
    + intros [->|Hin]%elem_of_cons; [left; left|].
      destruct (IH Hin) as [?|?]; [left; by right|by right].
Qed.

Lemma flat_set_member (k : string) (v : json) (members : list (string * json)) :
  flat members → scalar v = true → flat (set_member k v members).
Proof.
  intros [Hnd Hsc] Hv. split.
  - rewrite set_member_keys. destruct (bool_decide (k ∈ members.*1)) eqn:Hin; [done|].
    apply bool_decide_eq_false in Hin. apply NoDup_app. split_and!; [done| |apply NoDup_singleton].
    intros x Hx ->%list_elem_of_singleton. done.
  - intros k' v' [Hin|[= -> ->]]%set_member_elem; [by eapply Hsc|done].
Qed.

End text_props.

(** ** JWTService *)

Section token_props.
Context `{PlatformLaws} (config : Config).

Import JWTService.

(** What [generateToken] returns. *)
Lemma generateToken_run (payload : list (string * json)) (w : world) :
  generateToken config payload w =
  (let body :=
     JObj (set_member "exp" (JNum (clock w (S (ticks w)) / 1000 + lifetime))
             (set_member "iat" (JNum (clock w (ticks w) / 1000)) payload)) in
   let headerEncoded :=
     to_base64 (JSON_stringify (JObj [("alg", JStr "HS256"); ("typ", JStr "JWT")])) in
   let bodyEncoded := to_base64 (JSON_stringify body) in
   (inr (headerEncoded +:+ "." +:+ bodyEncoded +:+ "." +:+
         sign config headerEncoded bodyEncoded),
    tick (tick w))).
Proof. done. Qed.

(** C2: a token issued for a flat payload that carries a subject, an email
    and a type verifies, less than the lifetime of 7 days after it was
    issued, and verification returns a payload with that subject, email and
    type.  The clock must not run backwards while the token is issued. *)
Theorem verify_issued_token
    (payload : list (string * json)) (sub email type : json)
    (w w1 w2 : world) (token : string) :
  flat payload →
  member "sub" payload = Some sub →
  member "email" payload = Some email →
  member "type" payload = Some type →
  generateToken config payload w = (inr token, w1) →
  clock w (ticks w) ≤ clock w (S (ticks w)) →
  clock w2 (ticks w2) - clock w (ticks w) < lifetime * 1000 →
  ∃ body,
    verifyToken config token w2 = (inr (JObj body), tick w2) ∧
    member "sub" body = Some sub ∧
    member "email" body = Some email ∧
    member "type" body = Some type.
Proof.
  intros Hflat Hsub Hemail Htype Hgen Hmono Hfresh.
  rewrite generateToken_run in Hgen. cbv zeta in Hgen. injection Hgen as <- <-.
  set (exp := clock w (S (ticks w)) / 1000 + lifetime).
  set (body := set_member "exp" (JNum exp)
                 (set_member "iat" (JNum (clock w (ticks w) / 1000)) payload)).
  assert (flat body) as Hbody by (by do 2 (apply flat_set_member; [|done])).
  exists body. split.
  - unfold verifyToken, try_catch.
    rewrite split_three by (apply to_base64_no_dot || apply hmac_no_dot).
    rewrite String.eqb_refl. simpl.
    unfold mbind, M_bind, decode_body.
    rewrite from_to_base64, JSON_parse_stringify by done. simpl.
    unfold body at 1. rewrite member_set_member. simpl.
    assert ((exp <? clock w2 (ticks w2) / 1000) = false) as ->; [|done].
    apply Z.ltb_ge. unfold exp, lifetime in *.
    pose proof (Z.div_le_mono _ _ 1000 ltac:(lia) Hmono).
    assert (clock w2 (ticks w2) / 1000 ≤ (clock w (ticks w) + 604800 * 1000) / 1000)
      by (apply Z.div_le_mono; lia).
    rewrite Z.div_add in *; lia.
  - unfold body. rewrite !member_set_member. simpl. done.
Qed.

Lemma failure_of_wrapped (m : string) :
  failure_of (Error ("Token verification failed: " +:+ m)) =
  if String.eqb m "Invalid token format" then Some InvalidFormat
  else if String.eqb m "Invalid signature" then Some InvalidSignature
  else if String.eqb m "Token expired" then Some Expired
  else None.
Proof. reflexivity. Qed.


End token_props.

(** ** Base64 *)

Section base64_props.

Import Base64.

Lemma sextet_of_char_of (x : sextet) : sextet_of (char_of x) = Some x.
Proof. by destruct x as [[] [] [] [] [] []]. Qed.

Lemma char_of_not_pad (x : sextet) : Ascii.eqb (char_of x) "=" = false.
Proof. by destruct x as [[] [] [] [] [] []]. Qed.

Lemma char_of_not_dot (x : sextet) : Ascii.eqb (char_of x) "." = false.
Proof. by destruct x as [[] [] [] [] [] []]. Qed.

Lemma sextets_in_char_of (x : sextet) (rest : string) :
  sextets_in (String (char_of x) rest) = x :: sextets_in rest.
Proof. simpl. by rewrite char_of_not_pad, sextet_of_char_of. Qed.

(** Reading the characters of sextets gives the sextets back. *)
Lemma sextets_in_chars_of (sextets : list sextet) :
  sextets_in (chars_of sextets) = sextets.
Proof.
  remember (length sextets) as n eqn:Hn. revert sextets Hn.
  induction (lt_wf n) as [n _ IH]. intros sextets ->.
  destruct sextets as [|s1 [|s2 [|s3 [|s4 rest]]]]; cbn [chars_of];
    rewrite ?sextets_in_char_of; try done.
  do 4 f_equal. eapply IH; [|done]. simpl. lia.
Qed.

(** Regrouping the sextets of a text gives its bytes back. *)
Lemma bytes_of_sextets_of (text : string) : bytes_of (sextets_of text) = text.
Proof.
  remember (String.length text) as n eqn:Hn. revert text Hn.
  induction (lt_wf n) as [n _ IH]. intros text ->.
  destruct text as [|[] [|[] [|[] rest]]]; try done.
  cbn [sextets_of bytes_of]. do 3 f_equal. eapply IH; [|done]. simpl. lia.
Qed.

Lemma decode_encode (text : string) : decode (encode text) = text.
Proof. unfold decode, encode. by rewrite sextets_in_chars_of, bytes_of_sextets_of. Qed.

Lemma chars_of_no_dot (sextets : list sextet) :
  Lib.free_of "." (chars_of sextets) = true.
Proof.
  remember (length sextets) as n eqn:Hn. revert sextets Hn.
  induction (lt_wf n) as [n _ IH]. intros sextets ->.
  destruct sextets as [|s1 [|s2 [|s3 [|s4 rest]]]]; cbn [chars_of Lib.free_of];
    rewrite ?char_of_not_dot; try done.
  simpl. eapply IH; [|done]. simpl. lia.
Qed.

Lemma encode_no_dot (text : string) : Lib.free_of "." (encode text) = true.
Proof. apply chars_of_no_dot. Qed.

End base64_props.

Section json_text_props.
Import JSONText.

Lemma string_append_assoc (a b c : string) : (a +:+ b) +:+ c = a +:+ (b +:+ c).
Proof.
  induction a as [|x a IH]; [reflexivity|].
  change (String x ((a +:+ b) +:+ c) = String x (a +:+ (b +:+ c))). by rewrite IH.
Qed.

Lemma read_escape (c : ascii) (tail : string) :
  read_string (escape c +:+ tail)
  = and_then (read_string tail) (λ text rest, inr (String c text, rest)).
Proof. destruct c as [[] [] [] [] [] [] [] []]; reflexivity. Qed.

Lemma read_string_escape_all (s tail : string) :
  read_string (escape_all s +:+ String quote tail) = inr (s, tail).
Proof.
  induction s as [|c s IH]; [reflexivity|].
  cbn [escape_all]. rewrite string_append_assoc, read_escape, IH. reflexivity.
Qed.

Lemma read_digits_write (d : Decimal.uint) (tail : string) :
  ends_member tail → read_digits (write_digits d +:+ tail) = (d, tail).
Proof.
  intros (c & rest & -> & Hc).
  induction d as [|d IH|d IH|d IH|d IH|d IH|d IH|d IH|d IH|d IH|d IH];
    [destruct Hc as [-> | ->]; reflexivity|..];
    cbn [write_digits]; change (String ?x ?a +:+ ?b) with (String x (a +:+ b));
    cbn [read_digits]; rewrite IH; reflexivity.
Qed.

Lemma read_sign_digits (d : Decimal.uint) (tail : string) :
  d ≠ Decimal.Nil → read_sign (write_digits d +:+ tail) = (false, write_digits d +:+ tail).
Proof. destruct d; [done|reflexivity..]. Qed.

Lemma read_int_write (n : Z) (tail : string) :
  ends_member tail → read_int (write_int n +:+ tail) = inr (JNum n, tail).
Proof.
  intros Htail. pose proof Htail as (c & rest & Heq & Hc).
  assert (Hcont : continues tail = false) by (subst; destruct Hc as [-> | ->]; reflexivity).
  destruct n as [|p|p].
  - subst tail. destruct Hc as [-> | ->]; reflexivity.
  - unfold write_int, read_int.
    pose proof (DecimalPos.Unsigned.to_uint_nonnil p) as Hnil.
    assert (Hval : Z.of_uint (Pos.to_uint p) = Z.pos p)
      by (unfold Z.of_uint; by rewrite DecimalPos.Unsigned.of_to).
    rewrite read_sign_digits, read_digits_write by done.
    destruct (Pos.to_uint p); [done|..]; rewrite Hcont, Hval; reflexivity.
  - unfold write_int, read_int.
    pose proof (DecimalPos.Unsigned.to_uint_nonnil p) as Hnil.
    assert (Hval : Z.of_uint (Pos.to_uint p) = Z.pos p)
      by (unfold Z.of_uint; by rewrite DecimalPos.Unsigned.of_to).
    change (String ?x ?a +:+ ?b) with (String x (a +:+ b)).
    change (read_sign (String "-" ?s)) with (true, s). cbv iota beta.
    rewrite read_digits_write by done.
    destruct (Pos.to_uint p); [done|..]; rewrite Hcont, Hval; reflexivity.
Qed.

Lemma read_value_string (depth : nat) (s tail : string) :
  read_value (S depth) (write_string s +:+ tail) = inr (JStr s, tail).
Proof.
  unfold write_string. change (String ?x ?a +:+ ?b) with (String x (a +:+ b)).
  rewrite string_append_assoc. change (String quote "" +:+ tail) with (String quote tail).
  change (read_value (S depth) (String quote ?t))
    with (and_then (read_string t) (λ text rest, inr (JStr text, rest))).
  by rewrite read_string_escape_all.
Qed.

Lemma read_value_numeric (depth : nat) (c : ascii) (s : string) :
  numeric c = true → read_value (S depth) (String c s) = read_int (String c s).
Proof. destruct c as [[] [] [] [] [] [] [] []]; try discriminate; reflexivity. Qed.

Lemma write_int_numeric (n : Z) (tail : string) :
  ∃ c s, write_int n +:+ tail = String c s ∧ numeric c = true.
Proof.
  destruct n as [|p|p]; [eexists _, _; split; reflexivity| |eexists _, _; split; reflexivity].
  unfold write_int. pose proof (DecimalPos.Unsigned.to_uint_nonnil p).
  destruct (Pos.to_uint p); [done|eexists _, _; split; reflexivity..].
Qed.

Lemma read_value_scalar (depth : nat) (v : json) (tail : string) :
  scalar v = true → ends_member tail →
  read_value (S depth) (write v +:+ tail) = inr (v, tail).
Proof.
  intros Hv Htail. destruct v as [| |n|s| |]; try discriminate.
  - cbn [write]. destruct (write_int_numeric n tail) as (c & s & Heq & Hc).
    rewrite Heq, read_value_numeric, <-Heq by done. by apply read_int_write.
  - apply read_value_string.
Qed.

Lemma read_members_one (value : string → reading json) (n : nat)
    (k : string) (v : json) (c : ascii) (tail : string) (members : list (string * json)) :
  (c = ","%char ∨ c = "}"%char) →
  value (write v +:+ String c tail) = inr (v, String c tail) →
  read_members value (S n) (write_member write (k, v) +:+ String c tail) members
  = if Ascii.eqb c "," then read_members value n tail (set_member k v members)
    else inr (set_member k v members, tail).
Proof.
  intros Hc Hvalue.
  assert (write_member write (k, v) +:+ String c tail
          = String quote (escape_all k
                          +:+ String quote (String ":" (write v +:+ String c tail)))) as ->.
  { unfold write_member, write_string. cbn [fst snd]. rewrite string_append_assoc.
    change (String ?x ?a +:+ ?b) with (String x (a +:+ b)).
    rewrite string_append_assoc. reflexivity. }
  cbn [read_members]. change (skip_space (String quote ?t)) with (String quote t).
  cbv iota. change (Ascii.eqb quote quote) with true. cbn [negb].
  rewrite read_string_escape_all. cbn [and_then].
  change (skip_space (String ":" ?t)) with (String ":" t). cbv iota.
  change (Ascii.eqb ":" ":") with true. cbn [negb].
  rewrite Hvalue. cbn [and_then].
  destruct Hc as [-> | ->]; reflexivity.
Qed.

Lemma read_members_join (depth n : nat) (ms : list (string * json))
    (tail : string) (members : list (string * json)) :
  ms ≠ [] → (∀ k v, (k, v) ∈ ms → scalar v = true) → (length ms ≤ n)%nat →
  read_members (read_value (S depth)) n
    (join (write_member write <$> ms) +:+ String "}" tail) members
  = inr (foldl put members ms, tail).
Proof.
  revert n members. induction ms as [|[k v] ms IH]; intros n members Hne Hscalar Hn; [done|].
  destruct n as [|n]; [cbn in Hn; lia|].
  assert (Hv : scalar v = true) by (apply (Hscalar k); left).
  destruct ms as [|m ms].
  - cbn [fmap list_fmap join]. rewrite read_members_one; [reflexivity|by right|].
    apply read_value_scalar; [done|]. eexists _, _. split; [done|by right].
  - change (join (write_member write <$> (k, v) :: m :: ms))
      with (write_member write (k, v) +:+ "," +:+ join (write_member write <$> m :: ms)).
    rewrite string_append_assoc.
    change (("," +:+ ?a) +:+ ?b) with (String "," (a +:+ b)).
    rewrite read_members_one; [|by left|].
    + change (Ascii.eqb "," ",") with true. cbv iota.
      rewrite IH; [reflexivity|done| |cbn in Hn |- *; lia].
      intros k' v' Hin. apply (Hscalar k'). by right.
    + apply read_value_scalar; [done|]. eexists _, _. split; [done|by left].
Qed.

Lemma set_member_fresh (k : string) (v : json) (members : list (string * json)) :
  k ∉ members.*1 → set_member k v members = members ++ [(k, v)].
Proof.
  induction members as [|[k' v'] members IH]; intros Hk; [reflexivity|].
  rewrite fmap_cons, not_elem_of_cons in Hk. destruct Hk as [Hne Hk].
  cbn [set_member]. destruct (String.eqb_spec k' k) as [->|_]; [done|].
  by rewrite IH.
Qed.

Lemma foldl_put (ms members : list (string * json)) :
  NoDup (members.*1 ++ ms.*1) → foldl put members ms = members ++ ms.
Proof.
  revert members. induction ms as [|[k v] ms IH]; intros members Hnd.
  - by rewrite app_nil_r.
  - cbn [foldl]. unfold put at 2. cbn [fst snd].
    rewrite fmap_cons in Hnd.
    rewrite set_member_fresh.
    + rewrite IH; [by rewrite <-app_assoc|].
      rewrite fmap_app, <-app_assoc. exact Hnd.
    + apply NoDup_app in Hnd as (_ & Hnot & _). intros Hin.
      apply (Hnot _ Hin). left.
Qed.

Lemma length_append (a b : string) :
  String.length (a +:+ b) = (String.length a + String.length b)%nat.
Proof.
  induction a as [|x a IH]; [reflexivity|].
  change (S (String.length (a +:+ b)) = S (String.length a + String.length b)).
  by rewrite IH.
Qed.

Lemma write_member_quoted (m : string * json) :
  ∃ text, write_member write m = String quote text.
Proof. by eexists. Qed.

Lemma join_quoted (ms : list (string * json)) :
  ms ≠ [] → ∃ text, join (write_member write <$> ms) = String quote text.
Proof. destruct ms as [|m [|m' ms]]; [done|by eexists..]. Qed.

Lemma length_join (ms : list (string * json)) :
  (length ms ≤ String.length (join (write_member write <$> ms)))%nat.
Proof.
  induction ms as [|m ms IH]; [reflexivity|].
  destruct (write_member_quoted m) as [text Hm].
  destruct ms as [|m' ms].
  - cbn [fmap list_fmap join]. rewrite Hm. cbn. lia.
  - change (join (write_member write <$> m :: m' :: ms))
      with (write_member write m +:+ "," +:+ join (write_member write <$> m' :: ms)).
    rewrite Hm, !length_append. cbn [String.length length] in IH |- *. lia.
Qed.

Lemma read_write_flat (members : list (string * json)) :
  flat members → read (write (JObj members)) = inr (JObj members).
Proof.
  intros [Hnd Hscalar]. destruct (decide (members = [])) as [->|Hne]; [reflexivity|].
  cbn [write]. set (texts := write_member write <$> members).
  change ("{" +:+ join texts +:+ "}") with (String "{" (join texts +:+ "}")).
  destruct (join_quoted members Hne) as [text Htext]. fold texts in Htext.
  pose proof (length_join members) as Hlen. fold texts in Hlen.
  unfold read. cbn [String.length].
  assert (read_value (S (S (String.length (join texts +:+ "}"))))
            (String "{" (join texts +:+ "}"))
          = inr (JObj members, "")) as ->; [|reflexivity].
  assert (∀ depth s, read_value (S (S depth)) (String "{" (String quote s))
          = and_then (read_members (read_value (S depth))
                        (String.length (String quote s)) (String quote s) [])
                     (λ members rest, inr (JObj members, rest))) as Hopen
    by reflexivity.
  rewrite Htext. change (String quote text +:+ "}") with (String quote (text +:+ "}")).
  rewrite Hopen.
  change (String quote (text +:+ "}")) with (String quote text +:+ "}").
  rewrite <-Htext. unfold texts.
  rewrite read_members_join; [|done|done|rewrite length_append; fold texts; lia].
  cbn [and_then]. rewrite foldl_put; [reflexivity|exact Hnd].
Qed.

End json_text_props.

Section host_props.

(** The platform of Node.js has the properties the token service relies on. *)
Lemma host_laws : PlatformLaws (H := Host.platform).
Proof.
  split.
  - intros key data. apply encode_no_dot.
  - apply encode_no_dot.
  - apply decode_encode.
  - apply read_write_flat.
Qed.

End host_props.

Section token_examples.
Import JWTService.
#[local] Existing Instance Host.platform.
#[local] Existing Instance host_laws.

Lemma session_flat : flat session.
Proof.
  split.
  - apply (bool_decide_unpack _). vm_compute. reflexivity.
  - intros k v Hin. unfold session in Hin.
    repeat (apply elem_of_cons in Hin as [Hin|Hin]; [by simplify_eq|]).
    by apply elem_of_nil in Hin.
Qed.

(** The token of the session claims, as Node.js issues it at the epoch
    second 1700000000. *)
Lemma session_issued : generateToken default_config session fresh = (inr issued, issued_world).
Proof.
  rewrite generateToken_run. cbv zeta.
  apply (f_equal2 pair); [apply (f_equal inr); vm_compute; reflexivity|reflexivity].
Qed.

(** The token issued for the session claims verifies right after it was
    issued, and gives the claims back. *)
Lemma verify_issued_token_witness :
  ∃ body,
    verifyToken default_config issued issued_world = (inr (JObj body), tick issued_world) ∧
    member "sub" body = Some (JStr "user123") ∧
    member "email" body = Some (JStr "test@example.com") ∧
    member "type" body = Some (JStr "session").
Proof.
  exact (verify_issued_token default_config session _ _ _ fresh issued_world issued_world
           issued session_flat eq_refl eq_refl eq_refl session_issued
           ltac:(vm_compute; discriminate) ltac:(vm_compute; reflexivity)).
Defined.

Lemma issued_parts :
  Lib.split "." issued =
  ["eyJhbGciOiJIUzI1NiIsInR5cCI6IkpXVCJ9";
   "eyJzdWIiOiJ1c2VyMTIzIiwiZW1haWwiOiJ0ZXN0QGV4YW1wbGUuY29tIiwidHlwZSI6InNlc3Npb24iLCJpYXQiOjE3MDAwMDAwMDAsImV4cCI6MTcwMDYwNDgwMH0=";
   "qRiK8krlBkvw7WcGHfNn2gp+xRfWVCw5KFCcIbAAnxU="].
Proof. vm_compute. reflexivity. Qed.



(** So does one whose payload is [null], with the message of the
    [TypeError] of the property read. *)
Lemma verifyToken_signed_null_payload :
  outcome (verifyToken default_config signed_null fresh)
  = inl (Error "Token verification failed: Cannot read properties of null (reading 'exp')").
Proof. vm_compute; reflexivity. Qed.

End token_examples.

(** ** The validation of a create request *)

Section float_props.
#[local] Open Scope float_scope.

(** Comparing the other way round gives the opposite. *)
Lemma SFcompare_flip (a b : spec_float) :
  SFcompare b a = option_map CompOpp (SFcompare a b).
Proof.
  destruct a as [[]|[]| |[] m e], b as [[]|[]| |[] m' e']; try reflexivity; cbn.
  all: change (PosDef.Pos.compare_cont Eq ?p ?q) with (Pos.compare p q).
  all: rewrite (Z.compare_antisym e e'), (Pos.compare_antisym m m').
  all: destruct (e ?= e')%Z, (m ?= m')%positive; reflexivity.
Qed.

Lemma is_nan_SF (x : float) : is_nan x = false → Prim2SF x ≠ S754_nan.
Proof.
  unfold is_nan. rewrite FloatAxioms.eqb_spec. intros Hx Hn. rewrite Hn in Hx. discriminate.
Qed.

Lemma not_leb_ltb (x y : float) :
  is_nan x = false → is_nan y = false → (x <=? y) = false → (y <? x) = true.
Proof.
  intros Hx%is_nan_SF Hy%is_nan_SF. rewrite FloatAxioms.leb_spec, FloatAxioms.ltb_spec.
  unfold SFleb, SFltb. rewrite (SFcompare_flip (Prim2SF x) (Prim2SF y)).
  destruct (Prim2SF x) as [[]|[]| |[] m e], (Prim2SF y) as [[]|[]| |[] m' e'];
    try done; cbn.
  all: change (PosDef.Pos.compare_cont Eq ?p ?q) with (Pos.compare p q).
  all: destruct (e ?= e')%Z, (m ?= m')%positive; done.
Qed.

Lemma not_ltb_leb (x y : float) :
  is_nan x = false → is_nan y = false → (x <? y) = false → (y <=? x) = true.
Proof.
  intros Hx%is_nan_SF Hy%is_nan_SF. rewrite FloatAxioms.leb_spec, FloatAxioms.ltb_spec.
  unfold SFleb, SFltb. rewrite (SFcompare_flip (Prim2SF x) (Prim2SF y)).
  destruct (Prim2SF x) as [[]|[]| |[] m e], (Prim2SF y) as [[]|[]| |[] m' e'];
    try done; cbn.
  all: change (PosDef.Pos.compare_cont Eq ?p ?q) with (Pos.compare p q).
  all: destruct (e ?= e')%Z, (m ?= m')%positive; done.
Qed.

End float_props.

Section validation_props.
Context `{Runtime}.
Import Validation.
#[local] Open Scope float_scope.

Lemma amount_errors_none (amount : option value) :
  amount_errors amount = [] →
  ∃ x, amount = Some (VNum x) ∧ (0 <? x) = true ∧ (x <=? 1000000) = true.
Proof.
  unfold amount_errors. destruct (truthy_opt amount) eqn:Ht; [|done]. cbn [negb].
  destruct amount as [[| |x| | |]|]; try done.
  cbn in Ht. apply negb_true_iff, orb_false_iff in Ht as [_ Hnan].
  destruct (x <=? 0) eqn:Hle; [done|].
  destruct (1000000 <? x) eqn:Hlt; [done|]. intros _.
  exists x. split; [done|]. split.
  - by apply not_leb_ltb.
  - by apply not_ltb_leb.
Qed.

(** X1: when [validateTransaction] lets a request through, the amount of
    its body is a number that is greater than 0 and at most the configured
    maximum of 1000000, and the data it attaches carries that amount. *)
Theorem validateTransaction_bounds_amount (body attached : obj) (w w' : world) :
  validateTransaction body w = (inr (Next attached), w') →
  ∃ x, body !! "amount" = Some (VNum x) ∧ attached !! "amount" = Some (VNum x) ∧
       (0 <? x) = true ∧ (x <=? maxAmount default_config) = true.
Proof.
  unfold validateTransaction. intros Hrun.
  destruct (category_errors (body !! "category")) as [thrown|category_errs];
    [by unfold validation_error, mret, M_ret in Hrun; simplify_eq|].
  destruct (amount_errors (body !! "amount")) as [|e es] eqn:Hamount.
  - destruct (amount_errors_none _ Hamount) as (x & Hx & Hpos & Hmax).
    exists x. split_and!; try done.
    destruct (_ ++ _) in Hrun; [|by unfold mret, M_ret in Hrun; simplify_eq].
    destruct (description_text _); [by unfold validation_error, mret, M_ret in Hrun; simplify_eq|].
    unfold mbind, M_bind in Hrun.
    assert (∃ t, attached =
              set_opt "userId" (body !! "userId") (set_opt "type" (body !! "type")
                (<["category" := VStr (trim (text_of (body !! "category")))]>
                   (set_opt "amount" (body !! "amount")
                      (<["description" := VStr s]> (<["date" := VStr (toISOString t)]> ∅))))))
      as [t ->].
    { destruct (body !! "date") as [d|]; [destruct (truthy d)|];
        unfold Date_now, mret, M_ret in Hrun; simplify_eq; by eexists. }
    rewrite Hx. unfold set_opt at 1.
    destruct (body !! "userId"); simpl.
    all: rewrite ?lookup_insert_ne by done.
    all: unfold set_opt at 1; destruct (body !! "type"); simpl.
    all: rewrite ?lookup_insert_ne by done.
    all: by rewrite lookup_insert_eq.
  - exfalso.
    destruct ((if truthy_opt (body !! "userId") then [] else _) ++ _) eqn:Herr.
    + apply app_eq_nil in Herr as [_ Herr]. apply app_eq_nil in Herr as [_ Herr].
      apply app_eq_nil in Herr as [_ Herr]. by apply app_eq_nil in Herr as [Herr _].
    + by unfold mret, M_ret in Hrun; simplify_eq.
Qed.
End validation_props.

Section validation_examples.
#[local] Existing Instance Node.runtime.
Import Validation.
#[local] Open Scope float_scope.

(** X1 on the stored lunch, sent as the body of a create request. *)
Lemma validateTransaction_bounds_amount_witness :
  ∃ x, lunch !! "amount" = Some (VNum x) ∧ lunch_validated !! "amount" = Some (VNum x) ∧
       (0 <? x) = true ∧ (x <=? maxAmount default_config) = true.
Proof.
  exact (validateTransaction_bounds_amount lunch lunch_validated fresh (tick fresh)
           eq_refl).
Defined.

End validation_examples.

(** ** More of FileStorageService *)

Section file_storage_more.
Context `{Runtime}.

Import FileStorageService.

Lemma filter_length_eq {A} (p : A → bool) (l : list A) :
  length (List.filter p l) = length l ↔ ∀ x, x ∈ l → p x = true.
Proof.
  induction l as [|x l IH]; simpl.
  - split; [|done]. intros _ y Hy. by apply elem_of_nil in Hy.
  - pose proof (List.filter_length_le p l) as Hle. destruct (p x) eqn:Hp; simpl.
    + split.
      * intros Hlen y Hy. apply elem_of_cons in Hy as [->|Hy]; [done|].
        apply IH; [lia|done].
      * intros Hall. f_equal. apply IH. intros y Hy. apply Hall. by right.
    + split; [lia|]. intros Hall. rewrite Hall in Hp; [done|left].
Qed.

Lemma deleteFromFile_run (filePath id : string) (w : world) :
  deleteFromFile filePath id w =
  match find (has_id id) (content w filePath) with
  | Some _ =>
      (inr (deleted id),
       with_file filePath
         (List.filter (λ item, negb (has_id id item)) (content w filePath)) w)
  | None =>
      (inl (DatabaseError ("Failed to delete from file: " +:+ filePath)
                          (Error "Item not found")), w)
  end.
Proof.
  unfold deleteFromFile, try_catch, mbind, M_bind. rewrite readFile_run.
  destruct (find (has_id id) (content w filePath)) as [r|] eqn:Hfind.
  - apply find_Some in Hfind as [Hin Hid].
    destruct (_ =? _)%nat eqn:Hlen; [|done].
    apply Nat.eqb_eq in Hlen.
    pose proof (proj1 (filter_length_eq _ _) Hlen r Hin) as Hr.
    cbv beta in Hr. by rewrite Hid in Hr.
  - rewrite find_None in Hfind.
    assert ((length (List.filter (λ item, negb (has_id id item)) (content w filePath))
             =? length (content w filePath))%nat = true) as ->; [|done].
    apply Nat.eqb_eq. apply filter_length_eq. intros x Hx. by rewrite Hfind.
Qed.

(** X2: [deleteFromFile] removes every record that has the id, keeps the
    others in their order and returns [{ success: true, id }], after which no
    record has the id; when no record has the id it writes nothing and fails
    with a [DatabaseError] that wraps the [Error] "Item not found", which the
    error handler answers with the status 500, not 404. *)
Theorem deleteFromFile_removes_or_fails (filePath id : string) (w : world) :
  (∀ r, r ∈ content w filePath → has_id id r = true →
        ∃ w', deleteFromFile filePath id w = (inr (deleted id), w') ∧
              content w' filePath =
                List.filter (λ item, negb (has_id id item)) (content w filePath) ∧
              (∀ x, x ∈ content w' filePath ↔
                    x ∈ content w filePath ∧ has_id id x = false) ∧
              findByIdInFile filePath id w' = (inr None, w')) ∧
  ((∀ r, r ∈ content w filePath → has_id id r = false) →
     deleteFromFile filePath id w =
       (inl (DatabaseError ("Failed to delete from file: " +:+ filePath)
                           (Error "Item not found")), w) ∧
     ErrorHandler.errorHandler
       (DatabaseError ("Failed to delete from file: " +:+ filePath) (Error "Item not found")) =
       {| ErrorHandler.status := 500;
          ErrorHandler.body_message := "Failed to delete from file: " +:+ filePath;
          ErrorHandler.body_errors := None |}).
Proof.
  rewrite deleteFromFile_run. split.
  - intros r Hin Hid. destruct (find _ _) as [?|] eqn:Hfind.
    + eexists. split; [reflexivity|].
      assert (content (with_file filePath
                (List.filter (λ item, negb (has_id id item)) (content w filePath)) w)
                filePath
              = List.filter (λ item, negb (has_id id item)) (content w filePath)) as Hc
        by (by rewrite content_with_file, decide_True).
      split; [exact Hc|]. split.
      * intros x. rewrite Hc, list_elem_of_In, List.filter_In, <-list_elem_of_In.
        by rewrite negb_true_iff.
      * rewrite findByIdInFile_run, Hc. f_equal. f_equal. apply find_None.
        intros x. rewrite list_elem_of_In, List.filter_In, negb_true_iff. by intros [_ ?].
    + rewrite find_None in Hfind. by rewrite Hfind in Hid.
  - intros Hnone. apply find_None in Hnone. by rewrite Hnone.
Qed.



End file_storage_more.

Section file_storage_more_examples.
#[local] Existing Instance Node.runtime.
Import FileStorageService.


End file_storage_more_examples.

(** ** More of TransactionService *)

Section transaction_service_more.
Context `{Runtime} (config : Config).

Import FileStorageService TransactionService.

Lemma deleteTransaction_run (id : string) (w : world) :
  deleteTransaction config id w =
  match find (has_id id) (content w (transactionsFile config)) with
  | Some _ =>
      (inr (deleted id),
       with_file (transactionsFile config)
         (List.filter (λ item, negb (has_id id item))
                      (content w (transactionsFile config))) w)
  | None => (inl (NotFoundError "Transaction"), w)
  end.
Proof.
  unfold deleteTransaction. rewrite try_catch_rethrow.
  unfold mbind, M_bind. rewrite getTransactionById_run.
  destruct (find _ _) eqn:Hfind; [|done]. by rewrite deleteFromFile_run, Hfind.
Qed.

(** X4: on an id that no stored transaction has, [getTransactionById],
    [updateTransaction] and [deleteTransaction] fail with the [NotFoundError]
    of a transaction and write nothing; the error handler answers that error
    with the status 404 and the message "Transaction not found". *)
Theorem absent_transaction_is_NotFound (id : string) (updateData : obj) (w : world) :
  (∀ r, r ∈ content w (transactionsFile config) → has_id id r = false) →
  getTransactionById config id w = (inl (NotFoundError "Transaction"), w) ∧
  updateTransaction config id updateData w = (inl (NotFoundError "Transaction"), w) ∧
  deleteTransaction config id w = (inl (NotFoundError "Transaction"), w) ∧
  ErrorHandler.errorHandler (NotFoundError "Transaction") =
    {| ErrorHandler.status := 404; ErrorHandler.body_message := "Transaction not found";
       ErrorHandler.body_errors := None |}.
Proof.
  intros Hnone%find_None.
  by rewrite getTransactionById_run, updateTransaction_run, deleteTransaction_run, Hnone.
Qed.

(** X5: [deleteTransaction] of a stored id removes every record with that id
    and no other, returns [{ success: true, id }], and a later
    [getTransactionById] of the id fails with the [NotFoundError]. *)
Theorem deleteTransaction_then_get (id : string) (r : obj) (w : world) :
  r ∈ content w (transactionsFile config) → has_id id r = true →
  ∃ w', deleteTransaction config id w = (inr (deleted id), w') ∧
        content w' (transactionsFile config) =
          List.filter (λ item, negb (has_id id item)) (content w (transactionsFile config)) ∧
        getTransactionById config id w' = (inl (NotFoundError "Transaction"), w').
Proof.
  intros Hin Hid. rewrite deleteTransaction_run.
  destruct (find _ _) as [?|] eqn:Hfind.
  - eexists. split; [reflexivity|].
    assert (content (with_file (transactionsFile config)
              (List.filter (λ item, negb (has_id id item))
                           (content w (transactionsFile config))) w)
              (transactionsFile config)
            = List.filter (λ item, negb (has_id id item))
                          (content w (transactionsFile config))) as Hc
      by (by rewrite content_with_file, decide_True).
    split; [exact Hc|]. rewrite getTransactionById_run, Hc.
    assert (find (has_id id) (List.filter (λ item, negb (has_id id item))
                                (content w (transactionsFile config))) = None) as ->; [|done].
    apply find_None. intros x.
    rewrite list_elem_of_In, List.filter_In, negb_true_iff. by intros [_ ?].
  - rewrite find_None in Hfind. by rewrite Hfind in Hid.
Qed.

Lemma lookup_set_opt_ne (k k' : string) (v : option value) (o : obj) :
  k ≠ k' → set_opt k v o !! k' = o !! k'.
Proof. intros Hne. destruct v; [|done]. by apply lookup_insert_ne. Qed.

Lemma lookup_set_opt_eq (k : string) (v : option value) (o : obj) :
  o !! k = None → set_opt k v o !! k = v.
Proof. intros Hnone. destruct v; [|done]. by apply lookup_insert_eq. Qed.

(** What [createTransaction] returns and writes. *)
Lemma createTransaction_run (transactionData : obj) (w : world) :
  ∃ transaction w',
    createTransaction config transactionData w = (inr transaction, w') ∧
    content w' (transactionsFile config) =
      content w (transactionsFile config) ++ [transaction] ∧
    transaction !! "id" =
      Some (VStr ("txn_" +:+ pretty (clock w (ticks w)) +:+ "_" +:+ random w (draws w))) ∧
    (∀ k, k ∈ ["userId"; "type"; "category"; "amount"] →
          transaction !! k = transactionData !! k) ∧
    transaction !! "description" =
      Some (if truthy_opt (transactionData !! "description")
            then default VNull (transactionData !! "description") else VStr "") ∧
    transaction !! "date" =
      Some (if truthy_opt (transactionData !! "date")
            then default VNull (transactionData !! "date")
            else VStr (toISOString (clock w (S (ticks w))))).
Proof.
  unfold createTransaction. rewrite try_catch_rethrow.
  unfold mbind, M_bind, Date_now, random_suffix.
  destruct (truthy_opt (transactionData !! "date")) eqn:Hdate.
  all: unfold mret, M_ret; cbn [tick draw ticks draws clock random files].
  all: rewrite appendToFile_run.
  all: eexists _, _; split; [reflexivity|].
  all: split; [by rewrite content_with_file, decide_True|].
  all: split; [by rewrite lookup_insert_eq|].
  all: split; [|split].
  all: try (intros k Hk; repeat (apply elem_of_cons in Hk as [->|Hk]);
            [..|by apply elem_of_nil in Hk]).
  all: rewrite lookup_insert_ne by done.
  all: rewrite ?lookup_set_opt_ne by done.
  all: try (rewrite lookup_set_opt_eq; [done|]).
  all: rewrite ?lookup_set_opt_ne by done.
  all: by rewrite ?lookup_insert_eq, ?lookup_insert_ne by done.
Qed.



End transaction_service_more.

(** ** More of UserService *)

Section user_service_more.
Context `{Runtime} (config : Config).

Import FileStorageService UserService.

Lemma getUserById_run (id : string) (w : world) :
  getUserById config id w =
  match find (has_id id) (content w (usersFile config)) with
  | Some user => (inr (omit "password" user), w)
  | None => (inl (NotFoundError "User"), w)
  end.
Proof.
  unfold getUserById. rewrite try_catch_rethrow.
  unfold mbind, M_bind. rewrite findByIdInFile_run. by destruct (find _ _).
Qed.

Lemma deleteUser_run (userId : string) (w : world) :
  deleteUser config userId w =
  match find (has_id userId) (content w (usersFile config)) with
  | Some _ =>
      (inr (deleted userId),
       with_file (usersFile config)
         (List.filter (λ item, negb (has_id userId item)) (content w (usersFile config))) w)
  | None => (inl (NotFoundError "User"), w)
  end.
Proof.
  unfold deleteUser. rewrite try_catch_rethrow.
  unfold mbind, M_bind. rewrite getUserById_run.
  destruct (find _ _) eqn:Hfind; [|done]. by rewrite deleteFromFile_run, Hfind.
Qed.

Lemma updatePreferences_run (userId : string) (preferences : option value) (w : world) :
  updatePreferences config userId preferences w =
  match find (has_id userId) (content w (usersFile config)) with
  | Some user =>
      match updateInFile (usersFile config) userId
              {[ "preferences" :=
                   VObj (spread (spread_props (user !! "preferences"))
                                (spread_props preferences)) ]} w with
      | (inr updated, w') => (inr (omit "password" updated), w')
      | (inl e, w') => (inl e, w')
      end
  | None => (inl (NotFoundError "User"), w)
  end.
Proof.
  unfold updatePreferences. rewrite try_catch_rethrow.
  unfold mbind, M_bind. rewrite getUserById_run.
  destruct (find _ _) as [user|] eqn:Hfind; [|done].
  unfold omit at 1. rewrite lookup_delete_ne by done.
  by destruct (updateInFile _ _ _ w) as [[e|updated] w'].
Qed.

(** X8: on an id that no stored user has, [getUserById], [updatePreferences]
    and [deleteUser] fail with the [NotFoundError] of a user and write
    nothing; the error handler answers that error with the status 404 and the
    message "User not found". *)
Theorem absent_user_is_NotFound (id : string) (preferences : option value) (w : world) :
  (∀ r, r ∈ content w (usersFile config) → has_id id r = false) →
  getUserById config id w = (inl (NotFoundError "User"), w) ∧
  updatePreferences config id preferences w = (inl (NotFoundError "User"), w) ∧
  deleteUser config id w = (inl (NotFoundError "User"), w) ∧
  ErrorHandler.errorHandler (NotFoundError "User") =
    {| ErrorHandler.status := 404; ErrorHandler.body_message := "User not found";
       ErrorHandler.body_errors := None |}.
Proof.
  intros Hnone%find_None.
  by rewrite getUserById_run, updatePreferences_run, deleteUser_run, Hnone.
Qed.

(** X9: [deleteUser] of a stored id removes every user record with that id
    and no other, returns [{ success: true, id }], and a later [getUserById]
    of the id fails with the [NotFoundError]. *)
Theorem deleteUser_then_get (id : string) (r : obj) (w : world) :
  r ∈ content w (usersFile config) → has_id id r = true →
  ∃ w', deleteUser config id w = (inr (deleted id), w') ∧
        content w' (usersFile config) =
          List.filter (λ item, negb (has_id id item)) (content w (usersFile config)) ∧
        getUserById config id w' = (inl (NotFoundError "User"), w').
Proof.
  intros Hin Hid. rewrite deleteUser_run.
  destruct (find _ _) as [?|] eqn:Hfind.
  - eexists. split; [reflexivity|].
    assert (content (with_file (usersFile config)
              (List.filter (λ item, negb (has_id id item)) (content w (usersFile config))) w)
              (usersFile config)
            = List.filter (λ item, negb (has_id id item)) (content w (usersFile config)))
      as Hc by (by rewrite content_with_file, decide_True).
    split; [exact Hc|]. rewrite getUserById_run, Hc.
    assert (find (has_id id) (List.filter (λ item, negb (has_id id item))
                                (content w (usersFile config))) = None) as ->; [|done].
    apply find_None. intros x.
    rewrite list_elem_of_In, List.filter_In, negb_true_iff. by intros [_ ?].
  - rewrite find_None in Hfind. by rewrite Hfind in Hid.
Qed.



End user_service_more.

(** ** More of the validation middleware *)

Section validation_more.
Context `{Runtime} (config : Config).

Import FileStorageService Validation Pagination.

Lemma every_app (p : ascii → bool) (a b : string) :
  every p (a +:+ b) = every p a && every p b.
Proof.
  induction a as [|c a IH]; [done|].
  change (every p (String c (a +:+ b)) = every p (String c a) && every p b).
  simpl. by rewrite IH, andb_assoc.
Qed.

(** An id with an underscore in it is refused. *)
Lemma validateId_underscore (a b : string) :
  validateId (a +:+ "_" +:+ b) = Respond 400 "Invalid ID format" [].
Proof.
  unfold validateId, id_format. rewrite every_app.
  change (every id_char ("_" +:+ b)) with false. rewrite andb_false_r.
  by rewrite andb_false_r, orb_true_r.
Qed.

(** X12: [validateId], which the routes run before every operation on
    [/transactions/:id] and [/users/:id], answers 400 "Invalid ID format" to
    the id of every record that [createTransaction] or [createUser] of the
    file backend creates: those ids contain underscores, which the pattern
    does not admit. *)
Theorem validateId_refuses_created_ids (data : obj) (w w' : world) (created : obj) (id : string) :
  TransactionService.createTransaction config data w = (inr created, w') ∨
  UserService.createUser config data w = (inr created, w') →
  created !! "id" = Some (VStr id) →
  validateId id = Respond 400 "Invalid ID format" [].
Proof.
  intros [Hrun|Hrun] Hid.
  - destruct (createTransaction_run config data w) as (t & w1 & Hrun' & _ & Hid' & _).
    rewrite Hrun in Hrun'. injection Hrun' as <- <-.
    rewrite Hid in Hid'. injection Hid' as ->.
    apply (validateId_underscore "txn").
  - revert Hrun. unfold UserService.createUser. rewrite try_catch_rethrow.
    intros (existing & w1 & _ & Hrest)%bind_inr.
    destruct existing as [?|]; [discriminate Hrest|].
    apply bind_inr in Hrest as (now & w2 & _ & Hrest).
    apply bind_inr in Hrest as (suffix & w3 & _ & Hrest).
    apply bind_inr in Hrest as (e & w4 & _ & Hrest).
    apply bind_inr in Hrest as (createdAt & w5 & _ & Hrest).
    apply bind_inr in Hrest as (updatedAt & w6 & _ & Hrest).
    apply bind_inr in Hrest as (? & w7 & _ & Hret).
    injection Hret as <- <-. unfold omit in Hid.
    rewrite lookup_delete_ne, lookup_insert_eq in Hid by done. injection Hid as <-.
    apply (validateId_underscore "user").
Qed.

Lemma int_or_cases (v : option string) (fallback : Z) :
  int_or v fallback = fallback ∨
  ∃ s n, v = Some s ∧ Lib.parseInt s = Some n ∧ n ≠ 0 ∧ int_or v fallback = n.
Proof.
  unfold int_or. destruct v as [s|]; [|by left].
  destruct (Lib.parseInt s) as [[|p|p]|] eqn:Hp; [by left| | |by left].
  all: right; by eexists s, _.
Qed.


(** X14: when [validateTransaction] lets a request through, the body has a
    user id, its type is "income" or "expense", its category is a string
    that is not blank, and the data attached carry that type, the category
    trimmed, a description that is a string, and a date. *)
Theorem validateTransaction_shapes_data (body attached : obj) (w w' : world) :
  validateTransaction body w = (inr (Next attached), w') →
  truthy_opt (body !! "userId") = true ∧
  attached !! "userId" = body !! "userId" ∧
  (body !! "type" = Some (VStr "income") ∨ body !! "type" = Some (VStr "expense")) ∧
  attached !! "type" = body !! "type" ∧
  (∃ c, body !! "category" = Some (VStr c) ∧ trim c ≠ "" ∧
        attached !! "category" = Some (VStr (trim c))) ∧
  (∃ d, attached !! "description" = Some (VStr d)) ∧
  (∃ iso, attached !! "date" = Some (VStr iso)).
Proof.
  unfold validateTransaction. intros Hrun.
  destruct (category_errors (body !! "category")) as [thrown|category_errs] eqn:Hcat;
    [by unfold validation_error, mret, M_ret in Hrun; simplify_eq|].
  destruct ((if truthy_opt (body !! "userId") then [] else _) ++ _) as [|e es] eqn:Herr;
    [|by unfold mret, M_ret in Hrun; simplify_eq].
  apply app_eq_nil in Herr as [Huser Herr]. apply app_eq_nil in Herr as [Htype Herr].
  apply app_eq_nil in Herr as [-> Herr]. apply app_eq_nil in Herr as [Hamount _].
  destruct (truthy_opt (body !! "userId")) eqn:Hu; [|done].
  destruct (description_text _) as [thrown|description];
    [by unfold validation_error, mret, M_ret in Hrun; simplify_eq|].
  assert (∃ t, attached =
            set_opt "userId" (body !! "userId") (set_opt "type" (body !! "type")
              (<["category" := VStr (trim (text_of (body !! "category")))]>
                 (set_opt "amount" (body !! "amount")
                    (<["description" := VStr description]>
                       (<["date" := VStr (toISOString t)]> ∅))))))
    as [t ->].
  { destruct (body !! "date") as [d|]; [destruct (truthy d)|];
      unfold Date_now, mret, M_ret, mbind, M_bind in Hrun; simplify_eq; by eexists. }
  assert (body !! "type" = Some (VStr "income") ∨ body !! "type" = Some (VStr "expense"))
    as Hkind.
  { unfold type_errors in Htype. destruct (truthy_opt (body !! "type")); [|done].
    cbn [negb] in Htype. destruct (body !! "type") as [[| | |s| |]|]; try done.
    cbn [is_str] in Htype.
    destruct (String.eqb s "income") eqn:E1; [apply String.eqb_eq in E1; left; by f_equal; f_equal|].
    destruct (String.eqb s "expense") eqn:E2; [apply String.eqb_eq in E2; right; by f_equal; f_equal|done]. }
  assert (∃ c, body !! "category" = Some (VStr c) ∧ trim c ≠ "") as (c & Hc & Hblank).
  { unfold category_errors in Hcat. destruct (truthy_opt (body !! "category")); [|done].
    cbn [negb] in Hcat. destruct (body !! "category") as [[| | |s| |]|]; try done.
    injection Hcat as Hcat. exists s. split; [done|].
    intros Hb. by rewrite Hb in Hcat. }
  split_and!; try done.
  - rewrite lookup_set_opt_eq; [done|]. rewrite lookup_set_opt_ne by done.
    rewrite lookup_insert_ne, lookup_set_opt_ne by done.
    by rewrite !lookup_insert_ne by done.
  - rewrite lookup_set_opt_ne by done. rewrite lookup_set_opt_eq; [done|].
    rewrite lookup_insert_ne, lookup_set_opt_ne by done.
    by rewrite !lookup_insert_ne by done.
  - exists c. split_and!; try done.
    rewrite !lookup_set_opt_ne by done. by rewrite lookup_insert_eq, Hc.
  - exists description. rewrite !lookup_set_opt_ne by done.
    rewrite lookup_insert_ne, lookup_set_opt_ne by done. by rewrite lookup_insert_eq.
  - exists (toISOString t). rewrite !lookup_set_opt_ne by done.
    rewrite lookup_insert_ne, lookup_set_opt_ne by done.
    rewrite lookup_insert_ne by done. by rewrite lookup_insert_eq.
Qed.

End validation_more.

(** ** More of JWTService, and the authentication middleware *)

Section token_more.
Context `{PlatformLaws} (config : Config).

Import JWTService Auth.

Lemma issued_body_flat (payload : list (string * json)) (w : world) :
  flat payload → flat (issued_body payload w).
Proof. intros Hflat. by do 2 (apply flat_set_member; [|done]). Qed.

(** What [verifyToken] makes of a token that [generateToken] issued. *)
Lemma verifyToken_generated
    (payload : list (string * json)) (w w1 w2 : world) (token : string) :
  flat payload →
  generateToken config payload w = (inr token, w1) →
  verifyToken config token w2 =
    (if clock w (S (ticks w)) / 1000 + lifetime <? clock w2 (ticks w2) / 1000
     then inl (Error "Token verification failed: Token expired")
     else inr (JObj (issued_body payload w)),
     tick w2).
Proof.
  intros Hflat Hgen.
  rewrite generateToken_run in Hgen. cbv zeta in Hgen. injection Hgen as <- <-.
  pose proof (issued_body_flat payload w Hflat) as Hbody.
  unfold verifyToken, try_catch.
  rewrite split_three by (apply to_base64_no_dot || apply hmac_no_dot).
  rewrite String.eqb_refl. simpl.
  unfold mbind, M_bind, decode_body.
  fold (issued_body payload w).
  rewrite from_to_base64, JSON_parse_stringify by done. simpl.
  unfold issued_body at 1. rewrite member_set_member. simpl.
  by destruct (_ <? _).
Qed.

Lemma issued_body_member (payload : list (string * json)) (w : world) (k : string) :
  member k (issued_body payload w) =
  if String.eqb "exp" k then Some (JNum (clock w (S (ticks w)) / 1000 + lifetime))
  else if String.eqb "iat" k then Some (JNum (clock w (ticks w) / 1000))
  else member k payload.
Proof. unfold issued_body. by rewrite !member_set_member. Qed.

(** X15: a token issued for a flat payload verifies, and returns the payload
    with [iat] and [exp] set, as long as the current second is not after
    [exp], the second it was issued plus 7 days: it still verifies during the
    second [exp] itself.  From the next second on, verification fails with
    "Token expired". *)
Theorem verifyToken_until_exp
    (payload : list (string * json)) (w w1 w2 : world) (token : string) :
  flat payload →
  generateToken config payload w = (inr token, w1) →
  (clock w2 (ticks w2) / 1000 ≤ clock w (S (ticks w)) / 1000 + lifetime →
   verifyToken config token w2 = (inr (JObj (issued_body payload w)), tick w2) ∧
   member "exp" (issued_body payload w)
     = Some (JNum (clock w (S (ticks w)) / 1000 + lifetime)) ∧
   member "iat" (issued_body payload w) = Some (JNum (clock w (ticks w) / 1000)) ∧
   ∀ k v, k ≠ "iat" → k ≠ "exp" → member k payload = Some v →
          member k (issued_body payload w) = Some v) ∧
  (clock w (S (ticks w)) / 1000 + lifetime < clock w2 (ticks w2) / 1000 →
   verifyToken config token w2 =
     (inl (Error "Token verification failed: Token expired"), tick w2)).
Proof.
  intros Hflat Hgen. rewrite (verifyToken_generated payload w w1 w2 token) by done.
  split.
  - intros Hle. apply Z.ltb_ge in Hle. rewrite Hle. split_and!; [done|..].
    + by rewrite issued_body_member.
    + by rewrite issued_body_member.
    + intros k v Hk1 Hk2 Hv. rewrite issued_body_member.
      apply String.eqb_neq in Hk1, Hk2. rewrite String.eqb_sym in Hk1, Hk2.
      by rewrite Hk1, Hk2.
  - intros Hlt. apply Z.ltb_lt in Hlt. by rewrite Hlt.
Qed.

Lemma decodeToken_segments (h b s : string) (w : world) :
  Lib.free_of "." h = true → Lib.free_of "." b = true → Lib.free_of "." s = true →
  decodeToken (h +:+ "." +:+ b +:+ "." +:+ s) w =
  match JSON_parse (from_base64 b) with
  | inr body => (inr body, w)
  | inl m => (inl (Error ("Token decode failed: " +:+ m)), w)
  end.
Proof.
  intros Hh Hb Hs. unfold decodeToken, try_catch. rewrite split_three by done.
  unfold decode_body. by destruct (JSON_parse _).
Qed.

(** X16: [decodeToken] checks neither the signature nor the expiry: of three
    dot-free segments it reads the second alone.  The payload segment of an
    issued token, between any header and any signature, decodes at any time
    to the body that was issued. *)
Theorem decodeToken_ignores_signature
    (payload : list (string * json)) (w w1 w2 : world) (token h b s h' s' : string) :
  flat payload →
  generateToken config payload w = (inr token, w1) →
  Lib.split "." token = [h; b; s] →
  Lib.free_of "." h' = true → Lib.free_of "." s' = true →
  decodeToken (h' +:+ "." +:+ b +:+ "." +:+ s') w2
  = (inr (JObj (issued_body payload w)), w2).
Proof.
  intros Hflat Hgen Hsplit Hh' Hs'.
  rewrite generateToken_run in Hgen. cbv zeta in Hgen. injection Hgen as <- <-.
  rewrite split_three in Hsplit by (apply to_base64_no_dot || apply hmac_no_dot).
  injection Hsplit as <- <- <-.
  rewrite decodeToken_segments by (done || apply to_base64_no_dot).
  fold (issued_body payload w).
  by rewrite from_to_base64, JSON_parse_stringify by (by apply issued_body_flat).
Qed.

Lemma claim_member (k : string) (v : json) (members : list (string * json)) :
  member k members = Some v → claim k (JObj members) = [(k, v)].
Proof. intros Hk. unfold claim. by rewrite Hk. Qed.

(** X17: [refreshToken] of a token that was issued for a flat payload with
    [sub], [email] and [type], before it expires, issues at the time of the
    refresh a token whose payload has those three and nothing else of the
    old payload; the new token verifies until its own [exp], 7 days after
    the refresh, with the same [sub], [email] and [type]. *)
Theorem refreshToken_renews
    (payload : list (string * json)) (sub email type : json)
    (w w1 w2 w4 : world) (token : string) :
  flat payload →
  member "sub" payload = Some sub →
  member "email" payload = Some email →
  member "type" payload = Some type →
  generateToken config payload w = (inr token, w1) →
  clock w2 (ticks w2) / 1000 ≤ clock w (S (ticks w)) / 1000 + lifetime →
  clock w4 (ticks w4) / 1000 ≤ clock w2 (S (S (ticks w2))) / 1000 + lifetime →
  ∃ token' w3,
    refreshToken config token w2 = (inr token', w3) ∧
    generateToken config [("sub", sub); ("email", email); ("type", type)] (tick w2)
      = (inr token', w3) ∧
    verifyToken config token' w4 =
      (inr (JObj [("sub", sub); ("email", email); ("type", type);
                  ("iat", JNum (clock w2 (S (ticks w2)) / 1000));
                  ("exp", JNum (clock w2 (S (S (ticks w2))) / 1000 + lifetime))]),
       tick w4).
Proof.
  intros Hflat Hsub Hemail Htype Hgen Hle Hle4.
  pose proof (verifyToken_generated payload w w1 w2 token Hflat Hgen) as Hverify.
  apply Z.ltb_ge in Hle. rewrite Hle in Hverify.
  assert (flat [("sub", sub); ("email", email); ("type", type)]) as Hflat'.
  { destruct Hflat as [_ Hscalar]. split.
    - apply (bool_decide_unpack _). by vm_compute.
    - intros k v Hin.
      assert (∀ k v, member k payload = Some v → (k, v) ∈ payload) as Hmem.
      { clear. induction payload as [|[k0 v0] p IH]; intros k v; simpl; [done|].
        destruct (String.eqb_spec k0 k) as [->|_].
        - intros [= ->]. left.
        - intros Hk. right. by apply IH. }
      repeat (apply elem_of_cons in Hin as [[= -> ->]|Hin];
              [by eapply Hscalar, Hmem|]).
      by apply elem_of_nil in Hin. }
  unfold refreshToken, try_catch, mbind, M_bind. rewrite Hverify.
  rewrite (claim_member "sub" sub), (claim_member "email" email),
    (claim_member "type" type) by (by rewrite issued_body_member).
  simpl.
  rewrite generateToken_run. cbv zeta. eexists _, _. split; [reflexivity|].
  split; [reflexivity|].
  erewrite (verifyToken_generated [("sub", sub); ("email", email); ("type", type)]
              (tick w2)); [|exact Hflat'|reflexivity].
  cbn [tick ticks clock]. apply Z.ltb_ge in Hle4. rewrite Hle4. reflexivity.
Qed.

Lemma verifyToken_inr (token : string) (w w' : world) (body : json) :
  verifyToken config token w = (inr body, w') → body ≠ JNull ∧ w' = tick w.
Proof.
  unfold verifyToken. intros Hrun%try_catch_inr.
  destruct (Lib.split _ token) as [|h [|b [|s [|]]]]; try discriminate Hrun.
  destruct (negb _); [discriminate Hrun|].
  unfold mbind, M_bind, decode_body, exp_of, seconds, throw, mret, M_ret,
    mbind, M_bind, Date_now in Hrun.
  destruct (JSON_parse (from_base64 b)) as [m|parsed]; [discriminate Hrun|].
  destruct parsed; simpl in Hrun; [discriminate Hrun|..].
  all: repeat match type of Hrun with
              | context [if ?c then _ else _] => destruct c
              end.
  all: by simplify_eq.
Qed.

Lemma verifyToken_inl (token : string) (w w' : world) (e : exn) :
  verifyToken config token w = (inl e, w') →
  ∃ m, e = Error ("Token verification failed: " +:+ m).
Proof. unfold verifyToken. intros (e0 & _ & ->)%try_catch_inl. by eexists. Qed.

Lemma startsWith_slice (prefix s : string) :
  startsWith prefix s = true → s = prefix +:+ slice (String.length prefix) s.
Proof.
  revert s. induction prefix as [|c prefix IH]; intros s; [by destruct s|].
  destruct s as [|c' s]; [done|]. simpl.
  intros [->%Ascii.eqb_eq Hs]%andb_true_iff.
  change (String c' s = String c' (prefix +:+ slice (String.length prefix) s)).
  f_equal. by apply IH.
Qed.

Lemma startsWith_app (prefix s : string) : startsWith prefix (prefix +:+ s) = true.
Proof.
  induction prefix as [|c prefix IH]; [done|].
  change (startsWith (String c prefix) (String c (prefix +:+ s)) = true).
  simpl. by rewrite Ascii.eqb_refl.
Qed.

Lemma slice_app (prefix s : string) : slice (String.length prefix) (prefix +:+ s) = s.
Proof. induction prefix as [|c prefix IH]; [by destruct s|]. exact IH. Qed.

(** What [user_of] makes of a token. *)
Lemma user_of_run (token : string) (w : world) :
  user_of config token w =
  match verifyToken config token w with
  | (inr (JObj members), w') =>
      (inr {| user_id := member "sub" members; user_email := member "email" members;
              user_type := member "type" members |}, w')
  | (inr JNull, w') =>
      (inl (TypeError "Cannot read properties of null (reading 'sub')"), w')
  | (inr _, w') =>
      (inr {| user_id := None; user_email := None; user_type := None |}, w')
  | (inl e, w') => (inl e, w')
  end.
Proof.
  unfold user_of, mbind, M_bind.
  destruct (verifyToken config token w) as [[e|[| | | | |members]] w']; done.
Qed.

(** X18: [authenticate] lets a request through whose [Authorization] header
    is "Bearer " followed by a session token that [createSessionToken] issued
    and that has not expired, and sets [req.user] to the user id, the email
    and the type "session" the token was issued for. *)
Theorem authenticate_session (userId email token : string) (w w1 w2 : world) :
  createSessionToken config userId email w = (inr token, w1) →
  clock w2 (ticks w2) / 1000 ≤ clock w (S (ticks w)) / 1000 + lifetime →
  authenticate config (Some ("Bearer " +:+ token)) w2 =
    (inr {| user_id := Some (JStr userId); user_email := Some (JStr email);
            user_type := Some (JStr "session") |},
     tick w2).
Proof.
  intros Hgen Hle. unfold createSessionToken in Hgen.
  assert (flat [("sub", JStr userId); ("email", JStr email); ("type", JStr "session")])
    as Hflat.
  { split.
    - apply (bool_decide_unpack _). by vm_compute.
    - intros k v Hin.
      repeat (apply elem_of_cons in Hin as [[= -> ->]|Hin]; [done|]).
      by apply elem_of_nil in Hin. }
  pose proof (verifyToken_generated _ w w1 w2 token Hflat Hgen) as Hverify.
  apply Z.ltb_ge in Hle. rewrite Hle in Hverify.
  unfold authenticate. rewrite try_catch_rethrow.
  change (truthy (VStr ("Bearer " +:+ token))) with true.
  rewrite (startsWith_app "Bearer " token). cbn [negb orb].
  change 7%nat with (String.length "Bearer "). rewrite slice_app.
  apply try_catch_inr. by rewrite user_of_run, Hverify.
Qed.

(** X19: every failure of [authenticate] is an [AuthenticationError], which
    the error handler answers with the status 401 and the error's message:
    "Authorization token required" when the header is missing or does not
    start with "Bearer ", and otherwise the message of the failure of
    [verifyToken], which begins "Token verification failed: ". *)
Theorem authenticate_failures (authorization : option string) (w w' : world) (e : exn) :
  authenticate config authorization w = (inl e, w') →
  ∃ m, e = AuthenticationError m ∧
       ErrorHandler.errorHandler e =
         {| ErrorHandler.status := 401; ErrorHandler.body_message := m;
            ErrorHandler.body_errors := None |} ∧
       (m = "Authorization token required" ∧ w' = w ∧
        (authorization = None ∨
         ∃ h, authorization = Some h ∧ Auth.startsWith "Bearer " h = false) ∨
        ∃ token m0,
          authorization = Some ("Bearer " +:+ token) ∧
          verifyToken config token w = (inl (Error m), w') ∧
          m = "Token verification failed: " +:+ m0).
Proof.
  unfold authenticate. rewrite try_catch_rethrow.
  destruct authorization as [h|];
    [|intros [= <- <-]; eexists; split; [reflexivity|]; split; [reflexivity|];
      left; split_and!; [done..|by left]].
  destruct (Auth.startsWith "Bearer " h) eqn:Hstart.
  - pose proof (startsWith_slice _ _ Hstart) as Hh.
    change (String.length "Bearer ") with 7%nat in Hh.
    assert (truthy (VStr h) = true) as -> by (rewrite Hh; done).
    cbn [negb orb]. intros (e0 & Hrun & ->)%try_catch_inl.
    rewrite user_of_run in Hrun.
    destruct (verifyToken config (slice 7 h) w) as [[e1|body] w1] eqn:Hverify.
    + injection Hrun as <- <-.
      destruct (verifyToken_inl _ _ _ _ Hverify) as [m0 ->].
      eexists. split; [reflexivity|]. split; [reflexivity|]. right.
      exists (slice 7 h), m0. by rewrite <-Hh.
    + destruct (verifyToken_inr _ _ _ _ Hverify) as [Hnull _].
      by destruct body.
  - rewrite orb_true_r. intros [= <- <-]. eexists. split; [reflexivity|].
    split; [reflexivity|]. left. split_and!; [done..|]. right. by exists h.
Qed.

(** X20: [optionalAuth] never passes an error on: it sets [req.user] to the
    user that [authenticate] would set, and lets the request through without
    a user whenever [authenticate] would fail. *)
Theorem optionalAuth_never_fails (authorization : option string) (w : world) :
  optionalAuth config authorization w =
  match authenticate config authorization w with
  | (inr user, w') => (inr (Some user), w')
  | (inl _, w') => (inr None, w')
  end.
Proof.
  unfold optionalAuth, authenticate. rewrite !try_catch_rethrow.
  destruct authorization as [h|]; [|done].
  destruct (truthy (VStr h)), (Auth.startsWith "Bearer " h); try done.
  cbn [negb orb andb]. unfold try_catch, mbind, M_bind.
  by destruct (user_of config (slice 7 h) w) as [[e|u] w'].
Qed.

End token_more.

(** ** More of the summaries *)

Section summary_more.
Context `{Runtime}.

Import Txn TransactionSummary.
#[local] Open Scope float_scope.

Lemma insert_by_newer_perm (x : Transaction) (sorted : list Transaction) :
  MongoDBService.insert_by newer x sorted ≡ₚ x :: sorted.
Proof.
  induction sorted as [|y sorted IH]; [done|]. simpl.
  destruct (newer y x); [|done]. rewrite IH. apply Permutation_swap.
Qed.

Lemma sort_by_newer_perm (l : list Transaction) :
  MongoDBService.sort_by newer l ≡ₚ l.
Proof.
  induction l as [|x l IH]; [done|]. unfold MongoDBService.sort_by in *. simpl.
  by rewrite insert_by_newer_perm, IH.
Qed.

Lemma insert_by_newer_sorted (x : Transaction) (sorted : list Transaction) :
  StronglySorted newest_first_order sorted →
  StronglySorted newest_first_order (MongoDBService.insert_by newer x sorted).
Proof.
  induction 1 as [|y sorted Hs IH Hall]; simpl.
  - repeat constructor.
  - unfold newer at 1. destruct (date x <? date y)%Z eqn:Hlt.
    + apply Z.ltb_lt in Hlt. constructor; [done|].
      rewrite insert_by_newer_perm. constructor; [|done].
      unfold newest_first_order. lia.
    + apply Z.ltb_ge in Hlt. constructor; [by constructor|].
      constructor; [done|].
      eapply Forall_impl; [exact Hall|]. unfold newest_first_order. intros; lia.
Qed.

Lemma sort_by_newer_sorted (l : list Transaction) :
  StronglySorted newest_first_order (MongoDBService.sort_by newer l).
Proof.
  induction l as [|x l IH]; [constructor|]. by apply insert_by_newer_sorted.
Qed.

Lemma filter_filter {A} (p q : A → bool) (l : list A) :
  List.filter q (List.filter p l) = List.filter (λ x, p x && q x) l.
Proof.
  induction l as [|x l IH]; [done|]. simpl.
  destruct (p x); simpl; [destruct (q x)|]; by rewrite ?IH.
Qed.

(** X21: [getUserTransactions] returns the stored transactions of the user
    that pass the filters given (an empty type or category filters nothing),
    each as often as it is stored, ordered newest first. *)
Theorem getUserTransactions_filters_and_sorts
    (stored : list Transaction) (user : string) (filters : Filters) :
  getUserTransactions stored user filters ≡ₚ List.filter (wanted user filters) stored ∧
  StronglySorted newest_first_order (getUserTransactions stored user filters) ∧
  (∀ t, t ∈ getUserTransactions stored user filters ↔
        t ∈ stored ∧ userId t = user ∧
        (∀ k, f_type filters = Some k → k ≠ "" → type t = k) ∧
        (∀ c, f_category filters = Some c → c ≠ "" → category t = c) ∧
        (∀ start, f_startDate filters = Some start → (start ≤ date t)%Z) ∧
        (∀ end_, f_endDate filters = Some end_ → (date t ≤ end_)%Z)).
Proof.
  assert (getUserTransactions stored user filters
          ≡ₚ List.filter (wanted user filters) stored) as Hperm.
  { unfold getUserTransactions. rewrite sort_by_newer_perm, !filter_filter.
    reflexivity. }
  split; [exact Hperm|]. split; [apply sort_by_newer_sorted|].
  intros t. rewrite Hperm, list_elem_of_In, List.filter_In, <-list_elem_of_In.
  unfold wanted. rewrite !andb_true_iff, String.eqb_eq.
  assert (∀ o s, keeps o s = true ↔ ∀ k, o = Some k → k ≠ "" → s = k) as Hkeeps.
  { intros [k|] s; simpl.
    - rewrite orb_true_iff, !String.eqb_eq. split.
      + intros Hk k' [= <-] Hk'. by destruct Hk as [Hk|Hk].
      + intros Hk. destruct (decide (k = "")) as [->|Hne]; [by left|].
        right. by apply Hk.
    - split; [done|]. intros _. done. }
  rewrite !Hkeeps.
  assert (∀ o, from_option (λ start, start <=? date t)%Z true o = true ↔
               ∀ start, o = Some start → (start ≤ date t)%Z) as Hstart.
  { intros [s|]; simpl; [rewrite Z.leb_le|]; split; try done.
    - by intros Hs ? [= <-].
    - intros Hs. by apply Hs. }
  assert (∀ o, from_option (λ end_, date t <=? end_)%Z true o = true ↔
               ∀ end_, o = Some end_ → (date t ≤ end_)%Z) as Hend.
  { intros [s|]; simpl; [rewrite Z.leb_le|]; split; try done.
    - by intros Hs ? [= <-].
    - intros Hs. by apply Hs. }
  rewrite Hstart, Hend. tauto.
Qed.

(** X22: a summary is made of the user's own transactions alone: two stores
    that hold the same transactions of the user, in the same order, give the
    same summary, whatever the other users have in them. *)
Theorem getSummary_of_own_transactions
    (stored stored' : list Transaction) (user : string) (month : option string) :
  List.filter (λ t, String.eqb (userId t) user) stored
  = List.filter (λ t, String.eqb (userId t) user) stored' →
  getSummary stored user month = getSummary stored' user month.
Proof. intros Hown. unfold getSummary, getUserTransactions. by rewrite Hown. Qed.



(** *** The aggregation of the document backend *)








Lemma insert_by_newer_filter (p : Transaction → bool) (x : Transaction)
    (l : list Transaction) :
  StronglySorted newest_first_order l →
  List.filter p (MongoDBService.insert_by newer x l) =
  if p x then MongoDBService.insert_by newer x (List.filter p l) else List.filter p l.
Proof.
  induction 1 as [|y l Hs IH Hall]; simpl; [by destruct (p x)|].
  destruct (newer y x) eqn:Hn; simpl.
  - rewrite IH. destruct (p y) eqn:Hy, (p x); simpl; by rewrite ?Hn.
  - destruct (p x) eqn:Hx; [|done].
    assert (∀ l', Forall (newest_first_order y) l' →
                  MongoDBService.insert_by newer x (List.filter p l')
                  = x :: List.filter p l') as Hhead.
    { intros l' Hl'. destruct (List.filter p l') as [|z l''] eqn:Hf; [done|].
      simpl.
      assert (z ∈ l') as Hz.
      { apply list_elem_of_In. eapply (proj1 (List.filter_In p z l')).
        rewrite Hf. by left. }
      rewrite Forall_forall in Hl'. specialize (Hl' z Hz).
      unfold newest_first_order in Hl'. unfold newer in Hn |- *.
      apply Z.ltb_ge in Hn.
      assert ((date x <? date z)%Z = false) as -> by (apply Z.ltb_ge; lia). done. }
    destruct (p y) eqn:Hy.
    + simpl. by rewrite Hn.
    + by rewrite Hhead.
Qed.

Lemma sort_by_newer_filter (p : Transaction → bool) (l : list Transaction) :
  List.filter p (MongoDBService.sort_by newer l)
  = MongoDBService.sort_by newer (List.filter p l).
Proof.
  induction l as [|x l IH]; [done|].
  change (MongoDBService.sort_by newer (x :: l))
    with (MongoDBService.insert_by newer x (MongoDBService.sort_by newer l)).
  rewrite insert_by_newer_filter by apply sort_by_newer_sorted.
  simpl. destruct (p x); [|done]. by rewrite IH.
Qed.

Lemma kinds_count (l : list Transaction) :
  (length (List.filter (λ t, String.eqb (type t) "income") l)
   + length (List.filter (λ t, String.eqb (type t) "expense") l) ≤ length l)%nat ∧
  (closed_kinds l →
   (length (List.filter (λ t, String.eqb (type t) "income") l)
    + length (List.filter (λ t, String.eqb (type t) "expense") l) = length l)%nat).
Proof.
  induction l as [|x l [IHle IHeq]]; [done|]. simpl.
  destruct (String.eqb_spec (type x) "income") as [Hi|Hi];
    destruct (String.eqb_spec (type x) "expense") as [He|He]; simpl.
  - by rewrite Hi in He.
  - split; [lia|]. intros Hk. rewrite IHeq; [done|].
    intros t Ht. apply Hk. by right.
  - split; [lia|]. intros Hk. rewrite <-IHeq; [lia|].
    intros t Ht. apply Hk. by right.
  - split; [lia|]. intros Hk. destruct (Hk x ltac:(left)); done.
Qed.

(** X25: [getCategorySummary] sums up exactly the transactions that
    [getUserTransactions] returns for the user, the category and the date
    range, in that order.  Its two counts never exceed the number of those
    transactions, and add up to it when each is an income or an expense; with
    no such transaction the total and the average are 0. *)
Theorem getCategorySummary_counts
    (stored : list Transaction) (user category : string) (filters : Filters) :
  let listed :=
    getUserTransactions stored user
      {| f_type := None; f_category := Some category;
         f_startDate := f_startDate filters; f_endDate := f_endDate filters |} in
  let s := getCategorySummary stored user category filters in
  c_transactionCount s = length listed ∧
  totalAmount s = total_of listed ∧
  (incomeCount s + expenseCount s ≤ c_transactionCount s)%nat ∧
  (closed_kinds listed → (incomeCount s + expenseCount s = c_transactionCount s)%nat) ∧
  (listed = [] → totalAmount s = 0 ∧ average s = 0).
Proof.
  intros listed s.
  set (filtered :=
    let transactions :=
      getUserTransactions stored user
        {| f_type := None; f_category := Some category;
           f_startDate := None; f_endDate := None |} in
    let filtered :=
      match f_startDate filters with
      | Some start => List.filter (λ t, start <=? date t)%Z transactions
      | None => transactions
      end in
    match f_endDate filters with
    | Some end_ => List.filter (λ t, date t <=? end_)%Z filtered
    | None => filtered
    end).
  assert (filtered = listed) as Hlisted.
  { unfold filtered, listed, getUserTransactions. cbn [f_type f_category f_startDate f_endDate].
    cbn [keeps from_option].
    assert (∀ l : list Transaction, List.filter (λ _, true) l = l) as Htrue
      by (intros l; induction l as [|? ? IH]; [done|]; simpl; by rewrite IH).
    rewrite !Htrue.
    destruct (f_startDate filters) as [start|], (f_endDate filters) as [end_|];
      cbn [from_option]; rewrite ?Htrue, ?sort_by_newer_filter; done. }
  assert (s = {| c_category := category;
                 totalAmount := total_of filtered;
                 c_transactionCount := length filtered;
                 incomeCount :=
                   length (List.filter (λ t, String.eqb (type t) "income") filtered);
                 expenseCount :=
                   length (List.filter (λ t, String.eqb (type t) "expense") filtered);
                 average :=
                   Number.round2
                     (if (0 <? length filtered)%nat
                      then total_of filtered / Number.of_Z (Z.of_nat (length filtered))
                      else 0) |}) as -> by reflexivity.
  cbn [c_transactionCount totalAmount incomeCount expenseCount average].
  rewrite Hlisted. destruct (kinds_count listed) as [Hle Heq].
  split_and!; try done.
  intros ->. split; [done|]. by vm_compute.
Qed.

End summary_more.

(** ** More of MongoDBService.find *)

Section find_more.
Context {D : Type} (createdAt_desc : D → D → bool).

Import MongoDBService.

(** X26: when the database cannot be reached, [find] fails with the
    [DatabaseError] "Failed to find documents", which wraps the
    [DatabaseError] "Database connection failed" of [ensureConnection], which
    wraps the error of the connection; the error handler answers it with the
    status 500 and the outer message alone. *)
Theorem find_unreachable (db : Mongo) (query : D → bool) (options : Options) (e : exn) :
  connection db = inl e →
  find createdAt_desc db query options =
    inl (DatabaseError "Failed to find documents"
           (DatabaseError "Database connection failed" e)) ∧
  ErrorHandler.errorHandler
    (DatabaseError "Failed to find documents"
       (DatabaseError "Database connection failed" e)) =
    {| ErrorHandler.status := 500;
       ErrorHandler.body_message := "Failed to find documents";
       ErrorHandler.body_errors := None |}.
Proof. intros He. unfold find, ensureConnection. by rewrite He. Qed.

(** X27: on a reachable database, [find] with no options returns the first
    ten matching documents, the most recently created first, and reports
    [skip = 0], [limit = 10] and the pages of ten; with the limit 0 it returns
    every matching document after the skipped ones, and [pages] is no number:
    [Infinity] when something matches and [NaN] when nothing does. *)
Theorem find_default_and_unlimited
    (db : Mongo) (query : D → bool) (skipped : nat)
    (sort : option (D → D → bool)) :
  connection db = inr tt →
  find createdAt_desc db query
       {| opt_skip := None; opt_limit := None; opt_sort := None;
          opt_select := None; opt_populate := [] |} =
    inr {| data := take 10 (sort_by createdAt_desc (List.filter query (documents db)));
           total := Z.of_nat (length (List.filter query (documents db)));
           MongoDBService.skip := 0; MongoDBService.limit := 10;
           pages := Lib.Int (- (- Z.of_nat (length (List.filter query (documents db))) / 10)) |} ∧
  find createdAt_desc db query
       {| opt_skip := Some (Z.of_nat skipped); opt_limit := Some 0; opt_sort := sort;
          opt_select := None; opt_populate := [] |} =
    inr {| data := drop skipped
                     (sort_by (default createdAt_desc sort) (List.filter query (documents db)));
           total := Z.of_nat (length (List.filter query (documents db)));
           MongoDBService.skip := Z.of_nat skipped; MongoDBService.limit := 0;
           pages := if decide (List.filter query (documents db) = [])
                    then Lib.NaN else Lib.Infinity |}.
Proof.
  intros Hc. unfold find, ensureConnection. rewrite Hc. cbn [default from_option opt_skip opt_limit opt_sort].
  assert (∀ l : list D, shape {| opt_skip := None; opt_limit := None; opt_sort := None;
                                 opt_select := None; opt_populate := [] |} <$> l = l) as Hid1
    by (intros l; induction l as [|? ? IH]; [done|]; by rewrite fmap_cons, IH).
  assert (∀ l : list D, shape {| opt_skip := Some (Z.of_nat skipped); opt_limit := Some 0;
                                 opt_sort := sort;
                                 opt_select := None; opt_populate := [] |} <$> l = l) as Hid2
    by (intros l; induction l as [|? ? IH]; [done|]; by rewrite fmap_cons, IH).
  split.
  - cbn. by rewrite Hid1.
  - unfold id. assert ((Z.of_nat skipped <? 0) = false) as -> by (apply Z.ltb_ge; lia).
    rewrite Hid2, Nat2Z.id. unfold take_limit, Lib.ceil_div. cbn.
    destruct (List.filter query (documents db)) as [|d l] eqn:Hm.
    + by rewrite decide_True.
    + rewrite decide_False by done. cbn [length].
      assert ((Z.of_nat (S (length l)) =? 0) = false) as -> by (apply Z.eqb_neq; lia).
      by destruct (0 <? _).
Qed.

End find_more.

(** ** The properties above on the sample data *)

Section more_examples.
#[local] Existing Instance Node.runtime.
#[local] Existing Instance Host.platform.
#[local] Existing Instance host_laws.

Import FileStorageService.

Lemma lunch_stored : content lunch_world "data/transactions.json" = [lunch].
Proof. reflexivity. Qed.

Lemma lunch_only (id : string) :
  has_id id lunch = false →
  ∀ r, r ∈ content lunch_world "data/transactions.json" → has_id id r = false.
Proof. intros Hid r Hr. rewrite lunch_stored in Hr. by apply list_elem_of_singleton in Hr as ->. Qed.

Lemma lunch_is_stored : lunch ∈ content lunch_world "data/transactions.json".
Proof. rewrite lunch_stored. left. Qed.

(** X4 on an id that the transactions file does not hold. *)
Lemma absent_transaction_is_NotFound_witness :
  TransactionService.getTransactionById default_config "txn_2" lunch_world
    = (inl (NotFoundError "Transaction"), lunch_world) ∧
  TransactionService.updateTransaction default_config "txn_2" {[ "amount" := VNum 75 ]}
    lunch_world = (inl (NotFoundError "Transaction"), lunch_world) ∧
  TransactionService.deleteTransaction default_config "txn_2" lunch_world
    = (inl (NotFoundError "Transaction"), lunch_world) ∧
  ErrorHandler.errorHandler (NotFoundError "Transaction") =
    {| ErrorHandler.status := 404; ErrorHandler.body_message := "Transaction not found";
       ErrorHandler.body_errors := None |}.
Proof.
  exact (absent_transaction_is_NotFound default_config "txn_2" {[ "amount" := VNum 75 ]}
           lunch_world (lunch_only "txn_2" eq_refl)).
Defined.

(** X5 on the stored lunch. *)
Lemma deleteTransaction_then_get_witness :
  ∃ w', TransactionService.deleteTransaction default_config "txn_1" lunch_world
          = (inr (deleted "txn_1"), w') ∧
        content w' "data/transactions.json" =
          List.filter (λ item, negb (has_id "txn_1" item))
                      (content lunch_world "data/transactions.json") ∧
        TransactionService.getTransactionById default_config "txn_1" w'
          = (inl (NotFoundError "Transaction"), w').
Proof.
  exact (deleteTransaction_then_get default_config "txn_1" lunch lunch_world
           lunch_is_stored eq_refl).
Defined.


Lemma john_is_stored : content john_world "data/users.json" = [john_stored].
Proof. reflexivity. Qed.

Lemma john_only (id : string) :
  has_id id john_stored = false →
  ∀ r, r ∈ content john_world "data/users.json" → has_id id r = false.
Proof.
  intros Hid r Hr. rewrite john_is_stored in Hr. by apply list_elem_of_singleton in Hr as ->.
Qed.

Lemma john_in_store : john_stored ∈ content john_world "data/users.json".
Proof. rewrite john_is_stored. left. Qed.

(** X8 on an id that the users file does not hold. *)
Lemma absent_user_is_NotFound_witness :
  UserService.getUserById default_config "user_0" john_world
    = (inl (NotFoundError "User"), john_world) ∧
  UserService.updatePreferences default_config "user_0" None john_world
    = (inl (NotFoundError "User"), john_world) ∧
  UserService.deleteUser default_config "user_0" john_world
    = (inl (NotFoundError "User"), john_world) ∧
  ErrorHandler.errorHandler (NotFoundError "User") =
    {| ErrorHandler.status := 404; ErrorHandler.body_message := "User not found";
       ErrorHandler.body_errors := None |}.
Proof.
  exact (absent_user_is_NotFound default_config "user_0" None john_world
           (john_only "user_0" eq_refl)).
Defined.

(** X9 on the stored user. *)
Lemma deleteUser_then_get_witness :
  ∃ w', UserService.deleteUser default_config john_id john_world
          = (inr (deleted john_id), w') ∧
        content w' "data/users.json" =
          List.filter (λ item, negb (has_id john_id item))
                      (content john_world "data/users.json") ∧
        UserService.getUserById default_config john_id w' = (inl (NotFoundError "User"), w').
Proof.
  exact (deleteUser_then_get default_config john_id john_stored john_world
           john_in_store eq_refl).
Defined.



Lemma lunch_is_created :
  TransactionService.createTransaction default_config lunch fresh
  = (inr lunch_created, lunch_created_world).
Proof. reflexivity. Qed.

(** X12 on the transaction created for the lunch. *)
Lemma validateId_refuses_created_ids_witness :
  Validation.validateId "txn_1700000000000_k3j9x0q1z"
  = Validation.Respond 400 "Invalid ID format" [].
Proof.
  exact (validateId_refuses_created_ids default_config lunch fresh lunch_created_world
           lunch_created "txn_1700000000000_k3j9x0q1z" (or_introl lunch_is_created) eq_refl).
Defined.


(** X14 on the lunch, sent as the body of a create request. *)
Lemma validateTransaction_shapes_data_witness :
  truthy_opt (lunch !! "userId") = true ∧
  lunch_validated !! "userId" = lunch !! "userId" ∧
  (lunch !! "type" = Some (VStr "income") ∨ lunch !! "type" = Some (VStr "expense")) ∧
  lunch_validated !! "type" = lunch !! "type" ∧
  (∃ c, lunch !! "category" = Some (VStr c) ∧ trim c ≠ "" ∧
        lunch_validated !! "category" = Some (VStr (trim c))) ∧
  (∃ d, lunch_validated !! "description" = Some (VStr d)) ∧
  (∃ iso, lunch_validated !! "date" = Some (VStr iso)).
Proof.
  exact (validateTransaction_shapes_data lunch lunch_validated fresh (tick fresh) eq_refl).
Defined.

Import JWTService Auth.

(** X15 on the session token, verified in the second it was issued. *)
Lemma verifyToken_until_exp_witness :
  verifyToken default_config issued issued_world
    = (inr (JObj (issued_body session fresh)), tick issued_world) ∧
  member "exp" (issued_body session fresh) = Some (JNum 1700604800) ∧
  member "iat" (issued_body session fresh) = Some (JNum 1700000000).
Proof.
  destruct (verifyToken_until_exp default_config session fresh issued_world issued_world
              issued session_flat session_issued) as [Hok _].
  destruct Hok as (Hverify & Hexp & Hiat & _).
  - vm_compute. discriminate.
  - split; [exact Hverify|]. split; [rewrite Hexp|rewrite Hiat]; reflexivity.
Defined.

(** X16 on the payload segment of the session token, between a header and a
    signature that are none, eight days later. *)
Lemma decodeToken_ignores_signature_witness :
  decodeToken
    ("x" +:+ "." +:+
     "eyJzdWIiOiJ1c2VyMTIzIiwiZW1haWwiOiJ0ZXN0QGV4YW1wbGUuY29tIiwidHlwZSI6InNlc3Npb24iLCJpYXQiOjE3MDAwMDAwMDAsImV4cCI6MTcwMDYwNDgwMH0="
     +:+ "." +:+ "y") later
  = (inr (JObj (issued_body session fresh)), later).
Proof.
  exact (decodeToken_ignores_signature default_config session fresh issued_world later
           issued _ _ _ "x" "y" session_flat session_issued issued_parts eq_refl eq_refl).
Defined.

Lemma session_members :
  member "sub" session = Some (JStr "user123") ∧
  member "email" session = Some (JStr "test@example.com") ∧
  member "type" session = Some (JStr "session").
Proof. by split_and!. Qed.

(** X17 on the session token, refreshed right after it was issued. *)
Lemma refreshToken_renews_witness :
  ∃ token' w3,
    refreshToken default_config issued issued_world = (inr token', w3) ∧
    generateToken default_config
      [("sub", JStr "user123"); ("email", JStr "test@example.com"); ("type", JStr "session")]
      (tick issued_world) = (inr token', w3) ∧
    verifyToken default_config token' issued_world =
      (inr (JObj [("sub", JStr "user123"); ("email", JStr "test@example.com");
                  ("type", JStr "session");
                  ("iat", JNum (clock issued_world (S (ticks issued_world)) / 1000));
                  ("exp", JNum (clock issued_world (S (S (ticks issued_world))) / 1000
                                + lifetime))]),
       tick issued_world).
Proof.
  exact (refreshToken_renews default_config session (JStr "user123")
           (JStr "test@example.com") (JStr "session") fresh issued_world issued_world
           issued_world
           issued session_flat eq_refl eq_refl eq_refl session_issued
           ltac:(vm_compute; discriminate) ltac:(vm_compute; discriminate)).
Defined.

(** X18 on the session token in a [Bearer] header. *)
Lemma authenticate_session_witness :
  authenticate default_config (Some ("Bearer " +:+ issued)) issued_world =
    (inr {| user_id := Some (JStr "user123"); user_email := Some (JStr "test@example.com");
            user_type := Some (JStr "session") |},
     tick issued_world).
Proof.
  exact (authenticate_session default_config "user123" "test@example.com" issued
           fresh issued_world issued_world session_issued
           ltac:(vm_compute; discriminate)).
Defined.

Lemma no_header_fails :
  authenticate default_config None fresh
  = (inl (AuthenticationError "Authorization token required"), fresh).
Proof. reflexivity. Qed.

(** X19 on a request without an [Authorization] header. *)
Lemma authenticate_failures_witness :
  ∃ m, AuthenticationError "Authorization token required" = AuthenticationError m ∧
       ErrorHandler.errorHandler (AuthenticationError "Authorization token required") =
         {| ErrorHandler.status := 401; ErrorHandler.body_message := m;
            ErrorHandler.body_errors := None |} ∧
       (m = "Authorization token required" ∧ fresh = fresh ∧
        ((None : option string) = None ∨
         ∃ h, (None : option string) = Some h ∧ Auth.startsWith "Bearer " h = false) ∨
        ∃ token m0,
          (None : option string) = Some ("Bearer " +:+ token) ∧
          verifyToken default_config token fresh = (inl (Error m), fresh) ∧
          m = "Token verification failed: " +:+ m0).
Proof.
  exact (authenticate_failures default_config None fresh fresh
           (AuthenticationError "Authorization token required") no_header_fails).
Defined.

Import Txn TransactionSummary.

(** X22 on the books of one user, with and without the rent of another. *)
Lemma getSummary_of_own_transactions_witness :
  getSummary books "user_1" None = getSummary (books ++ [rent]) "user_1" None.
Proof.
  exact (getSummary_of_own_transactions books (books ++ [rent]) "user_1" None eq_refl).
Defined.



Import MongoDBService.

(** X26 on a database that refuses the connection. *)
Lemma find_unreachable_witness :
  find newest_first unreachable (λ _, true)
       {| opt_skip := None; opt_limit := None; opt_sort := None;
          opt_select := None; opt_populate := [] |} =
    inl (DatabaseError "Failed to find documents"
           (DatabaseError "Database connection failed" (Error "connect ECONNREFUSED"))) ∧
  ErrorHandler.errorHandler
    (DatabaseError "Failed to find documents"
       (DatabaseError "Database connection failed" (Error "connect ECONNREFUSED"))) =
    {| ErrorHandler.status := 500;
       ErrorHandler.body_message := "Failed to find documents";
       ErrorHandler.body_errors := None |}.
Proof.
  exact (find_unreachable newest_first unreachable (λ _, true)
           {| opt_skip := None; opt_limit := None; opt_sort := None;
              opt_select := None; opt_populate := [] |}
           (Error "connect ECONNREFUSED") eq_refl).
Defined.

(** X27 on the twenty-five documents: the first ten, and all but five. *)
Lemma find_default_and_unlimited_witness :
  (∃ r, find newest_first ledger (λ _, true)
          {| opt_skip := None; opt_limit := None; opt_sort := None;
             opt_select := None; opt_populate := [] |} = inr r ∧
        data r = [25; 24; 23; 22; 21; 20; 19; 18; 17; 16]%nat ∧ pages r = Lib.Int 3) ∧
  (∃ r, find newest_first ledger (λ _, true)
          {| opt_skip := Some 5; opt_limit := Some 0; opt_sort := None;
             opt_select := None; opt_populate := [] |} = inr r ∧
        length (data r) = 20%nat ∧ pages r = Lib.Infinity).
Proof.
  destruct (find_default_and_unlimited newest_first ledger (λ _, true) 5 None eq_refl)
    as [Hdefault Hall].
  split; eexists; (split; [eassumption|]); split; reflexivity.
Defined.

End more_examples.

(** ** The month of the file backend's summary *)

Section month_window.
Context `{Runtime}.

Import Txn TransactionSummary.

Lemma months_have_their_days : forallb Calendar.month_has_its_days (seqZ 0 1560) = true.
Proof. vm_compute. reflexivity. Qed.

Lemma day_of_month (i d : Z) :
  0 ≤ i < 1560 → Calendar.month_start i ≤ d < Calendar.month_start (i + 1) →
  (Calendar.civil_from_days d).1.1 = 1970 + i / 12 ∧
  (Calendar.civil_from_days d).1.2 = i mod 12 + 1.
Proof.
  intros Hi Hd. pose proof months_have_their_days as Hall.
  rewrite forallb_forall in Hall. specialize (Hall i).
  rewrite <-list_elem_of_In, elem_of_seqZ in Hall. specialize (Hall ltac:(lia)).
  unfold Calendar.month_has_its_days in Hall. rewrite forallb_forall in Hall.
  specialize (Hall d). rewrite <-list_elem_of_In, elem_of_seqZ in Hall.
  specialize (Hall ltac:(lia)).
  destruct (Calendar.civil_from_days d) as [[y m] day]. simpl.
  apply andb_true_iff in Hall as [Hy Hm]. lia.
Qed.

Lemma month_of_day (n : nat) (d : Z) :
  Calendar.month_start 0 ≤ d < Calendar.month_start (Z.of_nat n) →
  ∃ j, 0 ≤ j < Z.of_nat n ∧ Calendar.month_start j ≤ d < Calendar.month_start (j + 1).
Proof.
  induction n as [|n IH]; [intros Hd; change (Z.of_nat 0) with 0 in Hd; lia|]. intros Hd.
  destruct (decide (d < Calendar.month_start (Z.of_nat n))) as [Hlt|Hge].
  - destruct IH as (j & Hj & Hw); [lia|]. exists j. split; [lia|done].
  - exists (Z.of_nat n). split; [lia|].
    replace (Z.of_nat n + 1) with (Z.of_nat (S n)) by lia. lia.
Qed.

Lemma MakeDay_month (y k : Z) :
  Calendar.MakeDay y k 1 = Calendar.month_start ((y - 1970) * 12 + k).
Proof.
  unfold Calendar.month_start, Calendar.MakeDay.
  assert (((y - 1970) * 12 + k) / 12 = y - 1970 + k / 12) as -> by (apply Z.div_add_l; lia).
  assert (((y - 1970) * 12 + k) mod 12 = k mod 12) as ->
    by (rewrite Z.add_comm; apply Z.mod_add; lia).
  by replace (1970 + (y - 1970 + k / 12)) with (y + k / 12) by lia.
Qed.

Lemma new_Date_midnight (y k : Z) :
  100 ≤ y →
  new_Date y k 1 0 0 0 = Calendar.month_start ((y - 1970) * 12 + k) * Calendar.msPerDay - LocalTZA.
Proof.
  intros Hy. unfold new_Date.
  assert ((0 <=? y) && (y <=? 99) = false) as ->
    by (apply andb_false_iff; right; apply Z.leb_gt; lia).
  rewrite MakeDay_month. unfold Calendar.MakeDate, Calendar.MakeTime. lia.
Qed.

(** X28: between 1970 and 2099, the month filter of the file backend's
    summary keeps exactly the transactions dated from the first day of the
    month at 00:00, local time, up to but not including the first day of the
    next month at 00:00: the whole last day belongs to the month. *)
Theorem in_month_is_the_calendar_month (text : string) (y m : Z) (t : Transaction) :
  year_and_month text = (Some y, Some m) →
  1970 ≤ y ≤ 2099 → 1 ≤ m ≤ 12 →
  new_Date 1970 0 1 0 0 0 ≤ date t < new_Date 2100 0 1 0 0 0 →
  (in_month text t = true ↔
   new_Date y (m - 1) 1 0 0 0 ≤ date t < new_Date y m 1 0 0 0).
Proof.
  intros Hparse Hy Hm Hrange. unfold in_month. rewrite Hparse.
  rewrite (new_Date_midnight 1970 0), (new_Date_midnight 2100 0) in Hrange by lia.
  rewrite (new_Date_midnight y (m - 1)), (new_Date_midnight y m) by lia.
  set (i := (y - 1970) * 12 + (m - 1)).
  replace ((y - 1970) * 12 + m) with (i + 1) by (unfold i; lia).
  change ((1970 - 1970) * 12 + 0) with 0 in Hrange.
  change ((2100 - 1970) * 12 + 0) with (Z.of_nat 1560) in Hrange.
  assert (0 ≤ i < 1560) as Hi by (unfold i; lia).
  unfold getFullYear, getMonth, Calendar.YearFromTime, Calendar.MonthFromTime.
  set (d := Calendar.Day (date t + LocalTZA)).
  assert (∀ a b, a * Calendar.msPerDay - LocalTZA ≤ date t < b * Calendar.msPerDay - LocalTZA
                 ↔ a ≤ d < b) as Hdays.
  { intros a b. unfold d, Calendar.Day, Calendar.msPerDay.
    pose proof (Z.div_mod (date t + LocalTZA) 86400000 ltac:(lia)).
    pose proof (Z.mod_pos_bound (date t + LocalTZA) 86400000 ltac:(lia)). lia. }
  rewrite Hdays in Hrange. rewrite Hdays. rewrite andb_true_iff, !Z.eqb_eq.
  assert (i / 12 = y - 1970 ∧ i mod 12 = m - 1) as [Hdiv Hmod].
  { unfold i. split.
    - rewrite Z.div_add_l, Z.div_small by lia. lia.
    - rewrite Z.add_comm, Z.mod_add, Z.mod_small by lia. lia. }
  split.
  - intros [Hyear Hmonth].
    destruct (month_of_day 1560 d Hrange) as (j & Hj & Hwindow).
    destruct (day_of_month j d ltac:(lia) Hwindow) as [Hy' Hm'].
    assert (j = i) as ->; [|done].
    pose proof (Z.div_mod j 12 ltac:(lia)). pose proof (Z.div_mod i 12 ltac:(lia)). lia.
  - intros Hwindow. destruct (day_of_month i d Hi Hwindow) as [Hy' Hm']. lia.
Qed.

End month_window.

Section month_window_examples.
#[local] Existing Instance Node.runtime.
Import Txn TransactionSummary.

Lemma january_salary_in_range :
  new_Date 1970 0 1 0 0 0 ≤ date january_salary < new_Date 2100 0 1 0 0 0.
Proof. vm_compute. split; [discriminate|reflexivity]. Qed.

(** X28 on the salary of 31 January 2024 at noon. *)
Lemma in_month_is_the_calendar_month_witness :
  in_month "2024-01" january_salary = true ↔
  new_Date 2024 0 1 0 0 0 ≤ date january_salary < new_Date 2024 1 1 0 0 0.
Proof.
  refine (in_month_is_the_calendar_month (H := Node.runtime) "2024-01" 2024 1
            january_salary eq_refl _ _ january_salary_in_range); lia.
Defined.

End month_window_examples.
